(** * Frame transport: the memory-mapped mailbox and the camera capture slot

    A shallow embedding of

    - [Mustan_ML_Stuff/modules/shared_frame_buffer.py] (class
      [SharedFrameBuffer]): a fixed-layout memory-mapped region with a
      24-byte header and a JPEG payload, plus a 4-byte preview flag region;
    - [Mustan_ML_Stuff/eye_pipeline/modules/camera_input.py] (class
      [CameraCapture]): the latest-frame slot filled by a background thread.

    The first part is the model. Python's file system, [mmap], [struct],
    [numpy] and [cv2] are modelled as far as the two classes use them;
    exceptions are values of [outcome], and the methods of
    [SharedFrameBuffer] run in a state-and-exception monad over the file
    store and the object's fields. [CameraCapture] is a transition system
    whose events are the calls of its methods and the steps of its
    background threads. The second part proves the properties. *)

From Stdlib Require Import ZArith QArith Lia Ascii String.
From stdpp Require Import gmap strings list.
From coqutil Require Import Byte Word.LittleEndianList.

#[local] Open Scope Z_scope.

(** ** Python exceptions and outcomes *)

(** [OSError] is what [open] and [os.makedirs] raise on a path that cannot
    be written: a permission error, or a file-not-found error under a
    missing directory. Both derive from [OSError] in Python, and the store
    does not tell which of them it is. *)
Inductive exn :=
| ValueError | TypeError | StructError | AttributeError
| FileNotFoundError | OSError | RuntimeError | Cv2Error.

Inductive outcome (A : Type) :=
| Ok (a : A)
| Raise (e : exn).
Arguments Ok {A} a.
Arguments Raise {A} e.

(** ** Bytes, [struct] and [numpy] *)

Abbreviation bytes := (list byte).

(** [b'\x00' * n] *)
Definition zeros (n : Z) : bytes := replicate (Z.to_nat n) Byte.x00.

(** One ['I'] field: an unsigned 32-bit integer, four bytes, least
    significant byte first (the native order of the x86 and ARM hosts the
    program runs on). [struct.pack] raises [struct.error] outside the
    range. *)
Definition pack_I (v : Z) : outcome bytes :=
  if (0 <=? v) && (v <? 2 ^ 32) then Ok (le_split 4 v) else Raise StructError.

(** [struct.unpack('I', data)[0]]: exactly four bytes are required. *)
Definition unpack_I (data : bytes) : outcome Z :=
  if Z.of_nat (length data) =? 4 then Ok (le_combine data) else Raise StructError.

(** [struct.pack('6I', a, b, c, d, e, f)] *)
Definition pack_6I (a b c d e f : Z) : outcome bytes :=
  match pack_I a, pack_I b, pack_I c, pack_I d, pack_I e, pack_I f with
  | Ok ba, Ok bb, Ok bc, Ok bd, Ok be, Ok bf =>
      Ok (ba ++ bb ++ bc ++ bd ++ be ++ bf)
  | _, _, _, _, _, _ => Raise StructError
  end.

(** The [i]-th ['I'] field of a packed record. *)
Definition field (i : nat) (data : bytes) : Z :=
  le_combine (take 4 (drop (4 * i) data)).

(** [struct.unpack('6I', data)]: exactly 24 bytes are required. *)
Definition unpack_6I (data : bytes) : outcome (Z * Z * Z * Z * Z * Z) :=
  if Z.of_nat (length data) =? 24
  then Ok (field 0 data, field 1 data, field 2 data,
           field 3 data, field 4 data, field 5 data)
  else Raise StructError.

(** A [numpy.ndarray] of [uint8]: its shape and its flat buffer. *)
Record ndarray := Ndarray { shape : list Z; pixels : bytes }.

(** [np.frombuffer(data, dtype=np.uint8).reshape((h, w, c))]: the element
    count must be [h * w * c]. *)
Definition frombuffer_reshape (data : bytes) (h w c : Z) : outcome ndarray :=
  if Z.of_nat (length data) =? h * w * c
  then Ok (Ndarray [h; w; c] data)
  else Raise ValueError.

(** [height, width, channels = frame.shape] *)
Definition unpack_shape (frame : ndarray) : outcome (Z * Z * Z) :=
  match shape frame with
  | [height; width; channels] => Ok (height, width, channels)
  | _ => Raise ValueError
  end.

(** [int(x)] on a float: truncation toward zero. Clock readings are exact
    rationals here; Python holds them in binary64. *)
Definition py_int (x : Q) : Z := Z.quot (Qnum x) (Z.pos (Qden x)).

(** [sec + (usec / 1_000_000)] *)
Definition timestamp_of (sec usec : Z) : Q :=
  (inject_Z sec + inject_Z usec / inject_Z 1000000)%Q.

(** ** Paths *)

(** [s.replace(old, new)] for a non-empty [old]: every non-overlapping
    occurrence, scanning from the left. [skip] counts the characters of a
    matched occurrence that are still to be dropped. *)
Fixpoint replace_from (skip : nat) (old new s : string) : string :=
  match s with
  | EmptyString => EmptyString
  | String ch rest =>
      match skip with
      | S k => replace_from k old new rest
      | O =>
          if String.prefix old s
          then (new +:+ replace_from (String.length old - 1) old new rest)%string
          else String ch (replace_from 0 old new rest)
      end
  end.

Definition str_replace (old new s : string) : string := replace_from 0 old new s.

Definition sep : Ascii.ascii := "/"%char.

(** [p[:p.rfind('/') + 1]] *)
Fixpoint upto_last_sep (p : string) : string :=
  match p with
  | EmptyString => EmptyString
  | String ch rest =>
      match upto_last_sep rest with
      | EmptyString => if Ascii.eqb ch sep then String sep EmptyString else EmptyString
      | h => String ch h
      end
  end.

(** [s.rstrip('/')] *)
Fixpoint rstrip_sep (s : string) : string :=
  match s with
  | EmptyString => EmptyString
  | String ch rest =>
      match rstrip_sep rest with
      | EmptyString => if Ascii.eqb ch sep then EmptyString else String ch EmptyString
      | r => String ch r
      end
  end.

(** [os.path.dirname] (posixpath) *)
Definition dirname (p : string) : string :=
  let head := upto_last_sep p in
  match rstrip_sep head with
  | EmptyString => head
  | stripped => stripped
  end.

(** ** The file store *)

(** Files by path, and the paths that cannot be opened for writing
    (permissions, a missing parent directory). Several processes and
    several mappings see the same store. *)
Record world := World {
  files : gmap string bytes;
  denied : gset string
}.

Definition contents (w : world) (p : string) : bytes := default [] (files w !! p).

Definition store (p : string) (data : bytes) (w : world) : world :=
  World (<[p := data]> (files w)) (denied w).

(** [os.makedirs(d, exist_ok=True)]: the empty name raises
    [FileNotFoundError], a directory that cannot be made an [OSError]. *)
Definition makedirs (d : string) (w : world) : outcome unit :=
  if decide (d = EmptyString) then Raise FileNotFoundError
  else if decide (d ∈ denied w) then Raise OSError
  else Ok tt.

(** [with open(p, 'wb') as f: f.write(data)]: creates or truncates; an
    [OSError] on a path that cannot be written. *)
Definition write_new_file (p : string) (data : bytes) (w : world) : outcome unit * world :=
  if decide (p ∈ denied w) then (Raise OSError, w)
  else (Ok tt, store p data w).

(** An open file object. *)
Record file_obj := FileObj { f_path : string; f_closed : bool }.

(** [open(p, 'r+b')]: the file must exist and be writable; an [OSError]
    on a path that cannot be written. *)
Definition open_rw (p : string) (w : world) : outcome file_obj :=
  if decide (p ∈ denied w) then Raise OSError
  else match files w !! p with
       | None => Raise FileNotFoundError
       | Some _ => Ok (FileObj p false)
       end.

(** ** [mmap] objects *)

Inductive access := ACCESS_DEFAULT | ACCESS_READ | ACCESS_WRITE.

(** A mapping shares the file's bytes (MAP_SHARED), so it is a handle into
    the store: the path, the mapped length, the access mode, the current
    position, and whether [close] was called. *)
Record mmap := Mmap {
  m_path : string;
  m_size : Z;
  m_access : access;
  m_pos : Z;
  m_closed : bool
}.

Definition set_pos (p : Z) (m : mmap) : mmap :=
  Mmap (m_path m) (m_size m) (m_access m) p (m_closed m).

Definition set_closed (m : mmap) : mmap :=
  Mmap (m_path m) (m_size m) (m_access m) (m_pos m) true.

(** The bytes seen through the mapping: the first [m_size] bytes of the
    file. This is exact as long as the file holds at least the mapped
    length ([backed] below). On a file cut below it the real mapping
    keeps its length, reads zeros up to the end of the file's last page and
    kills the process with SIGBUS beyond; that is outside this model, which
    then shows the bytes that remain. *)
Definition view (w : world) (m : mmap) : bytes :=
  take (Z.to_nat (m_size m)) (contents w (m_path m)).

(** The file holds at least the bytes that the mapping covers: the states
    in which reading and writing through the mapping are modelled exactly.
    The constructors map files of that length, and no method of the class
    shortens a mapped file, unless the data path is its own flag path. *)
Definition backed (w : world) (m : mmap) : Prop :=
  m_size m <= Z.of_nat (length (contents w (m_path m))).

(** [mmap.mmap(f.fileno(), length, access=acc)] with [length > 0]: the file
    must hold at least [length] bytes (POSIX). *)
Definition mmap_new (f : file_obj) (length_ : Z) (acc : access) (w : world) : outcome mmap :=
  match files w !! f_path f with
  | None => Raise ValueError
  | Some data =>
      if Z.of_nat (length data) <? length_ then Raise ValueError
      else Ok (Mmap (f_path f) length_ acc 0 false)
  end.

(** The methods below take the store and the mapping and give the outcome,
    the store and the mapping afterwards. *)
Definition mmap_op (A : Type) := world -> mmap -> outcome A * world * mmap.

(** [m.seek(pos)] *)
Definition mmap_seek (pos : Z) : mmap_op unit := fun w m =>
  if m_closed m then (Raise ValueError, w, m)
  else if (pos <? 0) || (m_size m <? pos) then (Raise ValueError, w, m)
  else (Ok tt, w, set_pos pos m).

(** [m.read(n)]: at most the bytes that remain after the position. *)
Definition mmap_read (n : Z) : mmap_op bytes := fun w m =>
  if m_closed m then (Raise ValueError, w, m)
  else
    let remaining := Z.max 0 (m_size m - m_pos m) in
    let k := if (n <? 0) || (remaining <? n) then remaining else n in
    (Ok (take (Z.to_nat k) (drop (Z.to_nat (m_pos m)) (view w m))), w, set_pos (m_pos m + k) m).

(** [m.write(data)]: refused on a read-only mapping, and when the data does
    not fit after the position. Exact on a [backed] mapping, where the
    written range lies inside the file; a real file that is shorter keeps
    its length (and a write past its last page is a SIGBUS), which is
    outside this model. *)
Definition mmap_write (data : bytes) : mmap_op unit := fun w m =>
  if m_closed m then (Raise ValueError, w, m)
  else match m_access m with
       | ACCESS_READ => (Raise TypeError, w, m)
       | _ =>
           let n := Z.of_nat (length data) in
           if (m_size m <? m_pos m) || (m_size m - m_pos m <? n)
           then (Raise ValueError, w, m)
           else
             let old := contents w (m_path m) in
             let new := take (Z.to_nat (m_pos m)) old ++ data
                        ++ drop (Z.to_nat (m_pos m + n)) old in
             (Ok tt, store (m_path m) new w, set_pos (m_pos m + n) m)
       end.

(** [m.flush()] *)
Definition mmap_flush : mmap_op unit := fun w m =>
  if m_closed m then (Raise ValueError, w, m) else (Ok tt, w, m).

(** [m[lo:hi]] for [0 <= lo <= hi] *)
Definition mmap_slice (lo hi : Z) : mmap_op bytes := fun w m =>
  if m_closed m then (Raise ValueError, w, m)
  else (Ok (take (Z.to_nat (hi - lo)) (drop (Z.to_nat lo) (view w m))), w, m).

(** [bool(m)], that is [len(m) != 0]; [len] raises on a closed mapping. *)
Definition mmap_bool : mmap_op bool := fun w m =>
  if m_closed m then (Raise ValueError, w, m)
  else (Ok (negb (m_size m =? 0)), w, m).

(** [m.close()] *)
Definition mmap_close : mmap_op unit := fun w m => (Ok tt, w, set_closed m).

(** ** The state-and-exception monad of the methods *)

(** The fields of a [SharedFrameBuffer] object. *)
Record SharedFrameBuffer := Object {
  file_path : string;
  mmap_file : option mmap;
  file_handle : option file_obj;
  flag_path : string;
  flag_mmap : option mmap;
  flag_handle : option file_obj
}.

Record state := State { env : world; self : SharedFrameBuffer }.

Definition M (A : Type) : Type := state -> outcome A * state.

#[export] Instance M_ret : MRet M := fun A a s => (Ok a, s).

#[export] Instance M_bind : MBind M := fun A B k c s =>
  match c s with
  | (Ok a, s') => k a s'
  | (Raise e, s') => (Raise e, s')
  end.

Definition raise {A} (e : exn) : M A := fun s => (Raise e, s).

(** Reading an attribute of [self]. *)
Definition gets {A} (f : SharedFrameBuffer -> A) : M A := fun s => (Ok (f (self s)), s).

(** A pure computation that may raise. *)
Definition lift {A} (o : outcome A) : M A := fun s => (o, s).

(** A computation that raises or not depending on the store. *)
Definition ask {A} (f : world -> outcome A) : M A := fun s => (f (env s), s).

(** A computation that changes the store. *)
Definition act {A} (f : world -> outcome A * world) : M A := fun s =>
  let '(r, w') := f (env s) in (r, State w' (self s)).

(** [try: body except Exception as e: handler e]; what [body] did to the
    state before it raised stays done. *)
Definition try_except {A} (body : M A) (handler : exn -> M A) : M A := fun s =>
  match body s with
  | (Ok a, s') => (Ok a, s')
  | (Raise e, s') => handler e s'
  end.

(** The two mapping attributes, [self.mmap_file] and [self.flag_mmap]. *)
Inductive attr := Frame_ | Flag_.

Definition get_attr (a : attr) (o : SharedFrameBuffer) : option mmap :=
  match a with Frame_ => mmap_file o | Flag_ => flag_mmap o end.

Definition set_attr (a : attr) (v : option mmap) (o : SharedFrameBuffer) : SharedFrameBuffer :=
  match a with
  | Frame_ => Object (file_path o) v (file_handle o) (flag_path o) (flag_mmap o) (flag_handle o)
  | Flag_ => Object (file_path o) (mmap_file o) (file_handle o) (flag_path o) v (flag_handle o)
  end.

Definition set_file_handle (h : option file_obj) (o : SharedFrameBuffer) : SharedFrameBuffer :=
  Object (file_path o) (mmap_file o) h (flag_path o) (flag_mmap o) (flag_handle o).

Definition set_flag_handle (h : option file_obj) (o : SharedFrameBuffer) : SharedFrameBuffer :=
  Object (file_path o) (mmap_file o) (file_handle o) (flag_path o) (flag_mmap o) h.

Definition modify_self (f : SharedFrameBuffer -> SharedFrameBuffer) : M unit := fun s =>
  (Ok tt, State (env s) (f (self s))).

(** [self.<a>.<method>(...)]: a method call on one of the two mappings;
    on [None] it raises [AttributeError]. *)
Definition call {A} (a : attr) (op : mmap_op A) : M A := fun s =>
  match get_attr a (self s) with
  | None => (Raise AttributeError, s)
  | Some m =>
      let '(r, w', m') := op (env s) m in
      (r, State w' (set_attr a (Some m') (self s)))
  end.

(** [if self.<a>:] the truth value of the attribute: [None] is false, a
    mapping is asked for its length. *)
Definition truthy (a : attr) : M bool := fun s =>
  match get_attr a (self s) with
  | None => (Ok false, s)
  | Some _ => call a mmap_bool s
  end.

(** ** class SharedFrameBuffer *)

Definition HEADER_SIZE : Z := 24.
Definition MAX_FRAME_SIZE : Z := 1920 * 1080 * 3.
Definition TOTAL_SIZE : Z := HEADER_SIZE + MAX_FRAME_SIZE.

(** [file_path.replace('.mmap', '_flag.mmap')] *)
Definition flag_path_of (file_path : string) : string :=
  str_replace ".mmap" "_flag.mmap" file_path.

(** The dictionary returned by [read_frame_info]. *)
Record frame_info := FrameInfo {
  info_width : Z;
  info_height : Z;
  info_channels : Z;
  info_timestamp : Q;
  info_frame_size : Z
}.

Section SharedFrameBuffer.

(** [cv2.imencode('.jpg', frame, [int(cv2.IMWRITE_JPEG_QUALITY), quality])]:
    the success flag and the encoded buffer, or an exception. *)
Variable imencode : ndarray -> Z -> outcome (bool * bytes).

(** [_create_flag_file]: a 4-byte flag file holding 1, mapped read-write. *)
Definition _create_flag_file : M unit :=
  try_except
    (p ← gets flag_path;
     one ← lift (pack_I 1);
     _ ← act (write_new_file p one);
     h ← ask (open_rw p);
     _ ← modify_self (set_flag_handle (Some h));
     m ← ask (mmap_new h 4 ACCESS_DEFAULT);
     modify_self (set_attr Flag_ (Some m)))
    (λ e, raise e).

(** [_open_flag_file]: maps the existing flag file; on any exception it
    creates a new one. *)
Definition _open_flag_file : M unit :=
  try_except
    (p ← gets flag_path;
     h ← ask (open_rw p);
     _ ← modify_self (set_flag_handle (Some h));
     m ← ask (mmap_new h 4 ACCESS_DEFAULT);
     modify_self (set_attr Flag_ (Some m)))
    (λ _, _create_flag_file).

(** [_create_buffer]: a zero-filled data file of [TOTAL_SIZE] bytes, mapped
    with [ACCESS_WRITE], its header zeroed once more through the mapping. *)
Definition _create_buffer : M unit :=
  try_except
    (p ← gets file_path;
     _ ← ask (makedirs (dirname p));
     _ ← act (write_new_file p (zeros TOTAL_SIZE));
     h ← ask (open_rw p);
     _ ← modify_self (set_file_handle (Some h));
     m ← ask (mmap_new h TOTAL_SIZE ACCESS_WRITE);
     _ ← modify_self (set_attr Frame_ (Some m));
     _ ← call Frame_ (mmap_seek 0);
     header ← lift (pack_6I 0 0 0 0 0 0);
     call Frame_ (mmap_write header))
    (λ e, raise e).

(** [_open_buffer]: maps the existing data file with [ACCESS_READ]. *)
Definition _open_buffer : M unit :=
  try_except
    (p ← gets file_path;
     h ← ask (open_rw p);
     _ ← modify_self (set_file_handle (Some h));
     m ← ask (mmap_new h TOTAL_SIZE ACCESS_READ);
     modify_self (set_attr Frame_ (Some m)))
    (λ e, raise e).

(** [SharedFrameBuffer(file_path, create)]: the object's fields are set
    and one of the two branches runs; a raised exception means that no
    object is returned. *)
Definition __init__ (file_path : string) (create : bool) (w : world) : outcome unit * state :=
  let blank := Object file_path None None (flag_path_of file_path) None None in
  (if create
   then (_ ← _create_buffer; _create_flag_file)
   else (_ ← _open_buffer; _open_flag_file)) (State w blank).

(** [is_preview_enabled] *)
Definition is_preview_enabled : M bool :=
  try_except
    (mapped ← truthy Flag_;
     if mapped : bool
     then
       data ← call Flag_ (mmap_slice 0 4);
       flag_value ← lift (unpack_I data);
       mret (flag_value =? 1)
     else mret false)
    (λ _, mret false).

(** [write_frame(frame, quality)]; [now] is the reading of [time.time()]
    during the call. *)
Definition write_frame (now : Q) (frame : ndarray) (quality : Z) : M bool := fun s =>
  match mmap_file (self s) with
  | None => (Ok false, s)
  | Some _ =>
      try_except
        ('(height, width, channels) ← lift (unpack_shape frame);
         '(success, jpeg_buffer) ← lift (imencode frame quality);
         if negb success then mret false
         else
           let jpeg_bytes := jpeg_buffer in
           let frame_size := Z.of_nat (length jpeg_bytes) in
           if MAX_FRAME_SIZE <? frame_size then mret false
           else
             let timestamp := now in
             let timestamp_sec := py_int timestamp in
             let timestamp_usec :=
               py_int ((timestamp - inject_Z timestamp_sec) * inject_Z 1000000)%Q in
             _ ← call Frame_ (mmap_seek 0);
             header ← lift (pack_6I width height channels
                                    timestamp_sec timestamp_usec frame_size);
             _ ← call Frame_ (mmap_write header);
             _ ← call Frame_ (mmap_write jpeg_bytes);
             _ ← call Frame_ mmap_flush;
             mret true)
        (λ _, mret false) s
  end.

(** [read_frame]: the body of its [try], then the method. *)
Definition read_frame_body : M (option ndarray * option Q) :=
  _ ← call Frame_ (mmap_seek 0);
  header_data ← call Frame_ (mmap_read HEADER_SIZE);
  '(width, height, channels, ts_sec, ts_usec, frame_size) ← lift (unpack_6I header_data);
  if (width =? 0) || (height =? 0) || (frame_size =? 0) then mret (None, None)
  else
    frame_data ← call Frame_ (mmap_read frame_size);
    frame ← lift (frombuffer_reshape frame_data height width channels);
    let timestamp := timestamp_of ts_sec ts_usec in
    mret (Some frame, Some timestamp).

Definition read_frame : M (option ndarray * option Q) := fun s =>
  match mmap_file (self s) with
  | None => (Ok (None, None), s)
  | Some _ => try_except read_frame_body (λ _, mret (None, None)) s
  end.

(** [read_frame_info]: the body of its [try], then the method. *)
Definition read_frame_info_body : M (option frame_info) :=
  _ ← call Frame_ (mmap_seek 0);
  header_data ← call Frame_ (mmap_read HEADER_SIZE);
  '(width, height, channels, ts_sec, ts_usec, frame_size) ← lift (unpack_6I header_data);
  if (width =? 0) || (height =? 0) then mret None
  else mret (Some (FrameInfo width height channels (timestamp_of ts_sec ts_usec) frame_size)).

Definition read_frame_info : M (option frame_info) := fun s =>
  match mmap_file (self s) with
  | None => (Ok None, s)
  | Some _ => try_except read_frame_info_body (λ _, mret None) s
  end.

(** [if self.<handle>: self.<handle>.close()]; a file object is always
    true. *)
Definition close_handle (h : option file_obj) : option file_obj :=
  match h with
  | Some f => Some (FileObj (f_path f) true)
  | None => None
  end.

(** [close] *)
Definition close : M unit :=
  try_except
    (b ← truthy Frame_;
     _ ← (if b : bool then call Frame_ mmap_close else mret tt);
     _ ← modify_self (λ o, set_file_handle (close_handle (file_handle o)) o);
     b' ← truthy Flag_;
     _ ← (if b' : bool then call Flag_ mmap_close else mret tt);
     modify_self (λ o, set_flag_handle (close_handle (flag_handle o)) o))
    (λ _, mret tt).

End SharedFrameBuffer.

(** ** States and byte ranges named in the statements *)

(** A value that fits an ['I'] field. *)
Definition u32 (v : Z) : Prop := 0 <= v < 2 ^ 32.

(** The flag file as [_create_flag_file] writes it: [struct.pack('I', 1)]. *)
Definition flag_one : bytes := [Byte.x01; Byte.x00; Byte.x00; Byte.x00].

(** The state that [SharedFrameBuffer(path, create=True)] leaves when it
    returns: both files written, both mappings open, the frame mapping
    positioned after the header it has just zeroed. *)
Definition created (path : string) (w : world) : state :=
  State
    (store (flag_path_of path) flag_one (store path (zeros TOTAL_SIZE) w))
    (Object path
       (Some (Mmap path TOTAL_SIZE ACCESS_WRITE 24 false))
       (Some (FileObj path false))
       (flag_path_of path)
       (Some (Mmap (flag_path_of path) 4 ACCESS_DEFAULT 0 false))
       (Some (FileObj (flag_path_of path) false))).

(** The fresh mailbox after [close()]. *)
Definition closed_mailbox (path : string) (w : world) : state :=
  State
    (store (flag_path_of path) flag_one (store path (zeros TOTAL_SIZE) w))
    (Object path
       (Some (Mmap path TOTAL_SIZE ACCESS_WRITE 24 true))
       (Some (FileObj path true))
       (flag_path_of path)
       (Some (Mmap (flag_path_of path) 4 ACCESS_DEFAULT 0 true))
       (Some (FileObj (flag_path_of path) true))).

(** The object that [SharedFrameBuffer(path, create=False)] returns. *)
Definition opened_object (path : string) : SharedFrameBuffer :=
  Object path
    (Some (Mmap path TOTAL_SIZE ACCESS_READ 0 false))
    (Some (FileObj path false))
    (flag_path_of path)
    (Some (Mmap (flag_path_of path) 4 ACCESS_DEFAULT 0 false))
    (Some (FileObj (flag_path_of path) false)).

(** The flag file cannot be mapped: it is missing, or shorter than four
    bytes. *)
Definition flag_unusable (w : world) (p : string) : Prop :=
  match files w !! p with
  | None => True
  | Some flag_data => Z.of_nat (length flag_data) < 4
  end.

(** The first 24 bytes seen through a mapping, and the [n] bytes after
    them (fewer when the mapping ends earlier). *)
Definition header_bytes (w : world) (m : mmap) : bytes :=
  take (Z.to_nat HEADER_SIZE) (view w m).

Definition payload_bytes (w : world) (m : mmap) (n : Z) : bytes :=
  take (Z.to_nat (Z.min n (m_size m - HEADER_SIZE)))
       (drop (Z.to_nat HEADER_SIZE) (view w m)).

(** The two clock fields that [write_frame] computes from [time.time()]. *)
Definition clock_sec (now : Q) : Z := py_int now.

Definition clock_usec (now : Q) : Z :=
  py_int ((now - inject_Z (py_int now)) * inject_Z 1000000)%Q.

(** A clock reading from 8192 s on. There a binary64 value is a multiple
    of [2^-39], so [timestamp - timestamp_sec] and its product with
    [1_000_000] are computed without rounding, and the two fields above
    are the ones that Python computes. *)
Definition exact_clock (now : Q) : Prop := (8192 <= now)%Q.

(** The state after a successful [write_frame]: header and payload
    replace the first [24 + len(payload)] bytes of the file, the bytes
    after them stay, and the mapping is positioned after the payload. *)
Definition written (s : state) (m : mmap) (header jpeg : bytes) : state :=
  State
    (store (m_path m)
       (header ++ jpeg
        ++ drop (Z.to_nat (HEADER_SIZE + Z.of_nat (length jpeg)))
                (contents (env s) (m_path m)))
       (env s))
    (set_attr Frame_
       (Some (set_pos (HEADER_SIZE + Z.of_nat (length jpeg)) m)) (self s)).

(** A path that ends in ".mmap" and has no other occurrence of it. *)
Definition single_extension (stem : string) : Prop :=
  ∀ pre post : string,
    (stem +:+ ".mmap" = pre +:+ ".mmap" +:+ post)%string → post = EmptyString.

(** ** Sample inputs *)

Definition sample_path : string := "/tmp/frame.mmap".

(** An empty file system, and one that holds a zero-filled data file but no
    flag file. *)
Definition empty_world : world := World ∅ ∅.

Definition data_only_world : world :=
  World {[ sample_path := zeros TOTAL_SIZE ]} ∅.

(** A data file left by another writer: 640 x 480 x 3, both clock fields
    zero, payload size zero. *)
Definition stale_header : bytes :=
  [Byte.x80; Byte.x02; Byte.x00; Byte.x00;
   Byte.xe0; Byte.x01; Byte.x00; Byte.x00;
   Byte.x03; Byte.x00; Byte.x00; Byte.x00;
   Byte.x00; Byte.x00; Byte.x00; Byte.x00;
   Byte.x00; Byte.x00; Byte.x00; Byte.x00;
   Byte.x00; Byte.x00; Byte.x00; Byte.x00].

Definition stale_world : world :=
  World {[ sample_path := stale_header ++ zeros MAX_FRAME_SIZE ]} ∅.

(** A single black pixel, and an encoder whose output for it is four bytes
    long (the SOI and EOI markers every JPEG stream has; a real stream is
    longer still). *)
Definition black_pixel : ndarray :=
  Ndarray [1; 1; 3] [Byte.x00; Byte.x00; Byte.x00].

Definition tiny_jpeg : bytes := [Byte.xff; Byte.xd8; Byte.xff; Byte.xd9].

Definition tiny_imencode (frame : ndarray) (quality : Z) : outcome (bool * bytes) :=
  Ok (true, tiny_jpeg).

(** An encoder whose output is one byte over the capacity. *)
Definition huge_imencode (frame : ndarray) (quality : Z) : outcome (bool * bytes) :=
  Ok (true, zeros (MAX_FRAME_SIZE + 1)).

(** A clock reading: 1700000000.25 seconds. *)
Definition sample_now : Q := 6800000001 # 4.


(** ** class CameraCapture *)

Module CameraCapture.

(** The model follows the attribute reads and writes of the methods. Calls
    of the public methods take effect one at a time; the threads started
    by [start] run [_update] one statement at a time in between. *)

(** Frames are [numpy] arrays on the heap; attributes and return values
    hold references to them. *)
Abbreviation ref := positive.
Abbreviation heap := (gmap positive bytes).

(** The fields of a [CameraCapture] object. [capture] holds whether the
    [cv2.VideoCapture] is open; [thread] whether a thread object was
    stored. The requested width, height and fps only reach the device. *)
Record object := Object {
  camera_id : Z;
  capture : option bool;
  is_opened : bool;
  grabbed : bool;
  frame : option ref;
  thread : bool;
  stop_thread : bool
}.

(** Where a background thread stands in [_update]: before the loop
    condition, inside [self.capture.read()], holding a grabbed frame in
    its local variable before or after [self.grabbed = grabbed], or past
    the loop. *)
Inductive worker :=
| AtLoopHead
| InRead
| Grabbed (l : ref)
| GrabbedStored (l : ref)
| Finished.

Record system := System {
  self : object;
  arrays : heap;
  workers : list worker
}.

(** [CameraCapture(camera_id)] *)
Definition __init__ (camera_id : Z) : system :=
  System (Object camera_id None false false None false false) ∅ [].

(** A new array holding [data]. *)
Definition alloc (data : bytes) (h : heap) : ref * heap :=
  let l := fresh (dom h) in (l, <[l := data]> h).

(** What the device does during one call of [start]. *)
Inductive start_response :=
| OpenRaises                    (* cv2.VideoCapture(...) raises *)
| NotOpened                     (* capture.isOpened() is false *)
| SetRaises                     (* a capture.set(...) raises *)
| ReadRaises                    (* the first capture.read() raises *)
| FirstRead (r : option bytes) (logged : bool).
    (* the first read returns (True, frame) or (False, None); [logged] is
       false when reading back the properties raises *)

(** [start]: its return value and the state it leaves; a frame that was
    read is a new array, and the thread is started last. *)
Definition start (r : start_response) (s : system) : bool * system :=
  let o := self s in
  match r with
  | OpenRaises => (false, s)
  | NotOpened =>
      (false,
       System (Object (camera_id o) (Some false) (is_opened o) (grabbed o)
                      (frame o) (thread o) (stop_thread o))
              (arrays s) (workers s))
  | SetRaises =>
      (false,
       System (Object (camera_id o) (Some true) (is_opened o) (grabbed o)
                      (frame o) (thread o) (stop_thread o))
              (arrays s) (workers s))
  | ReadRaises =>
      (false,
       System (Object (camera_id o) (Some true) true (grabbed o)
                      (frame o) (thread o) (stop_thread o))
              (arrays s) (workers s))
  | FirstRead None _ =>
      (false,
       System (Object (camera_id o) (Some true) true false
                      None (thread o) (stop_thread o))
              (arrays s) (workers s))
  | FirstRead (Some data) logged =>
      let '(l, h) := alloc data (arrays s) in
      if logged
      then (true,
            System (Object (camera_id o) (Some true) true true
                           (Some l) true false)
                   h (workers s ++ [AtLoopHead]))
      else (false,
            System (Object (camera_id o) (Some true) true true
                           (Some l) (thread o) (stop_thread o))
                   h (workers s))
  end.

(** One thread of [_update] evaluates
    [while not self.stop_thread and self.is_opened:] and
    [if self.capture.isOpened():]. *)
Definition check (o : object) (w : worker) : worker :=
  match w with
  | AtLoopHead =>
      if negb (stop_thread o) && is_opened o
      then match capture o with
           | Some true => InRead
           | _ => Finished
           end
      else Finished
  | _ => w
  end.

Definition _update_check (i : nat) (s : system) : system :=
  System (self s) (arrays s) (alter (check (self s)) i (workers s)).

(** [grabbed, frame = self.capture.read()] returns in thread [i]: a new
    frame, or nothing, after which the thread sleeps and loops. *)
Definition _update_read (i : nat) (r : option bytes) (s : system) : system :=
  match workers s !! i with
  | Some InRead =>
      match r with
      | Some data =>
          let '(l, h) := alloc data (arrays s) in
          System (self s) h (<[i := Grabbed l]> (workers s))
      | None => System (self s) (arrays s) (<[i := AtLoopHead]> (workers s))
      end
  | _ => s
  end.

(** Thread [i] runs its next assignment: [self.grabbed = grabbed], then
    [self.frame = frame]. *)
Definition _update_assign (i : nat) (s : system) : system :=
  let o := self s in
  match workers s !! i with
  | Some (Grabbed l) =>
      System (Object (camera_id o) (capture o) (is_opened o) true
                     (frame o) (thread o) (stop_thread o))
             (arrays s) (<[i := GrabbedStored l]> (workers s))
  | Some (GrabbedStored l) =>
      System (Object (camera_id o) (capture o) (is_opened o) (grabbed o)
                     (Some l) (thread o) (stop_thread o))
             (arrays s) (<[i := AtLoopHead]> (workers s))
  | _ => s
  end.

(** [frame.copy()] *)
Definition copy (l : ref) (h : heap) : ref * heap :=
  alloc (default [] (h !! l)) h.

(** [read_frame]: the success flag and the reference returned. *)
Definition read_frame (s : system) : (bool * option ref) * system :=
  let o := self s in
  if negb (is_opened o) then ((false, None), s)
  else
    match grabbed o, frame o with
    | true, Some l =>
        let '(l', h) := copy l (arrays s) in
        ((true, Some l'), System o h (workers s))
    | _, _ => ((false, None), s)
    end.

(** [stop]; the join waits at most a second, so the threads may or may not
    have finished. *)
Definition stop (s : system) : system :=
  let o := self s in
  System (Object (camera_id o)
                 (match capture o with Some _ => Some false | None => None end)
                 false (grabbed o) (frame o) (thread o) true)
         (arrays s) (workers s).

(** Calls of the public methods and steps of the background threads, in
    the order in which they take effect. *)
Inductive event :=
| Start (r : start_response)
| ReadFrame
| Stop
| UpdateCheck (i : nat)
| UpdateRead (i : nat) (r : option bytes)
| UpdateAssign (i : nat).

Definition step (e : event) (s : system) : system :=
  match e with
  | Start r => snd (start r s)
  | ReadFrame => snd (read_frame s)
  | Stop => stop s
  | UpdateCheck i => _update_check i s
  | UpdateRead i r => _update_read i r s
  | UpdateAssign i => _update_assign i s
  end.

Definition run (trace : list event) (s : system) : system :=
  foldl (λ s e, step e s) s trace.

(** A grab that succeeds: [capture.read()] returns [(True, frame)]. *)
Definition successful_grab (e : event) : bool :=
  match e with
  | Start (FirstRead (Some _) _) => true
  | UpdateRead _ (Some _) => true
  | _ => false
  end.

Definition is_start (e : event) : bool :=
  match e with Start _ => true | _ => false end.

(** No thread exists, and nothing was grabbed. *)
Definition never_grabbed (s : system) : Prop :=
  grabbed (self s) = false ∧ workers s = [].

(** Every reference held by the slot or by a thread points to an array. *)
Definition holds (w : worker) (l : ref) : Prop :=
  w = Grabbed l ∨ w = GrabbedStored l.

Definition allocated (s : system) : Prop :=
  (∀ l, frame (self s) = Some l → is_Some (arrays s !! l))
  ∧ (∀ i w l, workers s !! i = Some w → holds w l → is_Some (arrays s !! l)).

(** A camera that opens and delivers a first frame of three bytes. *)
Definition sample_start : event :=
  Start (FirstRead (Some [Byte.x01; Byte.x02; Byte.x03]) true).

(** What the device answers to the five [capture.get(...)] calls of
    [get_properties]. *)
Record device := Device {
  frame_width : Q;
  frame_height : Q;
  frame_fps : Q;
  device_brightness : Q;
  device_contrast : Q
}.

(** The dictionary that [get_properties] returns. *)
Record properties := Properties {
  width : Z;
  height : Z;
  fps : Z;
  brightness : Q;
  contrast : Q
}.

(** [get_properties]; [answers] is what the device answers, or the
    exception one of the calls raises (there is no handler). *)
Definition get_properties (answers : outcome device) (s : system) : outcome (option properties) :=
  let o := self s in
  if negb (is_opened o) || (match capture o with None => true | Some _ => false end)
  then Ok None
  else
    match answers with
    | Ok d =>
        Ok (Some (Properties (py_int (frame_width d)) (py_int (frame_height d))
                             (py_int (frame_fps d))
                             (device_brightness d) (device_contrast d)))
    | Raise e => Raise e
    end.

(** [__enter__]: [start()], whose result is dropped; the object itself is
    returned. *)
Definition __enter__ (r : start_response) (s : system) : system := snd (start r s).

(** [__exit__]: [stop()]. *)
Definition __exit__ (s : system) : system := stop s.

(** The bytes that a successful grab delivers. *)
Definition delivered (e : event) : option bytes :=
  match e with
  | Start (FirstRead (Some data) _) => Some data
  | UpdateRead _ (Some data) => Some data
  | _ => None
  end.

(** Every reference held by the slot or by a thread points to an array
    whose bytes satisfy [P]. *)
Definition sourced (P : bytes → Prop) (s : system) : Prop :=
  (∀ l, frame (self s) = Some l → ∃ data, arrays s !! l = Some data ∧ P data)
  ∧ (∀ i w l, workers s !! i = Some w → holds w l →
       ∃ data, arrays s !! l = Some data ∧ P data).

(** [stop()] and then a [start()] that succeeds with [data]. *)
Definition restart (data : bytes) (s : system) : system :=
  snd (start (FirstRead (Some data) true) (stop s)).

End CameraCapture.

(** ** The rest of class SharedFrameBuffer *)

(** [os.path.exists(p)], for the files of the store. *)
Definition path_exists (p : string) (w : world) : bool :=
  match files w !! p with
  | Some _ => true
  | None => false
  end.

(** [os.remove(p)]: the file must exist, and the system must let it go.
    [unlink p] is the system's answer for the path: [Ok], or the error it
    raises (no permission on the directory, a file in use), in which case
    the file stays. A mapping keeps a removed file's bytes alive; here the
    bytes go with the path, which only a mapping that is still open could
    tell apart. *)
Definition os_remove (unlink : string -> outcome unit) (p : string) (w : world) : outcome unit * world :=
  match files w !! p with
  | None => (Raise FileNotFoundError, w)
  | Some _ =>
      match unlink p with
      | Ok _ => (Ok tt, World (delete p (files w)) (denied w))
      | Raise e => (Raise e, w)
      end
  end.

(** [cleanup]: [close()], then both files are removed if they exist; one
    [try] covers both removals, so the first that raises ends it. *)
Definition cleanup (unlink : string -> outcome unit) : M unit :=
  _ ← close;
  try_except
    (data_path ← gets file_path;
     data_exists ← ask (λ w, Ok (path_exists data_path w));
     _ ← (if data_exists : bool then act (os_remove unlink data_path) else mret tt);
     flag_file ← gets flag_path;
     flag_exists ← ask (λ w, Ok (path_exists flag_file w));
     if flag_exists : bool then act (os_remove unlink flag_file) else mret tt)
    (λ _, mret tt).

(** [__enter__] returns the object itself. *)
Definition __enter__ : M SharedFrameBuffer := gets (λ o, o).

(** [__exit__(exc_type, exc_val, exc_tb)]: [close()]; it returns [None],
    so an exception of the block is not suppressed. *)
Definition __exit__ : M unit := close.

(** The state [s] with the frame mapping [m] moved to position [k]. *)
Definition moved (k : Z) (m : mmap) (s : state) : state :=
  State (env s) (set_attr Frame_ (Some (set_pos k m)) (self s)).

(** The calls a producer or a consumer makes on an open mailbox, and the
    state after a sequence of them. *)
Inductive request :=
| Write (now : Q) (frame : ndarray) (quality : Z)
| Read
| Info
| Preview.

Definition serve (imencode : ndarray -> Z -> outcome (bool * bytes))
    (r : request) (s : state) : state :=
  match r with
  | Write now frame quality => snd (write_frame imencode now frame quality s)
  | Read => snd (read_frame s)
  | Info => snd (read_frame_info s)
  | Preview => snd (is_preview_enabled s)
  end.

Definition serve_all (imencode : ndarray -> Z -> outcome (bool * bytes))
    (rs : list request) (s : state) : state :=
  foldl (λ s r, serve imencode r s) s rs.

(** The blank object that [__init__] starts from. *)
Definition blank_object (path : string) : SharedFrameBuffer :=
  Object path None None (flag_path_of path) None None.

(** A path without a directory part: no ['/'] in it. *)
Definition bare_name (p : string) : Prop :=
  ∀ a b : string, p ≠ (a +:+ "/" +:+ b)%string.

(** A second encoder output and frame for the samples: two pixels, six
    bytes of JPEG. *)
Definition two_pixels : ndarray :=
  Ndarray [1; 2; 3] [Byte.x00; Byte.x00; Byte.x00; Byte.xff; Byte.xff; Byte.xff].

Definition sample_imencode (frame : ndarray) (quality : Z) : outcome (bool * bytes) :=
  match shape frame with
  | [1; 1; 3] => Ok (true, tiny_jpeg)
  | _ => Ok (true, [Byte.xff; Byte.xd8; Byte.x11; Byte.x22; Byte.xff; Byte.xd9])
  end.

(** A data file as a writer of raw frames leaves it: one BGR pixel under
    its header, zeros up to the capacity. *)
Definition raw_header : bytes :=
  [Byte.x01; Byte.x00; Byte.x00; Byte.x00;
   Byte.x01; Byte.x00; Byte.x00; Byte.x00;
   Byte.x03; Byte.x00; Byte.x00; Byte.x00;
   Byte.x2a; Byte.x00; Byte.x00; Byte.x00;
   Byte.x20; Byte.xa1; Byte.x07; Byte.x00;
   Byte.x03; Byte.x00; Byte.x00; Byte.x00].

Definition raw_pixel : bytes := [Byte.x10; Byte.x20; Byte.x30].

Definition raw_world : world :=
  store sample_path (raw_header ++ raw_pixel ++ zeros (MAX_FRAME_SIZE - 3))
    empty_world.

(** * Properties *)

Arguments zeros : simpl never.
Arguments HEADER_SIZE : simpl never.
Arguments MAX_FRAME_SIZE : simpl never.
Arguments TOTAL_SIZE : simpl never.

(** ** Sizes and zero-filled regions *)

Lemma HEADER_SIZE_eq : HEADER_SIZE = 24.
Proof. reflexivity. Qed.

Lemma MAX_FRAME_SIZE_eq : MAX_FRAME_SIZE = 6220800.
Proof. reflexivity. Qed.

Lemma TOTAL_SIZE_eq : TOTAL_SIZE = 6220824.
Proof. reflexivity. Qed.

(** Arithmetic over the three layout constants. *)
Ltac sizes :=
  rewrite ?HEADER_SIZE_eq, ?MAX_FRAME_SIZE_eq, ?TOTAL_SIZE_eq in *; lia.

Lemma length_zeros n : 0 <= n -> Z.of_nat (length (zeros n)) = n.
Proof. intros Hn. unfold zeros. rewrite length_replicate. lia. Qed.

Lemma take_zeros a n : 0 <= a <= n -> take (Z.to_nat a) (zeros n) = zeros a.
Proof.
  intros Ha. unfold zeros. rewrite take_replicate. f_equal. lia.
Qed.

Lemma zeros_over_zeros a n :
  0 <= a <= n -> zeros a ++ drop (Z.to_nat a) (zeros n) = zeros n.
Proof.
  intros Ha. unfold zeros. rewrite drop_replicate, <- replicate_add.
  f_equal. lia.
Qed.

Lemma pack_6I_zero : pack_6I 0 0 0 0 0 0 = Ok (zeros 24).
Proof. reflexivity. Qed.

Lemma unpack_6I_zero : unpack_6I (zeros 24) = Ok (0, 0, 0, 0, 0, 0).
Proof. reflexivity. Qed.

Lemma pack_I_one : pack_I 1 = Ok [Byte.x01; Byte.x00; Byte.x00; Byte.x00].
Proof. reflexivity. Qed.

(** ** Symbolic execution of the methods *)

#[local] Arguments Z.to_nat : simpl never.
#[local] Arguments Z.of_nat : simpl never.
#[local] Arguments pack_6I : simpl never.
#[local] Arguments pack_I : simpl never.
#[local] Arguments unpack_6I : simpl never.
#[local] Arguments unpack_I : simpl never.
#[local] Arguments contents : simpl never.
#[local] Arguments store : simpl never.
#[local] Arguments view : simpl never.
#[local] Arguments flag_path_of : simpl never.
#[local] Arguments dirname : simpl never.

Lemma files_store p d w : files (store p d w) = <[p := d]> (files w).
Proof. reflexivity. Qed.

Lemma denied_store p d w : denied (store p d w) = denied w.
Proof. reflexivity. Qed.

Lemma contents_store p d w : contents (store p d w) p = d.
Proof. unfold contents. rewrite files_store. by rewrite lookup_insert_eq. Qed.

Lemma contents_store_ne p q d w : p ≠ q -> contents (store p d w) q = contents w q.
Proof. intros Hne. unfold contents. rewrite files_store. by rewrite lookup_insert_ne. Qed.

Lemma store_store p a b w : store p a (store p b w) = store p a w.
Proof. unfold store. cbn. by rewrite insert_insert_eq. Qed.

Lemma contents_lookup w p d : files w !! p = Some d -> contents w p = d.
Proof. intros H. unfold contents. by rewrite H. Qed.

Ltac unfold_m :=
  unfold mbind, M_bind, mret, M_ret, try_except, gets, ask, act, lift,
    modify_self, call, truthy, raise in *.

Ltac unfold_prims :=
  unfold makedirs, write_new_file, open_rw, mmap_new, mmap_seek, mmap_write,
    mmap_read, mmap_flush, mmap_slice, mmap_bool, mmap_close in *.

(** Decide a comparison in the goal from the arithmetic context. *)
Ltac resolve_test :=
  match goal with
  | |- context [?a <? ?b] =>
      first [ rewrite (proj2 (Z.ltb_lt a b)) by sizes
            | rewrite (proj2 (Z.ltb_ge a b)) by sizes ]
  | |- context [?a =? ?b] =>
      first [ rewrite (proj2 (Z.eqb_eq a b)) by sizes
            | rewrite (proj2 (Z.eqb_neq a b)) by sizes ]
  end.

Ltac run_step :=
  first [ rewrite files_store | rewrite denied_store | rewrite contents_store
        | rewrite store_store | rewrite lookup_insert_eq
        | rewrite decide_False by done | rewrite decide_True by done
        | rewrite length_zeros by sizes
        | rewrite pack_6I_zero | rewrite pack_I_one | rewrite unpack_6I_zero
        | match goal with H : files _ !! _ = _ |- _ => rewrite H end
        | resolve_test ].

Ltac run := unfold_m; unfold_prims; repeat (cbn; run_step); cbn.

(** ** Construction *)

Lemma init_create_ok path w :
  dirname path ≠ EmptyString → dirname path ∉ denied w →
  path ∉ denied w → flag_path_of path ∉ denied w →
  __init__ path true w = (Ok tt, created path w).
Proof.
  intros Hd Hdd Hp Hf.
  unfold __init__, _create_buffer, _create_flag_file, created, flag_one.
  run. unfold set_pos. cbn.
  change (Z.to_nat 0) with 0%nat. cbn [take app].
  change (0 + 24) with 24.
  by rewrite zeros_over_zeros by sizes.
Qed.

Lemma init_create_inv path w u s :
  __init__ path true w = (Ok u, s) →
  s = created path w ∧ (path ∉ denied w) ∧ (flag_path_of path ∉ denied w).
Proof.
  intros H.
  destruct (decide (dirname path = EmptyString)) as [Hd|Hd].
  { revert H. unfold __init__, _create_buffer. by run. }
  destruct (decide (dirname path ∈ denied w)) as [Hdd|Hdd].
  { revert H. unfold __init__, _create_buffer. by run. }
  destruct (decide (path ∈ denied w)) as [Hp|Hp].
  { revert H. unfold __init__, _create_buffer. by run. }
  destruct (decide (flag_path_of path ∈ denied w)) as [Hf|Hf].
  { revert H. unfold __init__, _create_buffer, _create_flag_file. by run. }
  rewrite init_create_ok in H by done. by inversion H.
Qed.

Lemma init_open_existing path w data flag_data :
  path ∉ denied w → files w !! path = Some data →
  TOTAL_SIZE <= Z.of_nat (length data) →
  flag_path_of path ∉ denied w →
  files w !! flag_path_of path = Some flag_data →
  4 <= Z.of_nat (length flag_data) →
  __init__ path false w = (Ok tt, State w (opened_object path)).
Proof.
  intros Hp Hdata Hlen Hf Hflag Hflen.
  unfold __init__, _open_buffer, _open_flag_file, opened_object.
  by run.
Qed.

Lemma init_open_fallback path w data :
  path ∉ denied w → files w !! path = Some data →
  TOTAL_SIZE <= Z.of_nat (length data) →
  flag_path_of path ∉ denied w →
  flag_unusable w (flag_path_of path) →
  __init__ path false w =
    (Ok tt, State (store (flag_path_of path) flag_one w) (opened_object path)).
Proof.
  intros Hp Hdata Hlen Hf Hflag.
  unfold __init__, _open_buffer, _open_flag_file, _create_flag_file,
    opened_object, flag_unusable, flag_one in *.
  run.
  destruct (files w !! flag_path_of path) as [flag_data|] eqn:Hfl; by run.
Qed.

Lemma init_open_inv path w u s :
  __init__ path false w = (Ok u, s) →
  self s = opened_object path
  ∧ (env s = w ∨ env s = store (flag_path_of path) flag_one w).
Proof.
  intros H.
  destruct (decide (path ∈ denied w)) as [Hp|Hp].
  { revert H. unfold __init__, _open_buffer. by run. }
  destruct (files w !! path) as [data|] eqn:Hdata.
  2: { revert H. unfold __init__, _open_buffer. by run. }
  destruct (Z.ltb_spec (Z.of_nat (length data)) TOTAL_SIZE) as [Hlen|Hlen].
  { revert H. unfold __init__, _open_buffer. by run. }
  destruct (decide (flag_path_of path ∈ denied w)) as [Hf|Hf].
  { revert H. unfold __init__, _open_buffer, _open_flag_file, _create_flag_file.
    by run. }
  destruct (files w !! flag_path_of path) as [flag_data|] eqn:Hflag.
  - destruct (Z.ltb_spec (Z.of_nat (length flag_data)) 4) as [Hfl|Hfl].
    + rewrite (init_open_fallback path w data) in H; try done.
      * inversion H. cbn. auto.
      * unfold flag_unusable. by rewrite Hflag.
    + rewrite (init_open_existing path w data flag_data) in H by done.
      inversion H. cbn. auto.
  - rewrite (init_open_fallback path w data) in H; try done.
    + inversion H. cbn. auto.
    + unfold flag_unusable. by rewrite Hflag.
Qed.

(** ** [struct]: packing and unpacking are inverse *)

Lemma pack_I_inv v bs :
  pack_I v = Ok bs → bs = le_split 4 v ∧ 0 <= v < 2 ^ 32.
Proof.
  unfold pack_I. destruct (Z.leb_spec 0 v), (Z.ltb_spec v (2 ^ 32)); cbn;
    intros Hp; inversion Hp; subst; auto.
Qed.

Lemma pack_I_ok v : 0 <= v < 2 ^ 32 → pack_I v = Ok (le_split 4 v).
Proof.
  intros [H0 H1]. unfold pack_I.
  destruct (Z.leb_spec 0 v), (Z.ltb_spec v (2 ^ 32)); cbn; auto; lia.
Qed.

Lemma le_combine_split_u32 v : 0 <= v < 2 ^ 32 → le_combine (le_split 4 v) = v.
Proof. intros Hv. rewrite le_combine_split. apply Z.mod_small. exact Hv. Qed.

Lemma unpack_pack_I v bs : pack_I v = Ok bs → unpack_I bs = Ok v.
Proof.
  intros [-> Hv]%pack_I_inv. unfold unpack_I.
  rewrite length_le_split. cbn. by rewrite le_combine_split_u32.
Qed.

Lemma pack_6I_ok a b c d e f :
  u32 a → u32 b → u32 c → u32 d → u32 e → u32 f →
  pack_6I a b c d e f =
    Ok (le_split 4 a ++ le_split 4 b ++ le_split 4 c
        ++ le_split 4 d ++ le_split 4 e ++ le_split 4 f).
Proof.
  intros Ha Hb Hc Hd He Hf. unfold pack_6I.
  by rewrite !pack_I_ok.
Qed.

Lemma pack_6I_inv a b c d e f hdr :
  pack_6I a b c d e f = Ok hdr →
  hdr = le_split 4 a ++ le_split 4 b ++ le_split 4 c
        ++ le_split 4 d ++ le_split 4 e ++ le_split 4 f
  ∧ u32 a ∧ u32 b ∧ u32 c ∧ u32 d ∧ u32 e ∧ u32 f.
Proof.
  unfold pack_6I.
  destruct (pack_I a) as [ba|] eqn:Ea; [|done].
  destruct (pack_I b) as [bb|] eqn:Eb; [|done].
  destruct (pack_I c) as [bc|] eqn:Ec; [|done].
  destruct (pack_I d) as [bd|] eqn:Ed; [|done].
  destruct (pack_I e) as [be|] eqn:Ee; [|done].
  destruct (pack_I f) as [bf|] eqn:Ef; [|done].
  apply pack_I_inv in Ea as [-> ?], Eb as [-> ?], Ec as [-> ?],
    Ed as [-> ?], Ee as [-> ?], Ef as [-> ?].
  intros Heq. inversion Heq. unfold u32. tauto.
Qed.

Lemma length_pack_6I a b c d e f hdr :
  pack_6I a b c d e f = Ok hdr → length hdr = 24%nat.
Proof.
  intros (-> & _)%pack_6I_inv. by rewrite !length_app, !length_le_split.
Qed.

Lemma field_here v rest : u32 v → field 0 (le_split 4 v ++ rest) = v.
Proof.
  intros Hv. unfold field. rewrite Nat.mul_0_r, drop_0.
  rewrite take_app_length' by (by rewrite length_le_split).
  by apply le_combine_split_u32.
Qed.

Lemma field_next i v rest :
  field (S i) (le_split 4 v ++ rest) = field i rest.
Proof.
  unfold field. replace (4 * S i)%nat with (4 + 4 * i)%nat by lia.
  rewrite <- drop_drop.
  by rewrite drop_app_length' by (by rewrite length_le_split).
Qed.

(** The header written by [struct.pack('6I', ...)] is read back by
    [struct.unpack('6I', ...)] field for field. *)
Lemma unpack_pack_6I a b c d e f hdr :
  pack_6I a b c d e f = Ok hdr → unpack_6I hdr = Ok (a, b, c, d, e, f).
Proof.
  intros Hp. pose proof (length_pack_6I _ _ _ _ _ _ _ Hp) as Hlen.
  apply pack_6I_inv in Hp as (-> & Ha & Hb & Hc & Hd & He & Hf).
  unfold unpack_6I. rewrite Hlen. cbn [Z.eqb Z.of_nat].
  change (Z.of_nat 24 =? 24) with true. cbn iota.
  rewrite <- (app_nil_r (le_split 4 f)).
  by rewrite !field_next, !field_here.
Qed.

(** ** Reading *)

Lemma unpack_6I_nonneg data a b c d e f :
unpack_6I data = Ok (a, b, c, d, e, f) → 0 <= a ∧ 0 <= b ∧ 0 <= f.
Proof.
unfold unpack_6I. destruct (Z.of_nat (length data) =? 24); [|done].
intros H. inversion H. unfold field.
repeat split; apply le_combine_bound.
Qed.

Lemma read_frame_info_open s m :
  mmap_file (self s) = Some m → m_closed m = false → HEADER_SIZE <= m_size m →
  fst (read_frame_info s) =
    match unpack_6I (header_bytes (env s) m) with
    | Ok (width, height, channels, ts_sec, ts_usec, frame_size) =>
        if (width =? 0) || (height =? 0) then Ok None
        else Ok (Some (FrameInfo width height channels
                                 (timestamp_of ts_sec ts_usec) frame_size))
    | Raise _ => Ok None
    end.
Proof.
  destruct s as [w [fp mf fh flp flm flh]], m as [p sz acc pos cl].
  cbn. intros -> -> Hsz.
  unfold read_frame_info, read_frame_info_body, header_bytes, view. cbn.
  run. change (Z.to_nat 0) with 0%nat. rewrite drop_0.
  destruct (unpack_6I _) as [[[[[[width height] channels] ts_sec] ts_usec] frame_size]|];
    [|done].
  by destruct ((width =? 0) || (height =? 0)).
Qed.

Lemma read_frame_open s m :
  mmap_file (self s) = Some m → m_closed m = false → HEADER_SIZE <= m_size m →
  fst (read_frame s) =
    match unpack_6I (header_bytes (env s) m) with
    | Ok (width, height, channels, ts_sec, ts_usec, frame_size) =>
        if (width =? 0) || (height =? 0) || (frame_size =? 0) then Ok (None, None)
        else
          match frombuffer_reshape (payload_bytes (env s) m frame_size)
                                   height width channels with
          | Ok frame => Ok (Some frame, Some (timestamp_of ts_sec ts_usec))
          | Raise _ => Ok (None, None)
          end
    | Raise _ => Ok (None, None)
    end.
Proof.
  destruct s as [w [fp mf fh flp flm flh]], m as [p sz acc pos cl].
  cbn. intros -> -> Hsz.
  unfold read_frame, read_frame_body, header_bytes, payload_bytes, view. cbn.
  run. change (Z.to_nat 0) with 0%nat. rewrite drop_0.
  destruct (unpack_6I _) as [[[[[[width height] channels] ts_sec] ts_usec] frame_size]|] eqn:E;
    [|done].
  apply unpack_6I_nonneg in E as (_ & _ & Hfs).
  destruct ((width =? 0) || (height =? 0) || (frame_size =? 0)); [done|].
  run. unfold view. cbn. rewrite !Z.add_0_l.
  replace (if 0 `max` (sz - HEADER_SIZE) <? frame_size
           then 0 `max` (sz - HEADER_SIZE) else frame_size)
    with (Z.min frame_size (sz - HEADER_SIZE))
    by (destruct (Z.ltb_spec (0 `max` (sz - HEADER_SIZE)) frame_size); lia).
  by destruct (frombuffer_reshape _ _ _ _).
Qed.

(** Without a mapping, and on a closed one, both reads give the
    no-frame result. *)
Lemma read_frame_unmapped s :
  mmap_file (self s) = None → read_frame s = (Ok (None, None), s).
Proof. intros H. unfold read_frame. by rewrite H. Qed.

Lemma read_frame_info_unmapped s :
  mmap_file (self s) = None → read_frame_info s = (Ok None, s).
Proof. intros H. unfold read_frame_info. by rewrite H. Qed.

Lemma read_frame_closed s m :
  mmap_file (self s) = Some m → m_closed m = true →
  read_frame s = (Ok (None, None), s).
Proof.
  destruct s as [w [fp mf fh flp flm flh]], m as [p sz acc pos cl].
  cbn. intros -> ->. unfold read_frame, read_frame_body. by run.
Qed.

Lemma read_frame_info_closed s m :
  mmap_file (self s) = Some m → m_closed m = true →
  read_frame_info s = (Ok None, s).
Proof.
  destruct s as [w [fp mf fh flp flm flh]], m as [p sz acc pos cl].
  cbn. intros -> ->. unfold read_frame_info, read_frame_info_body. by run.
Qed.

(** Reads leave the store alone. *)
Lemma read_frame_env s : env (snd (read_frame s)) = env s.
Proof.
  destruct s as [w [fp mf fh flp flm flh]].
  unfold read_frame, read_frame_body. cbn.
  destruct mf as [[p sz acc pos cl]|]; [|done].
  unfold_m. unfold_prims. cbn.
  destruct cl; [done|]. cbn.
  destruct (sz <? 0); [done|]. cbn.
  destruct (unpack_6I _) as [[[[[[width height] channels] ts_sec] ts_usec] frame_size]|]; [|done].
  destruct ((width =? 0) || (height =? 0) || (frame_size =? 0)); [done|]. cbn.
  by destruct (frombuffer_reshape _ _ _ _).
Qed.

Lemma read_frame_info_env s : env (snd (read_frame_info s)) = env s.
Proof.
  destruct s as [w [fp mf fh flp flm flh]].
  unfold read_frame_info, read_frame_info_body. cbn.
  destruct mf as [[p sz acc pos cl]|]; [|done].
  unfold_m. unfold_prims. cbn.
  destruct cl; [done|]. cbn.
  destruct (sz <? 0); [done|]. cbn.
  destruct (unpack_6I _) as [[[[[[width height] channels] ts_sec] ts_usec] frame_size]|]; [|done].
  by destruct ((width =? 0) || (height =? 0)).
Qed.

Lemma read_frame_returns s : ∃ r s', read_frame s = (Ok r, s').
Proof.
  unfold read_frame. destruct (mmap_file (self s)); [|eauto].
  unfold try_except. destruct (read_frame_body s) as [[r|e] s']; eauto.
Qed.

Lemma read_frame_info_returns s : ∃ r s', read_frame_info s = (Ok r, s').
Proof.
  unfold read_frame_info. destruct (mmap_file (self s)); [|eauto].
  unfold try_except. destruct (read_frame_info_body s) as [[r|e] s']; eauto.
Qed.

Lemma unpack_6I_short data :
  Z.of_nat (length data) ≠ 24 → unpack_6I data = Raise StructError.
Proof. intros H. unfold unpack_6I. by rewrite (proj2 (Z.eqb_neq _ _) H). Qed.

Lemma frombuffer_reshape_mismatch data h w c :
  Z.of_nat (length data) ≠ h * w * c →
  frombuffer_reshape data h w c = Raise ValueError.
Proof. intros H. unfold frombuffer_reshape. by rewrite (proj2 (Z.eqb_neq _ _) H). Qed.

(** The views of a fresh mailbox. *)
Lemma view_created_frame path w m :
  flag_path_of path ≠ path →
  mmap_file (self (created path w)) = Some m →
  view (env (created path w)) m = zeros TOTAL_SIZE.
Proof.
  intros Hne [= <-]. unfold view, created. cbn.
  rewrite contents_store_ne, contents_store by done.
  apply take_ge. unfold zeros. by rewrite length_replicate.
Qed.

Lemma view_created_clobbered path w m :
  flag_path_of path = path →
  mmap_file (self (created path w)) = Some m →
  view (env (created path w)) m = flag_one.
Proof.
  intros Heq [= <-]. unfold view, created. cbn.
  rewrite Heq, contents_store. apply take_ge. cbn. sizes.
Qed.

Lemma created_reads_nothing path w :
  fst (read_frame (created path w)) = Ok (None, None)
  ∧ fst (read_frame_info (created path w)) = Ok None.
Proof.
  set (m := Mmap path TOTAL_SIZE ACCESS_WRITE 24 false).
  assert (mmap_file (self (created path w)) = Some m) as Hm by done.
  rewrite (read_frame_open _ m), (read_frame_info_open _ m) by (done || (cbn; sizes)).
  unfold header_bytes.
  destruct (decide (flag_path_of path = path)) as [Heq|Hne].
  - rewrite view_created_clobbered by done.
    by rewrite unpack_6I_short by (rewrite length_take; cbn; sizes).
  - rewrite view_created_frame by done.
    rewrite take_zeros by sizes. rewrite HEADER_SIZE_eq.
    by rewrite unpack_6I_zero.
Qed.

(** ** The clock fields *)

Lemma clock_sec_nonneg now : (0 <= now)%Q → 0 <= clock_sec now.
Proof.
  destruct now as [n d]. unfold Qle, clock_sec, py_int. cbn.
  intros Hn. apply Z.quot_pos; lia.
Qed.

Lemma clock_usec_range now : (0 <= now)%Q → 0 <= clock_usec now < 1000000.
Proof.
  destruct now as [n d]. unfold Qle, clock_usec, py_int. cbn.
  rewrite !Z.mul_1_r, !Pos.mul_1_r, Z.mul_0_l. intros Hn.
  rewrite (Z.quot_div_nonneg n) by lia.
  pose proof (Z.mod_pos_bound n (Z.pos d) ltac:(lia)) as Hr.
  rewrite (Z.mod_eq n (Z.pos d)) in Hr by lia.
  replace (n + - (n `div` Z.pos d) * Z.pos d) with (n - Z.pos d * n `div` Z.pos d) by lia.
  set (r := n - Z.pos d * n `div` Z.pos d) in *.
  rewrite Z.quot_div_nonneg by lia. split.
  - apply Z.div_pos; lia.
  - apply Z.div_lt_upper_bound; lia.
Qed.

(** ** Writing *)

(** A header written at offset 0 and a payload written right after it. *)
Lemma header_then_payload (header jpeg old : bytes) :
length header = 24%nat →
take (Z.to_nat (0 + 24))
     (take (Z.to_nat 0) old ++ header ++ drop (Z.to_nat (0 + 24)) old)
++ jpeg
++ drop (Z.to_nat (0 + 24 + Z.of_nat (length jpeg)))
        (take (Z.to_nat 0) old ++ header ++ drop (Z.to_nat (0 + 24)) old)
= header ++ jpeg ++ drop (Z.to_nat (HEADER_SIZE + Z.of_nat (length jpeg))) old.
Proof.
intros Hh. rewrite HEADER_SIZE_eq, !Z.add_0_l.
change (Z.to_nat 0) with 0%nat. rewrite take_0, app_nil_l.
replace (Z.to_nat (24 + Z.of_nat (length jpeg))) with (24 + length jpeg)%nat by lia.
change (Z.to_nat 24) with 24%nat.
rewrite take_app_length' by done.
rewrite drop_app_add' by done.
by rewrite drop_drop.
Qed.

Section Writing.

Variable imencode : ndarray -> Z -> outcome (bool * bytes).

Lemma write_frame_ok now frame quality s m height width channels jpeg header :
  mmap_file (self s) = Some m → m_closed m = false → m_access m ≠ ACCESS_READ →
  m_size m = TOTAL_SIZE →
  shape frame = [height; width; channels] →
  imencode frame quality = Ok (true, jpeg) →
  Z.of_nat (length jpeg) <= MAX_FRAME_SIZE →
  pack_6I width height channels (clock_sec now) (clock_usec now)
          (Z.of_nat (length jpeg)) = Ok header →
  write_frame imencode now frame quality s = (Ok true, written s m header jpeg).
Proof.
  destruct s as [w [fp mf fh flp flm flh]], m as [p sz acc pos cl].
  cbn. intros -> -> Hacc -> Hshape Henc Hlen Hpack.
  pose proof (length_pack_6I _ _ _ _ _ _ _ Hpack) as Hhl.
  unfold write_frame, written, unpack_shape, clock_sec, clock_usec in *. cbn.
  rewrite Hshape. run. rewrite Henc. run. rewrite Hpack.
  assert (Z.of_nat (length header) = 24) as Hhz by lia.
  destruct acc; [|done|]; run; rewrite ?Hhz; run; unfold set_pos; cbn.
  all: rewrite ?Hhz.
  all: by rewrite header_then_payload, !Z.add_0_l.
Qed.
Lemma write_frame_read_only now frame quality s m :
  mmap_file (self s) = Some m → m_access m = ACCESS_READ →
  fst (write_frame imencode now frame quality s) = Ok false
  ∧ env (snd (write_frame imencode now frame quality s)) = env s.
Proof.
  destruct s as [w [fp mf fh flp flm flh]], m as [p sz acc pos cl].
  cbn. intros -> ->. unfold write_frame. cbn.
  unfold_m. destruct (unpack_shape frame) as [[[height width] channels]|]; [|done].
  destruct (imencode frame quality) as [[[] jpeg]|]; [|done..]. cbn.
  destruct (MAX_FRAME_SIZE <? _); [done|].
  unfold_prims. cbn.
  destruct cl; [done|]. destruct (Z.ltb_spec sz 0); [done|]. cbn.
  by destruct (pack_6I _ _ _ _ _ _).
Qed.

End Writing.

(** ** Reading back what was written *)

Lemma view_store w m data :
  view (store (m_path m) data w) m = take (Z.to_nat (m_size m)) data.
Proof. unfold view. by rewrite contents_store. Qed.

Lemma header_of_region (header rest : bytes) sz :
  length header = 24%nat → HEADER_SIZE <= sz →
  take (Z.to_nat HEADER_SIZE) (take (Z.to_nat sz) (header ++ rest)) = header.
Proof.
  intros Hh Hsz. rewrite take_take.
  replace (Z.to_nat HEADER_SIZE `min` Z.to_nat sz)%nat with 24%nat by sizes.
  by rewrite take_app_length'.
Qed.

Lemma payload_of_region (header jpeg rest : bytes) sz :
  length header = 24%nat →
  HEADER_SIZE + Z.of_nat (length jpeg) <= sz →
  take (Z.to_nat (Z.min (Z.of_nat (length jpeg)) (sz - HEADER_SIZE)))
       (drop (Z.to_nat HEADER_SIZE) (take (Z.to_nat sz) (header ++ jpeg ++ rest)))
  = jpeg.
Proof.
  intros Hh Hsz.
  replace (Z.to_nat (Z.min (Z.of_nat (length jpeg)) (sz - HEADER_SIZE)))
    with (length jpeg) by lia.
  replace (Z.to_nat sz) with (24 + (length jpeg + Z.to_nat (sz - HEADER_SIZE - Z.of_nat (length jpeg))))%nat
    by sizes.
  replace (Z.to_nat HEADER_SIZE) with 24%nat by sizes.
  rewrite take_app_add' by done. rewrite drop_app_length' by done.
  rewrite take_app_add' by done. by rewrite take_app_length.
Qed.

Section RoundTrip.

Variable imencode : ndarray -> Z -> outcome (bool * bytes).

Lemma write_frame_header now frame quality s m height width channels jpeg :
  mmap_file (self s) = Some m → m_closed m = false →
  m_access m ≠ ACCESS_READ → m_size m = TOTAL_SIZE →
  shape frame = [height; width; channels] →
  u32 width → u32 height → u32 channels →
  imencode frame quality = Ok (true, jpeg) →
  Z.of_nat (length jpeg) <= MAX_FRAME_SIZE →
  (0 <= now)%Q → clock_sec now < 2 ^ 32 →
  ∃ header,
    pack_6I width height channels (clock_sec now) (clock_usec now)
            (Z.of_nat (length jpeg)) = Ok header
    ∧ write_frame imencode now frame quality s = (Ok true, written s m header jpeg).
Proof.
  intros Hm Hc Hacc Hsz Hshape Hw Hh Hch Henc Hlen Hnow Hsec.
  pose proof (clock_sec_nonneg now Hnow) as Hsec0.
  pose proof (clock_usec_range now Hnow) as Husec.
  eexists. split.
  - apply pack_6I_ok; unfold u32; try done; try lia. sizes.
  - eapply write_frame_ok; try done.
    apply pack_6I_ok; unfold u32; try done; try lia. sizes.
Qed.

Lemma read_after_write s m header jpeg width height channels sec usec :
  mmap_file (self s) = Some m → m_closed m = false → m_size m = TOTAL_SIZE →
  Z.of_nat (length jpeg) <= MAX_FRAME_SIZE →
  pack_6I width height channels sec usec (Z.of_nat (length jpeg)) = Ok header →
  fst (read_frame_info (written s m header jpeg)) =
    (if (width =? 0) || (height =? 0) then Ok None
     else Ok (Some (FrameInfo width height channels (timestamp_of sec usec)
                              (Z.of_nat (length jpeg)))))
  ∧ fst (read_frame (written s m header jpeg)) =
    (if (width =? 0) || (height =? 0) || (Z.of_nat (length jpeg) =? 0)
     then Ok (None, None)
     else match frombuffer_reshape jpeg height width channels with
          | Ok frame => Ok (Some frame, Some (timestamp_of sec usec))
          | Raise _ => Ok (None, None)
          end).
Proof.
  intros Hm Hc Hsz Hlen Hpack.
  pose proof (length_pack_6I _ _ _ _ _ _ _ Hpack) as Hhl.
  set (m1 := set_pos (HEADER_SIZE + Z.of_nat (length jpeg)) m).
  assert (mmap_file (self (written s m header jpeg)) = Some m1) as Hm1.
  { unfold written. cbn. by destruct (self s). }
  assert (header_bytes (env (written s m header jpeg)) m1 = header) as Hhdr.
  { unfold header_bytes, written. cbn.
    change (m_path m) with (m_path m1). rewrite view_store. cbn.
    rewrite header_of_region; [done..|]. sizes. }
  assert (payload_bytes (env (written s m header jpeg)) m1 (Z.of_nat (length jpeg)) = jpeg)
    as Hpay.
  { unfold payload_bytes, written. cbn.
    change (m_path m) with (m_path m1). rewrite view_store. cbn.
    rewrite payload_of_region; [done..|]. sizes. }
  split.
  - rewrite (read_frame_info_open _ m1) by (done || (cbn; sizes)).
    by rewrite Hhdr, (unpack_pack_6I _ _ _ _ _ _ _ Hpack).
  - rewrite (read_frame_open _ m1) by (done || (cbn; sizes)).
    by rewrite Hhdr, (unpack_pack_6I _ _ _ _ _ _ _ Hpack), Hpay.
Qed.

End RoundTrip.

(** ** The preview flag *)

Lemma unpack_I_one data : unpack_I data = Ok 1 ↔ data = flag_one.
Proof.
  unfold unpack_I. split.
  - destruct (Z.eqb_spec (Z.of_nat (length data)) 4) as [Hlen|]; [|done].
    intros H. inversion H as [Hv].
    rewrite <- (split_le_combine data), Hv.
    by replace (length data) with 4%nat by lia.
  - by intros ->.
Qed.

Lemma is_preview_enabled_unmapped s :
  flag_mmap (self s) = None → is_preview_enabled s = (Ok false, s).
Proof. intros H. unfold is_preview_enabled. unfold_m. cbn. by rewrite H. Qed.

Lemma is_preview_enabled_closed s m :
  flag_mmap (self s) = Some m → m_closed m = true →
  is_preview_enabled s = (Ok false, s).
Proof.
  destruct s as [w [fp mf fh flp flm flh]], m as [p sz acc pos cl].
  cbn. intros -> ->. unfold is_preview_enabled. by run.
Qed.

(** On an open mapping the answer is whether the first four bytes seen
    through it decode to 1. *)
Lemma is_preview_enabled_open s m :
  flag_mmap (self s) = Some m → m_closed m = false → m_size m ≠ 0 →
  is_preview_enabled s =
    (Ok match unpack_I (take (Z.to_nat 4) (view (env s) m)) with
        | Ok flag_value => flag_value =? 1
        | Raise _ => false
        end, s).
Proof.
  destruct s as [w [fp mf fh flp flm flh]], m as [p sz acc pos cl].
  cbn. intros -> -> Hsz. unfold is_preview_enabled. run.
  change (Z.to_nat 0) with 0%nat. rewrite drop_0. change (4 - 0) with 4.
  by destruct (unpack_I _).
Qed.

Lemma is_preview_enabled_total s : ∃ b, is_preview_enabled s = (Ok b, s).
Proof.
  destruct (flag_mmap (self s)) as [m|] eqn:H.
  - destruct (m_closed m) eqn:Hc.
    + eexists. by eapply is_preview_enabled_closed.
    + destruct (decide (m_size m = 0)) as [Hsz|Hsz].
      * exists false. revert H Hc Hsz.
        destruct s as [w [fp mf fh flp flm flh]], m as [p sz acc pos cl].
        cbn. intros -> -> ->. unfold is_preview_enabled. by run.
      * eexists. by eapply is_preview_enabled_open.
  - eexists. by eapply is_preview_enabled_unmapped.
Qed.

Lemma is_preview_enabled_iff s m :
  flag_mmap (self s) = Some m → m_closed m = false → m_size m = 4 →
  is_preview_enabled s = (Ok true, s) ↔ view (env s) m = flag_one.
Proof.
  intros H Hc Hsz.
  rewrite (is_preview_enabled_open s m H Hc) by lia.
  assert (take (Z.to_nat 4) (view (env s) m) = view (env s) m) as ->.
  { unfold view. by rewrite Hsz, take_take, Nat.min_id. }
  rewrite <- unpack_I_one.
  destruct (unpack_I (view (env s) m)) as [v|e]; split; intros Heq.
  - inversion Heq as [Hv]. apply Z.eqb_eq in Hv. by subst.
  - inversion Heq. done.
  - done.
  - done.
Qed.

Lemma is_preview_enabled_created path w :
  is_preview_enabled (created path w) = (Ok true, created path w).
Proof.
  apply (is_preview_enabled_iff _ (Mmap (flag_path_of path) 4 ACCESS_DEFAULT 0 false));
    try done.
  unfold view, created. cbn. by rewrite contents_store.
Qed.

(** ** The flag path *)

Lemma prefix_app (a b : string) :
  String.prefix a b = true → ∃ r, b = (a +:+ r)%string.
Proof.
  revert b. induction a as [|c a IH]; intros b.
  - by exists b.
  - destruct b as [|c' b]; [done|]. cbn.
    destruct (Ascii.ascii_dec c c') as [->|]; [|done].
    intros [r ->]%IH. by exists r.
Qed.

Lemma string_app_length (a b : string) :
  String.length (a +:+ b) = (String.length a + String.length b)%nat.
Proof. induction a as [|c a IH]; simpl; [done|]. by f_equal. Qed.

Lemma flag_path_of_extension stem :
  single_extension stem →
  flag_path_of (stem +:+ ".mmap") = (stem +:+ "_flag.mmap")%string.
Proof.
  unfold flag_path_of, str_replace.
  induction stem as [|c stem IH]; intros Hone; [by vm_compute|].
  change (String c stem +:+ ".mmap")%string with (String c (stem +:+ ".mmap")).
  change (String c stem +:+ "_flag.mmap")%string with (String c (stem +:+ "_flag.mmap")).
  cbn [replace_from].
  destruct (String.prefix ".mmap" (String c (stem +:+ ".mmap"))) eqn:Hp.
  - apply prefix_app in Hp as [post Hp].
    pose proof (Hone EmptyString post Hp) as ->.
    apply (f_equal String.length) in Hp. cbn in Hp.
    rewrite string_app_length in Hp.
    change (String.length (".mmap" +:+ "")) with 5%nat in Hp. cbn in Hp. lia.
  - f_equal. apply IH. intros pre post Heq.
    apply (Hone (String c pre) post).
    change (String c stem +:+ ".mmap")%string with (String c (stem +:+ ".mmap")).
    by rewrite Heq.
Qed.

Lemma flag_path_distinct stem :
  (stem +:+ "_flag.mmap")%string ≠ (stem +:+ ".mmap")%string.
Proof.
  induction stem as [|c stem IH]; [done|].
  change (String c stem +:+ "_flag.mmap")%string with (String c (stem +:+ "_flag.mmap")).
  change (String c stem +:+ ".mmap")%string with (String c (stem +:+ ".mmap")).
  by intros [=].
Qed.

Lemma upto_last_sep_app a b :
  upto_last_sep b = EmptyString → upto_last_sep (a +:+ b) = upto_last_sep a.
Proof.
  intros Hb. induction a as [|c a IH]; [done|].
  change (String c a +:+ b)%string with (String c (a +:+ b)).
  cbn. by rewrite IH.
Qed.

Lemma flag_path_sibling stem :
  dirname (stem +:+ "_flag.mmap") = dirname (stem +:+ ".mmap").
Proof. unfold dirname. by rewrite !upto_last_sep_app. Qed.

(** ** The latest-frame slot *)

Section LatestFrame.

Import CameraCapture.

Lemma cam_run_snoc trace e s : run (trace ++ [e]) s = step e (run trace s).
Proof. unfold run. by rewrite foldl_app. Qed.

Lemma never_grabbed_step e s :
  successful_grab e = false → never_grabbed s → never_grabbed (step e s).
Proof.
  intros He [Hg Hw]. unfold never_grabbed.
  destruct e as [r| | |i|i r|i]; cbn.
  - destruct r as [| | | |[data|] logged]; cbn; try done.
  - unfold read_frame. rewrite Hg. by destruct (negb _).
  - done.
  - by rewrite Hw.
  - unfold _update_read. by rewrite Hw.
  - unfold _update_assign. by rewrite Hw.
Qed.

Lemma never_grabbed_run trace s :
  forallb (λ e, negb (successful_grab e)) trace = true →
  never_grabbed s → never_grabbed (run trace s).
Proof.
  induction trace as [|e trace IH] using rev_ind; [done|].
  rewrite forallb_app. cbn. rewrite cam_run_snoc.
  intros [Ht He]%andb_prop Hs. apply never_grabbed_step; [|auto].
  by destruct (successful_grab e).
Qed.

Lemma closed_step e s :
  is_start e = false → is_opened (self s) = false →
  is_opened (self (step e s)) = false.
Proof.
  intros He Ho. destruct e as [r| | |i|i r|i]; cbn; try done.
  - unfold read_frame. by rewrite Ho.
  - unfold _update_read. by repeat case_match.
  - unfold _update_assign. by repeat case_match.
Qed.

Lemma closed_run trace s :
  forallb (λ e, negb (is_start e)) trace = true →
  is_opened (self s) = false → is_opened (self (run trace s)) = false.
Proof.
  induction trace as [|e trace IH] using rev_ind; [done|].
  rewrite forallb_app. cbn. rewrite cam_run_snoc.
  intros [Ht He]%andb_prop Hs. apply closed_step; [|auto].
  by destruct (is_start e).
Qed.

(** Arrays are only ever added. *)
Lemma alloc_keeps data h l d :
  h !! l = Some d → (alloc data h).2 !! l = Some d.
Proof.
  intros Hl. unfold alloc. cbn. rewrite lookup_insert_ne; [done|].
  intros <-. apply (is_fresh (dom h)). apply elem_of_dom. eauto.
Qed.

Lemma arrays_step e s l d :
  arrays s !! l = Some d → arrays (step e s) !! l = Some d.
Proof.
  intros Hl. destruct e as [r| | |i|i r|i]; cbn; try done.
  - destruct r as [| | | |[data|] logged]; cbn; try done.
    destruct logged; cbn; by apply alloc_keeps.
  - unfold read_frame. repeat case_match; simplify_eq; cbn; try done.
    unfold copy in *. 
    match goal with H : alloc ?x ?h = _ |- _ =>
      pose proof (alloc_keeps x h l d Hl) as Hk; rewrite H in Hk end.
    done.
  - unfold _update_read. repeat case_match; simplify_eq; cbn; try done.
    match goal with H : alloc ?x ?h = _ |- _ =>
      pose proof (alloc_keeps x h l d Hl) as Hk; rewrite H in Hk end.
    done.
  - unfold _update_assign. by repeat case_match.
Qed.

Lemma arrays_run trace s l d :
  arrays s !! l = Some d → arrays (run trace s) !! l = Some d.
Proof.
  induction trace as [|e trace IH] using rev_ind; [done|].
  rewrite cam_run_snoc. intros Hl. by apply arrays_step, IH.
Qed.

Lemma alloc_lookup (data : bytes) (h : heap) :
  <[fresh (dom h) := data]> h !! fresh (dom h) = Some data.
Proof. by rewrite lookup_insert_eq. Qed.

Lemma alloc_is_Some (data : bytes) (h : heap) l :
  is_Some (h !! l) → is_Some (<[fresh (dom h) := data]> h !! l).
Proof. intros [d Hd]. exists d. by apply (alloc_keeps data h). Qed.

Lemma workers_insert_holds (h : heap) (ws : list worker) i w' j w l :
  (∀ j w l, ws !! j = Some w → holds w l → is_Some (h !! l)) →
  (∀ l, holds w' l → is_Some (h !! l)) →
  <[i := w']> ws !! j = Some w → holds w l → is_Some (h !! l).
Proof.
  intros Hws Hw' Hj Hh.
  destruct (decide (i = j)) as [->|Hne].
  - destruct (decide (j < length ws)%nat) as [Hlt|Hge].
    + rewrite list_lookup_insert_eq in Hj by done. simplify_eq. auto.
    + rewrite list_insert_ge in Hj by lia. eauto.
  - rewrite list_lookup_insert_ne in Hj by done. eauto.
Qed.

Lemma allocated_step e s : allocated s → allocated (step e s).
Proof.
  intros Hs. pose proof Hs as [Hf Hw]. destruct e as [r| | |i|i r|i]; cbn.
  - destruct r as [| | | |[data|] logged]; cbn; try done.
    destruct logged; cbn; (split; cbn; [intros l [= <-]; rewrite alloc_lookup; eauto|]).
    + intros j w l [Hj|[_ [_ <-]%list_lookup_singleton_Some]]%lookup_app_Some Hh.
      * apply alloc_is_Some. eauto.
      * by destruct Hh.
    + intros j w l Hj Hh. apply alloc_is_Some. eauto.
  - unfold read_frame. destruct (negb _); [done|].
    destruct (grabbed (self s)); [|done].
    destruct (frame (self s)) as [l0|] eqn:Hl0; [|done]. cbn.
    split; cbn.
    + intros l Hl. apply alloc_is_Some. apply Hf. congruence.
    + intros j w l Hj Hh. apply alloc_is_Some. eauto.
  - done.
  - split; cbn; [done|]. intros j w l Hj Hh.
    destruct (decide (i = j)) as [->|Hne].
    + rewrite list_lookup_alter_eq in Hj.
      destruct (workers s !! j) as [w0|] eqn:Hw0; [|done].
      cbn in Hj. simplify_eq.
      assert (check (self s) w0 = w0 ∨ ∀ l, ¬ holds (check (self s) w0) l) as [Heq|Hn].
      { destruct w0; cbn; auto. right. intros l' Hh'.
        repeat case_match; destruct Hh'; done. }
      * rewrite Heq in Hh. eauto.
      * by destruct (Hn l).
    + rewrite list_lookup_alter_ne in Hj by done. eauto.
  - unfold _update_read. destruct (workers s !! i) as [[]|] eqn:Hi; try done.
    destruct r as [data|]; cbn.
    + split; cbn.
      * intros l Hl. apply alloc_is_Some. auto.
      * intros j w l. apply workers_insert_holds.
        -- intros j' w' l' Hj' Hh'. apply alloc_is_Some. eauto.
        -- intros l' [[= <-]|[=]]. rewrite alloc_lookup. eauto.
    + split; cbn; [done|]. intros j w l. apply workers_insert_holds; [eauto|].
      by intros l' [|].
  - unfold _update_assign. destruct (workers s !! i) as [[]|] eqn:Hi; try done.
    + split; cbn; [done|]. intros j w l'. apply workers_insert_holds; [eauto|].
      intros l'' [[=]|[= <-]]. eapply Hw; [done|]. by left.
    + split; cbn.
      * intros l' [= <-]. eapply Hw; [done|]. by right.
      * intros j w l'. apply workers_insert_holds; [eauto|]. by intros l'' [|].
Qed.

Lemma allocated_run trace s : allocated s → allocated (run trace s).
Proof.
  induction trace as [|e trace IH] using rev_ind; [done|].
  rewrite cam_run_snoc. intros Hs. by apply allocated_step, IH.
Qed.

Lemma allocated_init id : allocated (__init__ id).
Proof. split; cbn; [done|]. by intros i w l. Qed.

(** [read_frame] on an open camera with a published frame: a fresh array
    with the frame's bytes. *)
Lemma read_frame_copy s l data :
  is_opened (self s) = true → grabbed (self s) = true →
  frame (self s) = Some l → arrays s !! l = Some data →
  ∃ l', read_frame s = ((true, Some l'), System (self s) (<[l' := data]> (arrays s)) (workers s))
        ∧ arrays s !! l' = None.
Proof.
  intros Ho Hg Hf Hl. unfold read_frame, copy, alloc. rewrite Ho, Hg, Hf, Hl. cbn.
  eexists. split; [done|]. apply not_elem_of_dom, is_fresh.
Qed.

End LatestFrame.

(** * The specification, statement by statement *)

(** Facts about the sample inputs. *)
Lemma sample_created :
  __init__ sample_path true empty_world = (Ok tt, created sample_path empty_world).
Proof.
  apply init_create_ok; try (by vm_compute); cbn; apply not_elem_of_empty.
Qed.

Lemma sample_flag_path : flag_path_of sample_path = "/tmp/frame_flag.mmap"%string.
Proof. by vm_compute. Qed.

Lemma sample_opened :
  __init__ sample_path false data_only_world =
    (Ok tt, State (store (flag_path_of sample_path) flag_one data_only_world)
                  (opened_object sample_path)).
Proof.
  apply (init_open_fallback _ _ (zeros TOTAL_SIZE)).
  - cbn. apply not_elem_of_empty.
  - apply (lookup_singleton_eq (M := gmap string)).
  - rewrite length_zeros by sizes. lia.
  - cbn. apply not_elem_of_empty.
  - unfold flag_unusable.
    change (files data_only_world)
      with ({[ sample_path := zeros TOTAL_SIZE ]} : gmap string bytes).
    rewrite lookup_singleton_ne; [done|]. rewrite sample_flag_path. by vm_compute.
Qed.

(** C1 (the code misses it). After a successful [write_frame] the six
    header fields are read back exactly: [read_frame_info] returns the
    frame's width, height and channel count, the timestamp
    [sec + usec / 1_000_000] of the two clock fields written, and the payload
    size. [read_frame], however, does not decode the JPEG payload: it hands
    the payload bytes to [reshape], so it returns [(None, None)] whenever the
    JPEG buffer does not happen to be [height * width * channels] bytes
    long, and otherwise returns the JPEG bytes themselves as the raster. *)
Theorem write_frame_then_read_frame
  (imencode : ndarray → Z → outcome (bool * bytes))
  now frame quality s m height width channels jpeg :
  mmap_file (self s) = Some m → m_closed m = false →
  m_access m ≠ ACCESS_READ → m_size m = TOTAL_SIZE →
  shape frame = [height; width; channels] →
  0 < height < 2 ^ 32 → 0 < width < 2 ^ 32 → 0 <= channels < 2 ^ 32 →
  imencode frame quality = Ok (true, jpeg) →
  0 < Z.of_nat (length jpeg) <= MAX_FRAME_SIZE →
  (0 <= now)%Q → clock_sec now < 2 ^ 32 →
  ∃ s1,
    write_frame imencode now frame quality s = (Ok true, s1)
    ∧ fst (read_frame_info s1) =
        Ok (Some (FrameInfo width height channels
                    (timestamp_of (clock_sec now) (clock_usec now))
                    (Z.of_nat (length jpeg))))
    ∧ (Z.of_nat (length jpeg) ≠ height * width * channels →
       fst (read_frame s1) = Ok (None, None))
    ∧ (Z.of_nat (length jpeg) = height * width * channels →
       fst (read_frame s1) =
         Ok (Some (Ndarray [height; width; channels] jpeg),
             Some (timestamp_of (clock_sec now) (clock_usec now)))).
Proof.
  intros Hm Hc Hacc Hsz Hshape Hh Hw Hch Henc Hlen Hnow Hsec.
  destruct (write_frame_header imencode now frame quality s m height width
              channels jpeg) as (header & Hpack & Hwrite);
    try done; try (unfold u32; lia).
  exists (written s m header jpeg). split; [done|].
  destruct (read_after_write s m header jpeg width height channels
              (clock_sec now) (clock_usec now)) as [Hinfo Hread];
    try done; try lia.
  rewrite Hinfo, Hread.
  rewrite (proj2 (Z.eqb_neq width 0)), (proj2 (Z.eqb_neq height 0)),
    (proj2 (Z.eqb_neq (Z.of_nat (length jpeg)) 0)) by lia.
  cbn [orb]. split; [done|]. unfold frombuffer_reshape. split; intros Hn.
  - by rewrite (proj2 (Z.eqb_neq _ _) Hn).
  - by rewrite (proj2 (Z.eqb_eq _ _) Hn).
Qed.

Lemma write_frame_then_read_frame_witness :
  ∃ s1,
    write_frame tiny_imencode sample_now black_pixel 70
      (created sample_path empty_world) = (Ok true, s1)
    ∧ fst (read_frame s1) = Ok (None, None).
Proof.
  destruct (write_frame_then_read_frame tiny_imencode sample_now black_pixel 70
              (created sample_path empty_world)
              (Mmap sample_path TOTAL_SIZE ACCESS_WRITE 24 false)
              1 1 3 tiny_jpeg) as (s1 & Hwrite & _ & Hread & _).
  - reflexivity.
  - reflexivity.
  - discriminate.
  - reflexivity.
  - reflexivity.
  - lia.
  - lia.
  - lia.
  - reflexivity.
  - change (Z.of_nat (length tiny_jpeg)) with 4. rewrite MAX_FRAME_SIZE_eq. lia.
  - unfold Qle. simpl. lia.
  - vm_compute. reflexivity.
  - exists s1. split; [exact Hwrite|]. apply Hread.
    change (Z.of_nat (length tiny_jpeg)) with 4. lia.
Defined.

(** C2. When the encoded frame is larger than [MAX_FRAME_SIZE],
    [write_frame] returns [False] and leaves the whole state as it was: no
    byte of the store, and so none of the mapped region, changes. *)
Theorem write_frame_rejects_oversized
  (imencode : ndarray → Z → outcome (bool * bytes))
  now frame quality s success jpeg :
  imencode frame quality = Ok (success, jpeg) →
  MAX_FRAME_SIZE < Z.of_nat (length jpeg) →
  write_frame imencode now frame quality s = (Ok false, s).
Proof.
  intros Henc Hlen. unfold write_frame.
  destruct (mmap_file (self s)); [|done].
  unfold_m. destruct (unpack_shape frame) as [[[height width] channels]|]; [|done].
  rewrite Henc. destruct success; [|done]. cbn.
  by rewrite (proj2 (Z.ltb_lt _ _) Hlen).
Qed.

Lemma write_frame_rejects_oversized_witness :
  write_frame huge_imencode sample_now black_pixel 70
    (created sample_path empty_world)
  = (Ok false, created sample_path empty_world).
Proof.
  apply (write_frame_rejects_oversized huge_imencode sample_now black_pixel 70
           (created sample_path empty_world) true (zeros (MAX_FRAME_SIZE + 1))).
  - reflexivity.
  - rewrite length_zeros; rewrite MAX_FRAME_SIZE_eq; lia.
Defined.

(** C3. On a mailbox that was just created and never written to,
    [read_frame] returns [(None, None)] and [read_frame_info] returns
    [None]; the mapped region is zero-filled, and so is its 24-byte header
    (whenever the flag file is a file of its own). *)
Theorem fresh_mailbox_has_no_frame path w u s :
  __init__ path true w = (Ok u, s) →
  fst (read_frame s) = Ok (None, None)
  ∧ fst (read_frame_info s) = Ok None
  ∧ (flag_path_of path ≠ path →
     ∀ m, mmap_file (self s) = Some m →
          view (env s) m = zeros TOTAL_SIZE
          ∧ header_bytes (env s) m = zeros HEADER_SIZE).
Proof.
  intros (-> & _ & _)%init_create_inv.
  destruct (created_reads_nothing path w) as [Hread Hinfo].
  repeat split; try done.
  - by apply view_created_frame.
  - unfold header_bytes. rewrite view_created_frame by done.
    apply take_zeros. sizes.
Qed.

Lemma fresh_mailbox_has_no_frame_witness :
  fst (read_frame (created sample_path empty_world)) = Ok (None, None)
  ∧ fst (read_frame_info (created sample_path empty_world)) = Ok None.
Proof.
  destruct (fresh_mailbox_has_no_frame sample_path empty_world tt
              (created sample_path empty_world) sample_created)
    as (Hread & Hinfo & _).
  split; [exact Hread | exact Hinfo].
Defined.

(** C4 (the code misses it). [read_frame_info] checks the width and the
    height but not the payload size: on a header whose width and height are
    not zero and whose payload size is zero, [read_frame] reports no frame
    and [read_frame_info] still returns the header's fields. *)
Theorem read_frame_info_skips_payload_size s m width height channels sec usec :
  mmap_file (self s) = Some m → m_closed m = false → HEADER_SIZE <= m_size m →
  unpack_6I (header_bytes (env s) m) = Ok (width, height, channels, sec, usec, 0) →
  width ≠ 0 → height ≠ 0 →
  fst (read_frame s) = Ok (None, None)
  ∧ fst (read_frame_info s) =
      Ok (Some (FrameInfo width height channels (timestamp_of sec usec) 0)).
Proof.
  intros Hm Hc Hsz Hhdr Hw Hh.
  rewrite (read_frame_open s m), (read_frame_info_open s m) by done.
  rewrite Hhdr.
  rewrite (proj2 (Z.eqb_neq width 0)), (proj2 (Z.eqb_neq height 0)) by done.
  done.
Qed.

Lemma stale_world_opened :
  __init__ sample_path false stale_world =
    (Ok tt, State (store (flag_path_of sample_path) flag_one stale_world)
                  (opened_object sample_path)).
Proof.
  apply (init_open_fallback _ _ (stale_header ++ zeros MAX_FRAME_SIZE)).
  - cbn. apply not_elem_of_empty.
  - apply (lookup_singleton_eq (M := gmap string)).
  - rewrite length_app, Nat2Z.inj_add, length_zeros by sizes.
    change (Z.of_nat (length stale_header)) with 24. sizes.
  - cbn. apply not_elem_of_empty.
  - unfold flag_unusable.
    change (files stale_world)
      with ({[ sample_path := stale_header ++ zeros MAX_FRAME_SIZE ]} : gmap string bytes).
    rewrite lookup_singleton_ne; [done|]. rewrite sample_flag_path. by vm_compute.
Qed.

Lemma stale_world_header :
  header_bytes (store (flag_path_of sample_path) flag_one stale_world)
    (Mmap sample_path TOTAL_SIZE ACCESS_READ 0 false) = stale_header.
Proof.
  unfold header_bytes, view. cbn [m_path m_size].
  rewrite contents_store_ne by (rewrite sample_flag_path; by vm_compute).
  rewrite (contents_lookup _ _ (stale_header ++ zeros MAX_FRAME_SIZE))
    by apply (lookup_singleton_eq (M := gmap string)).
  apply header_of_region; [done|sizes].
Qed.

Lemma read_frame_info_skips_payload_size_witness :
  fst (read_frame (State (store (flag_path_of sample_path) flag_one stale_world)
                         (opened_object sample_path))) = Ok (None, None)
  ∧ fst (read_frame_info (State (store (flag_path_of sample_path) flag_one stale_world)
                                (opened_object sample_path))) =
      Ok (Some (FrameInfo 640 480 3 (timestamp_of 0 0) 0)).
Proof.
  apply (read_frame_info_skips_payload_size
           (State (store (flag_path_of sample_path) flag_one stale_world)
                  (opened_object sample_path))
           (Mmap sample_path TOTAL_SIZE ACCESS_READ 0 false)
           640 480 3 0 0).
  - reflexivity.
  - reflexivity.
  - simpl. rewrite HEADER_SIZE_eq, TOTAL_SIZE_eq. lia.
  - simpl env. rewrite stale_world_header. reflexivity.
  - lia.
  - lia.
Defined.






(** C6 (the code misses it). [str.replace] rewrites every occurrence of
    ".mmap" and none when there is none. A data path without ".mmap" is its
    own flag path, and creating the mailbox there leaves the four flag
    bytes in the data file; an occurrence of ".mmap" in a directory name is
    rewritten too, which moves the flag file to another directory. *)
Theorem flag_path_of_other_paths :
  flag_path_of "/tmp/frames.dat" = "/tmp/frames.dat"%string
  ∧ __init__ "/tmp/frames.dat" true empty_world
    = (Ok tt, created "/tmp/frames.dat" empty_world)
  ∧ contents (env (created "/tmp/frames.dat" empty_world)) "/tmp/frames.dat"
    = flag_one
  ∧ flag_path_of "/data/cam.mmap.d/frame.mmap"
    = "/data/cam_flag.mmap.d/frame_flag.mmap"%string
  ∧ dirname (flag_path_of "/data/cam.mmap.d/frame.mmap")
    ≠ dirname "/data/cam.mmap.d/frame.mmap".
Proof.
  assert (flag_path_of "/tmp/frames.dat" = "/tmp/frames.dat"%string) as Hsame
    by (by vm_compute).
  split; [exact Hsame|]. split; [|split; [|split]].
  - apply init_create_ok; try (by vm_compute); cbn; apply not_elem_of_empty.
  - unfold created. cbn [env]. rewrite Hsame. apply contents_store.
  - by vm_compute.
  - by vm_compute.
Qed.

(** For a path whose only ".mmap" is its extension, the derivation is the
    one the specification describes: the extension is replaced, the result
    differs from the data path, and it lies in the same directory. *)
Lemma flag_path_of_single_extension stem :
  single_extension stem →
  flag_path_of (stem +:+ ".mmap") = (stem +:+ "_flag.mmap")%string
  ∧ flag_path_of (stem +:+ ".mmap") ≠ (stem +:+ ".mmap")%string
  ∧ dirname (flag_path_of (stem +:+ ".mmap")) = dirname (stem +:+ ".mmap").
Proof.
  intros Hone. rewrite flag_path_of_extension by done.
  split; [done|]. split; [apply flag_path_distinct | apply flag_path_sibling].
Qed.

(** C7. Opening a mailbox on an existing data file whose flag file is
    missing (or too short to map) does not fail: the constructor creates a
    fresh flag file holding 1 and maps it, and the data file is mapped
    read-only and left as it was. The flag path must be one that can be
    written. *)
Theorem open_creates_missing_flag_file path w data :
  path ∉ denied w → files w !! path = Some data →
  TOTAL_SIZE <= Z.of_nat (length data) →
  flag_path_of path ∉ denied w →
  flag_unusable w (flag_path_of path) →
  ∃ s,
    __init__ path false w = (Ok tt, s)
    ∧ files (env s) !! flag_path_of path = Some (le_split 4 1)
    ∧ flag_mmap (self s) = Some (Mmap (flag_path_of path) 4 ACCESS_DEFAULT 0 false)
    ∧ is_preview_enabled s = (Ok true, s)
    ∧ files (env s) !! path = Some data
    ∧ mmap_file (self s) = Some (Mmap path TOTAL_SIZE ACCESS_READ 0 false).
Proof.
  intros Hp Hdata Hlen Hf Hflag.
  eexists. split; [by eapply init_open_fallback|].
  assert (flag_path_of path ≠ path) as Hne.
  { intros Heq. unfold flag_unusable in Hflag. rewrite Heq, Hdata in Hflag. sizes. }
  cbn [env self flag_mmap mmap_file opened_object].
  rewrite files_store, lookup_insert_eq, lookup_insert_ne by done.
  repeat split; try done.
  apply (is_preview_enabled_iff _ (Mmap (flag_path_of path) 4 ACCESS_DEFAULT 0 false));
    try done.
  unfold view. cbn. by rewrite contents_store.
Qed.

Lemma open_creates_missing_flag_file_witness :
  ∃ s,
    __init__ sample_path false data_only_world = (Ok tt, s)
    ∧ files (env s) !! flag_path_of sample_path = Some (le_split 4 1)
    ∧ is_preview_enabled s = (Ok true, s).
Proof.
  destruct (open_creates_missing_flag_file sample_path data_only_world
              (zeros TOTAL_SIZE)) as (s & Hinit & Hfile & _ & Hflag & _).
  - simpl. apply not_elem_of_empty.
  - apply (lookup_singleton_eq (M := gmap string)).
  - rewrite length_zeros; rewrite TOTAL_SIZE_eq; lia.
  - simpl. apply not_elem_of_empty.
  - unfold flag_unusable.
    change (files data_only_world)
      with ({[ sample_path := zeros TOTAL_SIZE ]} : gmap string bytes).
    rewrite lookup_singleton_ne; [exact I|]. rewrite sample_flag_path. discriminate.
  - exists s. split; [exact Hinit|]. split; [exact Hfile | exact Hflag].
Defined.

(** C8. [CameraCapture.read_frame] returns [(False, None)] in every state
    reached without a successful grab (before [start], after a failed
    [start], with the camera not opened), and in every state reached from
    [stop()] by steps of the background threads and further calls other
    than [start]. When the camera is open and a frame was published, it
    returns [True] with a newly allocated array that holds the bytes of the
    published frame; the slot keeps its own array, and nothing that happens
    later changes the copy. *)
Theorem read_frame_returns_latest_copy :
  (∀ id trace,
     forallb (λ e, negb (CameraCapture.successful_grab e)) trace = true →
     fst (CameraCapture.read_frame
            (CameraCapture.run trace (CameraCapture.__init__ id)))
     = (false, None))
  ∧ (∀ s trace,
     forallb (λ e, negb (CameraCapture.is_start e)) trace = true →
     fst (CameraCapture.read_frame
            (CameraCapture.run trace (CameraCapture.stop s)))
     = (false, None))
  ∧ (∀ id trace l,
     let s := CameraCapture.run trace (CameraCapture.__init__ id) in
     CameraCapture.is_opened (CameraCapture.self s) = true →
     CameraCapture.grabbed (CameraCapture.self s) = true →
     CameraCapture.frame (CameraCapture.self s) = Some l →
     ∃ l' data,
       fst (CameraCapture.read_frame s) = (true, Some l')
       ∧ CameraCapture.arrays s !! l = Some data
       ∧ l' ≠ l
       ∧ CameraCapture.arrays s !! l' = None
       ∧ CameraCapture.frame
           (CameraCapture.self (snd (CameraCapture.read_frame s))) = Some l
       ∧ ∀ later,
           CameraCapture.arrays
             (CameraCapture.run later (snd (CameraCapture.read_frame s))) !! l'
           = Some data).
Proof.
  split; [|split].
  - intros id trace Htrace.
    destruct (never_grabbed_run trace (CameraCapture.__init__ id) Htrace)
      as [Hg _]; [done|].
    unfold CameraCapture.read_frame. rewrite Hg. by destruct (negb _).
  - intros s trace Htrace.
    pose proof (closed_run trace (CameraCapture.stop s) Htrace eq_refl) as Ho.
    unfold CameraCapture.read_frame. by rewrite Ho.
  - intros id trace l s Ho Hg Hf.
    destruct (allocated_run trace _ (allocated_init id)) as [Hslot _].
    destruct (Hslot l Hf) as [data Hl].
    destruct (read_frame_copy s l data Ho Hg Hf Hl) as (l' & Hread & Hfresh).
    exists l', data. rewrite Hread. cbn.
    repeat split; try done.
    + intros ->. fold s in Hl. congruence.
    + intros later. apply arrays_run. cbn. apply lookup_insert_eq.
Qed.

Lemma read_frame_returns_latest_copy_witness :
  fst (CameraCapture.read_frame
         (CameraCapture.run [CameraCapture.Start CameraCapture.NotOpened]
            (CameraCapture.__init__ 0))) = (false, None)
  ∧ fst (CameraCapture.read_frame
           (CameraCapture.run [CameraCapture.UpdateCheck 0]
              (CameraCapture.stop
                 (CameraCapture.run [CameraCapture.sample_start]
                    (CameraCapture.__init__ 0))))) = (false, None)
  ∧ ∃ l' data,
      fst (CameraCapture.read_frame
             (CameraCapture.run [CameraCapture.sample_start]
                (CameraCapture.__init__ 0))) = (true, Some l')
      ∧ l' ≠ fresh (dom (∅ : gmap positive bytes))
      ∧ data = [Byte.x01; Byte.x02; Byte.x03].
Proof.
  destruct read_frame_returns_latest_copy as (Hnone & Hstopped & Hcopy).
  split; [apply Hnone; reflexivity|].
  split; [apply Hstopped; reflexivity|].
  destruct (Hcopy 0 [CameraCapture.sample_start]
              (fresh (dom (∅ : gmap positive bytes))))
    as (l' & data & Hread & Hdata & Hne & _); [reflexivity..|].
  exists l', data. split; [exact Hread|]. split; [exact Hne|].
  simpl in Hdata. rewrite lookup_insert_eq in Hdata. congruence.
Defined.

Lemma reads_on_short_mapping s m :
  mmap_file (self s) = Some m → m_closed m = false →
  backed (env s) m → 0 <= m_size m < HEADER_SIZE →
  fst (read_frame s) = Ok (None, None) ∧ fst (read_frame_info s) = Ok None.
Proof.
  destruct s as [w [fp mf fh flp flm flh]], m as [p sz acc pos cl].
  unfold backed. cbn. intros -> -> Hb Hsz.
  assert (Z.of_nat (length (take (Z.to_nat sz)
                              (drop (Z.to_nat 0)
                                 (take (Z.to_nat sz) (contents w p))))) ≠ 24) as Hshort.
  { change (Z.to_nat 0) with 0%nat. rewrite drop_0, take_take, length_take. sizes. }
  split.
  - unfold read_frame, read_frame_body. cbn. unfold_m. unfold_prims. cbn.
    rewrite (proj2 (Z.ltb_ge sz 0)) by lia. cbn.
    rewrite Z.sub_0_r, Z.max_r by lia.
    rewrite (proj2 (Z.ltb_lt sz HEADER_SIZE)) by lia. rewrite orb_true_r.
    unfold view. cbn. by rewrite unpack_6I_short.
  - unfold read_frame_info, read_frame_info_body. cbn. unfold_m. unfold_prims. cbn.
    rewrite (proj2 (Z.ltb_ge sz 0)) by lia. cbn.
    rewrite Z.sub_0_r, Z.max_r by lia.
    rewrite (proj2 (Z.ltb_lt sz HEADER_SIZE)) by lia. rewrite orb_true_r.
    unfold view. cbn. by rewrite unpack_6I_short.
Qed.

(** C9. [read_frame] and [read_frame_info] always return: in every state
    whose data file holds at least the bytes that the open frame mapping
    covers, the outcome is a value, never an exception, and the store is
    left as it was. Whatever the body raises becomes the no-frame result;
    so do a missing or closed mapping, a mapping shorter than the header,
    and a payload whose length is not [height * width * channels]. *)
Theorem reads_never_raise :
  (∀ s,
     (∀ m, mmap_file (self s) = Some m → m_closed m = false → backed (env s) m) →
     ∃ r s', read_frame s = (Ok r, s') ∧ env s' = env s)
  ∧ (∀ s,
     (∀ m, mmap_file (self s) = Some m → m_closed m = false → backed (env s) m) →
     ∃ r s', read_frame_info s = (Ok r, s') ∧ env s' = env s)
  ∧ (∀ s m e s', mmap_file (self s) = Some m → backed (env s) m →
       read_frame_body s = (Raise e, s') → read_frame s = (Ok (None, None), s'))
  ∧ (∀ s m e s', mmap_file (self s) = Some m → backed (env s) m →
       read_frame_info_body s = (Raise e, s') → read_frame_info s = (Ok None, s'))
  ∧ (∀ s, mmap_file (self s) = None →
       read_frame s = (Ok (None, None), s) ∧ read_frame_info s = (Ok None, s))
  ∧ (∀ s m, mmap_file (self s) = Some m → m_closed m = true →
       read_frame s = (Ok (None, None), s) ∧ read_frame_info s = (Ok None, s))
  ∧ (∀ s m, mmap_file (self s) = Some m → m_closed m = false →
       backed (env s) m → 0 <= m_size m < HEADER_SIZE →
       fst (read_frame s) = Ok (None, None) ∧ fst (read_frame_info s) = Ok None)
  ∧ (∀ s m width height channels sec usec frame_size,
       mmap_file (self s) = Some m → m_closed m = false →
       HEADER_SIZE <= m_size m → backed (env s) m →
       unpack_6I (header_bytes (env s) m)
         = Ok (width, height, channels, sec, usec, frame_size) →
       Z.of_nat (length (payload_bytes (env s) m frame_size))
         ≠ height * width * channels →
       fst (read_frame s) = Ok (None, None)).
Proof.
  split; [|split; [|split; [|split; [|split; [|split; [|split]]]]]].
  - intros s _. destruct (read_frame_returns s) as (r & s' & Hr). exists r, s'.
    split; [done|]. pose proof (read_frame_env s) as He. by rewrite Hr in He.
  - intros s _. destruct (read_frame_info_returns s) as (r & s' & Hr). exists r, s'.
    split; [done|]. pose proof (read_frame_info_env s) as He. by rewrite Hr in He.
  - intros s m e s' Hm _ Hbody. unfold read_frame, try_except.
    rewrite Hm. by rewrite Hbody.
  - intros s m e s' Hm _ Hbody. unfold read_frame_info, try_except.
    rewrite Hm. by rewrite Hbody.
  - intros s Hm. split.
    + by apply read_frame_unmapped.
    + by apply read_frame_info_unmapped.
  - intros s m Hm Hc. split.
    + by eapply read_frame_closed.
    + by eapply read_frame_info_closed.
  - intros s m Hm Hc Hb Hsz. by apply (reads_on_short_mapping s m).
  - intros s m width height channels sec usec frame_size Hm Hc Hsz _ Hhdr Hlen.
    rewrite (read_frame_open s m) by done. rewrite Hhdr.
    destruct ((width =? 0) || (height =? 0) || (frame_size =? 0)); [done|].
    by rewrite frombuffer_reshape_mismatch.
Qed.

Lemma close_created path w :
  close (created path w) = (Ok tt, closed_mailbox path w).
Proof. unfold close, created, closed_mailbox. by run. Qed.

Lemma sample_flag_differs : flag_path_of sample_path ≠ sample_path.
Proof. rewrite sample_flag_path. discriminate. Qed.

Lemma sample_created_length :
  Z.of_nat (length (contents (env (created sample_path empty_world)) sample_path))
  = TOTAL_SIZE.
Proof.
  unfold created. cbn [env].
  rewrite contents_store_ne by apply sample_flag_differs.
  rewrite contents_store. apply length_zeros. sizes.
Qed.

Lemma exact_clock_nonneg now : exact_clock now → (0 <= now)%Q.
Proof. unfold exact_clock. intros H. by apply (Qle_trans _ 8192). Qed.

Lemma sample_now_exact : exact_clock sample_now.
Proof. unfold exact_clock, sample_now, Qle. simpl. lia. Qed.

Lemma sample_created_backed :
  backed (env (created sample_path empty_world))
    (Mmap sample_path TOTAL_SIZE ACCESS_WRITE 24 false).
Proof. unfold backed. cbn [m_size m_path]. rewrite sample_created_length. lia. Qed.

Lemma reads_never_raise_witness :
  snd (close (created sample_path empty_world)) = closed_mailbox sample_path empty_world
  ∧ read_frame (closed_mailbox sample_path empty_world)
    = (Ok (None, None), closed_mailbox sample_path empty_world)
  ∧ read_frame_info (closed_mailbox sample_path empty_world)
    = (Ok None, closed_mailbox sample_path empty_world)
  ∧ ∃ r s', read_frame (created sample_path empty_world) = (Ok r, s')
            ∧ env s' = env (created sample_path empty_world).
Proof.
  destruct reads_never_raise as (Htotal & _ & _ & _ & _ & Hclosed & _).
  split; [rewrite close_created; reflexivity|].
  destruct (Hclosed (closed_mailbox sample_path empty_world)
              (Mmap sample_path TOTAL_SIZE ACCESS_WRITE 24 true)
              eq_refl eq_refl) as [Hread Hinfo].
  split; [exact Hread|]. split; [exact Hinfo|].
  apply Htotal. intros m Hm _.
  assert (m = Mmap sample_path TOTAL_SIZE ACCESS_WRITE 24 false) as ->
    by (cbn in Hm; congruence).
  apply sample_created_backed.
Defined.

(** C10. A mailbox constructed with [create=False] maps the data file
    read-only. On it, and on any state whose frame mapping is read-only,
    [write_frame] returns [False] for every frame, quality and clock
    reading, and the store is left as it was. *)
Theorem write_frame_fails_on_opened_mailbox
  (imencode : ndarray → Z → outcome (bool * bytes)) :
  (∀ path w u s now frame quality,
     __init__ path false w = (Ok u, s) →
     mmap_file (self s) = Some (Mmap path TOTAL_SIZE ACCESS_READ 0 false)
     ∧ fst (write_frame imencode now frame quality s) = Ok false
     ∧ env (snd (write_frame imencode now frame quality s)) = env s)
  ∧ (∀ s m now frame quality,
     mmap_file (self s) = Some m → m_access m = ACCESS_READ →
     fst (write_frame imencode now frame quality s) = Ok false
     ∧ env (snd (write_frame imencode now frame quality s)) = env s).
Proof.
  split.
  - intros path w u s now frame quality [Hself _]%init_open_inv.
    assert (mmap_file (self s) = Some (Mmap path TOTAL_SIZE ACCESS_READ 0 false))
      as Hm by (by rewrite Hself).
    split; [done|]. by eapply write_frame_read_only.
  - intros s m now frame quality Hm Hacc. by eapply write_frame_read_only.
Qed.

Lemma write_frame_fails_on_opened_mailbox_witness :
  __init__ sample_path false data_only_world
  = (Ok tt, State (store (flag_path_of sample_path) flag_one data_only_world)
                  (opened_object sample_path))
  ∧ fst (write_frame tiny_imencode sample_now black_pixel 70
           (State (store (flag_path_of sample_path) flag_one data_only_world)
                  (opened_object sample_path))) = Ok false
  ∧ env (snd (write_frame tiny_imencode sample_now black_pixel 70
                (State (store (flag_path_of sample_path) flag_one data_only_world)
                       (opened_object sample_path))))
    = store (flag_path_of sample_path) flag_one data_only_world.
Proof.
  destruct (write_frame_fails_on_opened_mailbox tiny_imencode) as [Hopened _].
  destruct (Hopened sample_path data_only_world tt
              (State (store (flag_path_of sample_path) flag_one data_only_world)
                     (opened_object sample_path))
              sample_now black_pixel 70 sample_opened) as (_ & Hfalse & Henv).
  split; [exact sample_opened|]. split; [exact Hfalse | exact Henv].
Defined.


(** * Further properties of the two classes *)

(** ** What a call leaves of the state *)

Lemma moved_same s m :
  mmap_file (self s) = Some m → moved (m_pos m) m s = s.
Proof.
  destruct s as [w [fp mf fh flp flm flh]], m as [p sz acc pos cl].
  cbn. by intros ->.
Qed.

Lemma read_frame_moves s m :
  mmap_file (self s) = Some m →
  ∃ r k, read_frame s = (Ok r, moved k m s).
Proof.
  destruct s as [w [fp mf fh flp flm flh]], m as [p sz acc pos cl].
  cbn. intros ->. unfold read_frame, read_frame_body, moved, set_pos. cbn.
  unfold_m. unfold_prims. unfold set_pos. cbn.
  destruct cl; [by eexists _, _|]. cbn.
  destruct (sz <? 0); [by eexists _, _|]. cbn.
  destruct (unpack_6I _) as [[[[[[width height] channels] ts_sec] ts_usec] frame_size]|];
    [|by eexists _, _].
  destruct ((width =? 0) || (height =? 0) || (frame_size =? 0)); [by eexists _, _|]. cbn.
  destruct (frombuffer_reshape _ _ _ _); by eexists _, _.
Qed.

Lemma read_frame_info_moves s m :
  mmap_file (self s) = Some m →
  ∃ r k, read_frame_info s = (Ok r, moved k m s).
Proof.
  destruct s as [w [fp mf fh flp flm flh]], m as [p sz acc pos cl].
  cbn. intros ->. unfold read_frame_info, read_frame_info_body, moved, set_pos. cbn.
  unfold_m. unfold_prims. unfold set_pos. cbn.
  destruct cl; [by eexists _, _|]. cbn.
  destruct (sz <? 0); [by eexists _, _|]. cbn.
  destruct (unpack_6I _) as [[[[[[width height] channels] ts_sec] ts_usec] frame_size]|];
    [|by eexists _, _].
  destruct ((width =? 0) || (height =? 0)); by eexists _, _.
Qed.

Section WriteCases.

Variable imencode : ndarray -> Z -> outcome (bool * bytes).

(** [write_frame] on a mapping of the full size: it fails without a
    write, or it writes header and payload. *)
Lemma write_frame_cases now frame quality s m :
  mmap_file (self s) = Some m → m_size m = TOTAL_SIZE →
  (∃ k, write_frame imencode now frame quality s = (Ok false, moved k m s))
  ∨ (∃ height width channels jpeg header,
       shape frame = [height; width; channels]
       ∧ imencode frame quality = Ok (true, jpeg)
       ∧ Z.of_nat (length jpeg) <= MAX_FRAME_SIZE
       ∧ pack_6I width height channels (clock_sec now) (clock_usec now)
                 (Z.of_nat (length jpeg)) = Ok header
       ∧ m_closed m = false ∧ m_access m ≠ ACCESS_READ
       ∧ write_frame imencode now frame quality s
         = (Ok true, written s m header jpeg)).
Proof.
  intros Hm Hsz.
  destruct (unpack_shape frame) as [[[height width] channels]|e] eqn:Hshape.
  2: { left. exists (m_pos m). rewrite moved_same by done.
       unfold write_frame. rewrite Hm. unfold_m. by rewrite Hshape. }
  assert (shape frame = [height; width; channels]) as Hsh.
  { unfold unpack_shape in Hshape. by repeat case_match; simplify_eq. }
  destruct (imencode frame quality) as [[success jpeg]|e] eqn:Henc.
  2: { left. exists (m_pos m). rewrite moved_same by done.
       unfold write_frame. rewrite Hm. unfold_m. by rewrite Hshape, Henc. }
  destruct success.
  2: { left. exists (m_pos m). rewrite moved_same by done.
       unfold write_frame. rewrite Hm. unfold_m. by rewrite Hshape, Henc. }
  destruct (Z.ltb_spec MAX_FRAME_SIZE (Z.of_nat (length jpeg))) as [Hbig|Hfit].
  { left. exists (m_pos m). rewrite moved_same by done.
    unfold write_frame. rewrite Hm. unfold_m. rewrite Hshape, Henc. cbn.
    by rewrite (proj2 (Z.ltb_lt _ _) Hbig). }
  destruct (m_closed m) eqn:Hc.
  { left. exists (m_pos m). rewrite moved_same by done. revert Hm Hc Hsz.
    destruct s as [w [fp mf fh flp flm flh]], m as [p sz acc pos cl].
    cbn. intros -> -> ->. unfold write_frame. cbn.
    unfold_m. rewrite Hshape, Henc. cbn.
    rewrite (proj2 (Z.ltb_ge _ _) Hfit). by unfold_prims. }
  destruct (pack_6I width height channels (clock_sec now) (clock_usec now)
              (Z.of_nat (length jpeg))) as [header|e] eqn:Hpack.
  - assert (m_access m = ACCESS_READ ∨ m_access m ≠ ACCESS_READ) as [Hacc|Hacc]
      by (destruct (m_access m); auto).
    + left. exists 0. revert Hm Hc Hsz Hacc.
      destruct s as [w [fp mf fh flp flm flh]], m as [p sz acc pos cl].
      cbn. intros -> -> -> ->. unfold write_frame, moved, set_pos. cbn.
      unfold_m. rewrite Hshape, Henc. cbn.
      rewrite (proj2 (Z.ltb_ge _ _) Hfit). unfold_prims. cbn.
      change (TOTAL_SIZE <? 0) with false. cbn.
      unfold clock_sec, clock_usec in Hpack. by rewrite Hpack.
    + right. exists height, width, channels, jpeg, header.
      repeat split; try done. by eapply write_frame_ok.
  - left. exists 0. revert Hm Hc Hsz.
    destruct s as [w [fp mf fh flp flm flh]], m as [p sz acc pos cl].
    cbn. intros -> -> ->. unfold write_frame, moved, set_pos. cbn.
    unfold_m. rewrite Hshape, Henc. cbn.
    rewrite (proj2 (Z.ltb_ge _ _) Hfit). unfold_prims. cbn.
    change (TOTAL_SIZE <? 0) with false. cbn.
    unfold clock_sec, clock_usec in Hpack. by rewrite Hpack.
Qed.

End WriteCases.


Lemma moved_moved k k' m s :
  moved k' (set_pos k m) (moved k m s) = moved k' m s.
Proof. by destruct s as [w [fp mf fh flp flm flh]]. Qed.

Lemma mmap_file_moved k m s : mmap_file (self (moved k m s)) = Some (set_pos k m).
Proof. by destruct s as [w [fp mf fh flp flm flh]]. Qed.

Lemma mmap_file_written s m header jpeg :
  mmap_file (self (written s m header jpeg))
  = Some (set_pos (HEADER_SIZE + Z.of_nat (length jpeg)) m).
Proof. by destruct s as [w [fp mf fh flp flm flh]]. Qed.

Lemma written_as_moved s m header jpeg :
  self (written s m header jpeg)
  = self (moved (HEADER_SIZE + Z.of_nat (length jpeg)) m s).
Proof. done. Qed.

Lemma length_written (header jpeg old : bytes) :
  length header = 24%nat →
  HEADER_SIZE + Z.of_nat (length jpeg) <= Z.of_nat (length old) →
  length (header ++ jpeg
          ++ drop (Z.to_nat (HEADER_SIZE + Z.of_nat (length jpeg))) old)
  = length old.
Proof.
  intros Hh Hfit. rewrite !length_app, length_drop, Hh. sizes.
Qed.

Lemma files_store_ne p q d w : p ≠ q → files (store p d w) !! q = files w !! q.
Proof. intros Hne. rewrite files_store. by rewrite lookup_insert_ne. Qed.

Section Serving.

Variable imencode : ndarray -> Z -> outcome (bool * bytes).

(** One call on an open mailbox moves the frame mapping and may rewrite
    the data file in place; it does nothing else. *)
Lemma serve_keeps r s m :
  mmap_file (self s) = Some m → m_size m = TOTAL_SIZE →
  Z.of_nat (length (contents (env s) (m_path m))) = TOTAL_SIZE →
  ∃ k,
    self (serve imencode r s) = self (moved k m s)
    ∧ Z.of_nat (length (contents (env (serve imencode r s)) (m_path m))) = TOTAL_SIZE
    ∧ (∀ q, q ≠ m_path m →
         files (env (serve imencode r s)) !! q = files (env s) !! q)
    ∧ denied (env (serve imencode r s)) = denied (env s).
Proof.
  intros Hm Hsz Hlen. destruct r as [now frame quality| | |]; cbn [serve].
  - destruct (write_frame_cases imencode now frame quality s m Hm Hsz)
      as [[k ->]|(height & width & channels & jpeg & header & _ & _ & Hfit
                  & Hpack & _ & _ & ->)].
    + by exists k.
    + exists (HEADER_SIZE + Z.of_nat (length jpeg)). cbn [snd].
      split; [done|]. unfold written. cbn [env].
      rewrite contents_store. split; [|split].
      * rewrite length_written; [done|by eapply length_pack_6I|sizes].
      * intros q Hq. by rewrite files_store_ne.
      * done.
  - destruct (read_frame_moves s m Hm) as (r & k & ->). by exists k.
  - destruct (read_frame_info_moves s m Hm) as (r & k & ->). by exists k.
  - destruct (is_preview_enabled_total s) as [b ->]. exists (m_pos m).
    by rewrite moved_same.
Qed.

Lemma serve_all_snoc rs r s :
  serve_all imencode (rs ++ [r]) s = serve imencode r (serve_all imencode rs s).
Proof. unfold serve_all. by rewrite foldl_app. Qed.

End Serving.

(** X1. [write_frame] on a mailbox of the full size, whose data file
    holds the bytes that the mapping covers, is all or nothing, at every
    clock reading from 8192 s on. It returns
    [False] and the store is as before, or it returns [True] and the
    region then starts with the header of this frame (width, height,
    channels, the two clock fields, the payload size) followed by the
    encoder's bytes, every byte after the payload is as before, the file
    has the length it had, and no other file has changed. *)
Theorem write_frame_all_or_nothing
  (imencode : ndarray → Z → outcome (bool * bytes)) now frame quality s m :
  mmap_file (self s) = Some m → m_size m = TOTAL_SIZE → backed (env s) m →
  exact_clock now →
  ∃ b s',
    write_frame imencode now frame quality s = (Ok b, s')
    ∧ (b = false → env s' = env s)
    ∧ (b = true →
       ∃ height width channels jpeg,
         shape frame = [height; width; channels]
         ∧ imencode frame quality = Ok (true, jpeg)
         ∧ unpack_6I (header_bytes (env s') m)
           = Ok (width, height, channels, clock_sec now, clock_usec now,
                 Z.of_nat (length jpeg))
         ∧ payload_bytes (env s') m (Z.of_nat (length jpeg)) = jpeg
         ∧ drop (Z.to_nat (HEADER_SIZE + Z.of_nat (length jpeg)))
                (contents (env s') (m_path m))
           = drop (Z.to_nat (HEADER_SIZE + Z.of_nat (length jpeg)))
                  (contents (env s) (m_path m))
         ∧ length (contents (env s') (m_path m))
           = length (contents (env s) (m_path m))
         ∧ ∀ q, q ≠ m_path m → files (env s') !! q = files (env s) !! q).
Proof.
  intros Hm Hsz Hback _. unfold backed in Hback.
  destruct (write_frame_cases imencode now frame quality s m Hm Hsz)
    as [[k Hw]|(height & width & channels & jpeg & header & Hshape & Henc & Hfit
                & Hpack & _ & _ & Hw)].
  - exists false, (moved k m s). by repeat split.
  - exists true, (written s m header jpeg). split; [done|]. split; [done|].
    intros _. exists height, width, channels, jpeg.
    pose proof (length_pack_6I _ _ _ _ _ _ _ Hpack) as Hhl.
    split; [done|]. split; [done|].
    unfold header_bytes, payload_bytes, written. cbn [env].
    rewrite view_store, contents_store, Hsz.
    rewrite header_of_region by (done || sizes).
    rewrite payload_of_region by (done || sizes).
    split; [by apply unpack_pack_6I|]. split; [done|]. split; [|split].
    + replace (Z.to_nat (HEADER_SIZE + Z.of_nat (length jpeg)))
        with (24 + length jpeg)%nat by sizes.
      rewrite drop_app_add' by done. by rewrite drop_app_length.
    + apply length_written; [done|sizes].
    + intros q Hq. by rewrite files_store_ne.
Qed.

Lemma write_frame_all_or_nothing_witness :
  ∃ b s',
    write_frame tiny_imencode sample_now black_pixel 70
      (created sample_path empty_world) = (Ok b, s')
    ∧ (b = false → env s' = env (created sample_path empty_world)).
Proof.
  destruct (write_frame_all_or_nothing tiny_imencode sample_now black_pixel 70
              (created sample_path empty_world)
              (Mmap sample_path TOTAL_SIZE ACCESS_WRITE 24 false)
              eq_refl eq_refl sample_created_backed sample_now_exact)
    as (b & s' & Hw & Hfalse & _).
  exists b, s'. split; [exact Hw | exact Hfalse].
Defined.

(** The answer of [is_preview_enabled] depends on the flag mapping and
    on the bytes of the flag file only. *)
Lemma is_preview_enabled_depends s s' :
  flag_mmap (self s) = flag_mmap (self s') →
  (∀ f, flag_mmap (self s) = Some f →
        contents (env s) (m_path f) = contents (env s') (m_path f)) →
  fst (is_preview_enabled s) = fst (is_preview_enabled s').
Proof.
  intros Hflag Hbytes.
  destruct (flag_mmap (self s)) as [f|] eqn:Hf.
  - symmetry in Hflag. specialize (Hbytes f eq_refl).
    destruct (m_closed f) eqn:Hc.
    + by rewrite (is_preview_enabled_closed s f), (is_preview_enabled_closed s' f).
    + destruct (Z.eq_dec (m_size f) 0) as [Hz|Hz].
      * revert Hf Hflag Hc Hz. clear Hbytes.
        destruct s as [w [fp mf fh flp flm flh]], s' as [w' [fp' mf' fh' flp' flm' flh']],
          f as [p sz acc pos cl].
        cbn. intros -> -> -> ->. unfold is_preview_enabled. by run.
      * rewrite (is_preview_enabled_open s f), (is_preview_enabled_open s' f) by done.
        cbn [fst]. unfold view. by rewrite Hbytes.
  - symmetry in Hflag.
    by rewrite (is_preview_enabled_unmapped s), (is_preview_enabled_unmapped s').
Qed.

(** X2. Whatever sequence of [write_frame], [read_frame],
    [read_frame_info] and [is_preview_enabled] calls is made on a mailbox
    of the full size, the object changes only in the position of its frame
    mapping, the data file keeps its [TOTAL_SIZE] bytes, no other file is
    touched, and so, when the flag file is a file of its own, the answer
    of [is_preview_enabled] stays what it was: the API never writes the
    flag. *)
Theorem serving_touches_only_the_data_file
  (imencode : ndarray → Z → outcome (bool * bytes)) rs s m :
  mmap_file (self s) = Some m → m_size m = TOTAL_SIZE →
  Z.of_nat (length (contents (env s) (m_path m))) = TOTAL_SIZE →
  (∃ k, self (serve_all imencode rs s) = self (moved k m s))
  ∧ Z.of_nat (length (contents (env (serve_all imencode rs s)) (m_path m)))
    = TOTAL_SIZE
  ∧ (∀ q, q ≠ m_path m →
       files (env (serve_all imencode rs s)) !! q = files (env s) !! q)
  ∧ denied (env (serve_all imencode rs s)) = denied (env s)
  ∧ (∀ f, flag_mmap (self s) = Some f → m_path f ≠ m_path m →
       fst (is_preview_enabled (serve_all imencode rs s))
       = fst (is_preview_enabled s)).
Proof.
  intros Hm Hsz Hlen.
  assert ((∃ k, self (serve_all imencode rs s) = self (moved k m s))
          ∧ Z.of_nat (length (contents (env (serve_all imencode rs s)) (m_path m)))
            = TOTAL_SIZE
          ∧ (∀ q, q ≠ m_path m →
               files (env (serve_all imencode rs s)) !! q = files (env s) !! q)
          ∧ denied (env (serve_all imencode rs s)) = denied (env s)) as Hinv.
  { induction rs as [|r rs IH] using rev_ind.
    - change (serve_all imencode [] s) with s.
      repeat split; try done. exists (m_pos m). by rewrite moved_same.
    - rewrite serve_all_snoc.
      destruct IH as ([k Hself] & Hlen' & Hfiles & Hdenied).
      destruct (serve_keeps imencode r (serve_all imencode rs s) (set_pos k m))
        as (k' & Hself' & Hlen'' & Hfiles' & Hdenied').
      + rewrite Hself. apply mmap_file_moved.
      + done.
      + done.
      + split; [|split; [|split]].
        * exists k'. rewrite Hself'. unfold moved. cbn [self]. rewrite Hself.
          unfold moved. cbn [self]. by destruct (self s).
        * done.
        * intros q Hq. rewrite Hfiles' by done. by apply Hfiles.
        * congruence. }
  destruct Hinv as ([k Hself] & Hlen' & Hfiles & Hdenied).
  repeat split; try done; [by exists k|].
  intros f Hf Hne. apply is_preview_enabled_depends.
  - rewrite Hself. unfold moved. cbn [self]. by destruct (self s).
  - rewrite Hself. intros f'.
    replace (flag_mmap (self (moved k m s))) with (flag_mmap (self s))
      by (unfold moved; cbn [self]; by destruct (self s)).
    intros Hf'. assert (f' = f) as -> by congruence.
    unfold contents. by rewrite Hfiles.
Qed.

Lemma serving_touches_only_the_data_file_witness :
  Z.of_nat (length (contents
    (env (serve_all tiny_imencode
            [Write sample_now black_pixel 70; Read; Info; Preview]
            (created sample_path empty_world))) sample_path)) = TOTAL_SIZE
  ∧ fst (is_preview_enabled
           (serve_all tiny_imencode
              [Write sample_now black_pixel 70; Read; Info; Preview]
              (created sample_path empty_world))) = Ok true.
Proof.
  destruct (serving_touches_only_the_data_file tiny_imencode
              [Write sample_now black_pixel 70; Read; Info; Preview]
              (created sample_path empty_world)
              (Mmap sample_path TOTAL_SIZE ACCESS_WRITE 24 false))
    as (_ & Hlen & _ & _ & Hflag).
  - reflexivity.
  - reflexivity.
  - exact sample_created_length.
  - split; [exact Hlen|].
    rewrite (Hflag (Mmap (flag_path_of sample_path) 4 ACCESS_DEFAULT 0 false)).
    + rewrite is_preview_enabled_created. reflexivity.
    + reflexivity.
    + exact sample_flag_differs.
Defined.


(** ** Successive writes, and a consumer on the same path *)

Lemma header_bytes_written s m mc header jpeg :
  length header = 24%nat →
  m_path mc = m_path m → m_size mc = TOTAL_SIZE →
  header_bytes (env (written s m header jpeg)) mc = header.
Proof.
  intros Hh Hp Hsz. unfold header_bytes, written. cbn [env].
  rewrite <- Hp, view_store, Hsz. apply header_of_region; [done|sizes].
Qed.

Lemma stale_tail (header1 jpeg1 header2 jpeg2 rest : bytes) :
  length header1 = 24%nat → length header2 = 24%nat →
  (length jpeg2 <= length jpeg1)%nat →
  take (length jpeg1 - length jpeg2)
       (drop (24 + length jpeg2)
             (header2 ++ jpeg2
              ++ drop (24 + length jpeg2) (header1 ++ jpeg1 ++ rest)))
  = drop (length jpeg2) jpeg1.
Proof.
  intros H1 H2 Hle.
  rewrite drop_app_add' by done. rewrite drop_app_length.
  rewrite drop_app_add' by done.
  rewrite drop_app_le by done.
  rewrite take_app_length'; [done|]. rewrite length_drop. lia.
Qed.

(** X3. Latest value wins, and nothing is cleared. On a mailbox whose
    data file holds the bytes that the mapping covers, after two
    successful writes [read_frame_info] reports the second frame's header;
    when the second payload is shorter than the first, the bytes of the
    first payload beyond the second one's length are still in the file,
    right after the second payload (the region is not zero-padded
    again), and the file has the length it had. The clock reads 8192 s or
    more at both writes. *)
Theorem second_write_wins
  (imencode : ndarray → Z → outcome (bool * bytes))
  s m now1 frame1 quality1 height1 width1 channels1 jpeg1
  now2 frame2 quality2 height2 width2 channels2 jpeg2 :
  mmap_file (self s) = Some m → m_closed m = false →
  m_access m ≠ ACCESS_READ → m_size m = TOTAL_SIZE →
  backed (env s) m →
  shape frame1 = [height1; width1; channels1] →
  u32 height1 → u32 width1 → u32 channels1 →
  imencode frame1 quality1 = Ok (true, jpeg1) →
  Z.of_nat (length jpeg1) <= MAX_FRAME_SIZE →
  exact_clock now1 → clock_sec now1 < 2 ^ 32 →
  shape frame2 = [height2; width2; channels2] →
  0 < height2 < 2 ^ 32 → 0 < width2 < 2 ^ 32 → u32 channels2 →
  imencode frame2 quality2 = Ok (true, jpeg2) →
  Z.of_nat (length jpeg2) <= MAX_FRAME_SIZE →
  exact_clock now2 → clock_sec now2 < 2 ^ 32 →
  ∃ s1 s2,
    write_frame imencode now1 frame1 quality1 s = (Ok true, s1)
    ∧ write_frame imencode now2 frame2 quality2 s1 = (Ok true, s2)
    ∧ fst (read_frame_info s2) =
        Ok (Some (FrameInfo width2 height2 channels2
                    (timestamp_of (clock_sec now2) (clock_usec now2))
                    (Z.of_nat (length jpeg2))))
    ∧ ((length jpeg2 <= length jpeg1)%nat →
       take (length jpeg1 - length jpeg2)
            (drop (24 + length jpeg2) (contents (env s2) (m_path m)))
       = drop (length jpeg2) jpeg1)
    ∧ length (contents (env s2) (m_path m))
      = length (contents (env s) (m_path m)).
Proof.
  intros Hm Hc Hacc Hsz Hback Hsh1 Hh1 Hw1 Hc1 Henc1 Hlen1
         Hnow1%exact_clock_nonneg Hsec1
         Hsh2 Hh2 Hw2 Hc2 Henc2 Hlen2 Hnow2%exact_clock_nonneg Hsec2.
  unfold backed in Hback.
  destruct (write_frame_header imencode now1 frame1 quality1 s m height1 width1
              channels1 jpeg1) as (header1 & Hpack1 & Hwrite1); try done.
  set (m1 := set_pos (HEADER_SIZE + Z.of_nat (length jpeg1)) m).
  pose proof (mmap_file_written s m header1 jpeg1) as Hm1. fold m1 in Hm1.
  destruct (write_frame_header imencode now2 frame2 quality2
              (written s m header1 jpeg1) m1 height2 width2 channels2 jpeg2)
    as (header2 & Hpack2 & Hwrite2); try done; try (unfold u32; lia).
  exists (written s m header1 jpeg1), (written (written s m header1 jpeg1) m1 header2 jpeg2).
  split; [done|]. split; [done|]. split.
  - destruct (read_after_write (written s m header1 jpeg1) m1 header2 jpeg2
                width2 height2 channels2 (clock_sec now2) (clock_usec now2))
      as [Hinfo _]; try done.
    rewrite Hinfo.
    by rewrite (proj2 (Z.eqb_neq width2 0)), (proj2 (Z.eqb_neq height2 0)) by lia.
  - pose proof (length_pack_6I _ _ _ _ _ _ _ Hpack1) as Hhl1.
    pose proof (length_pack_6I _ _ _ _ _ _ _ Hpack2) as Hhl2.
    assert (length (contents (env (written s m header1 jpeg1)) (m_path m))
            = length (contents (env s) (m_path m))) as Hl1.
    { unfold written. cbn [env]. rewrite contents_store.
      apply length_written; [done|sizes]. }
    split.
    + intros Hle. unfold written at 1. cbn [env m_path m1 set_pos].
      rewrite contents_store. unfold written. cbn [env]. rewrite contents_store.
      replace (Z.to_nat (HEADER_SIZE + Z.of_nat (length jpeg2)))
        with (24 + length jpeg2)%nat by sizes.
      by apply stale_tail.
    + rewrite <- Hl1. unfold written at 1. cbn [env m_path m1 set_pos].
      rewrite contents_store. apply length_written; [done|]. rewrite Hl1. sizes.
Qed.

Lemma second_write_wins_witness :
  ∃ s1 s2,
    write_frame sample_imencode sample_now two_pixels 70
      (created sample_path empty_world) = (Ok true, s1)
    ∧ write_frame sample_imencode sample_now black_pixel 70 s1 = (Ok true, s2)
    ∧ fst (read_frame_info s2) =
        Ok (Some (FrameInfo 1 1 3
                    (timestamp_of (clock_sec sample_now) (clock_usec sample_now)) 4))
    ∧ take 2 (drop 28 (contents (env s2) sample_path)) = [Byte.xff; Byte.xd9].
Proof.
  destruct (second_write_wins sample_imencode
              (created sample_path empty_world)
              (Mmap sample_path TOTAL_SIZE ACCESS_WRITE 24 false)
              sample_now two_pixels 70 1 2 3
              [Byte.xff; Byte.xd8; Byte.x11; Byte.x22; Byte.xff; Byte.xd9]
              sample_now black_pixel 70 1 1 3 tiny_jpeg)
    as (s1 & s2 & Hw1 & Hw2 & Hinfo & Htail & _).
  - reflexivity.
  - reflexivity.
  - discriminate.
  - reflexivity.
  - apply sample_created_backed.
  - reflexivity.
  - unfold u32. lia.
  - unfold u32. lia.
  - unfold u32. lia.
  - reflexivity.
  - rewrite MAX_FRAME_SIZE_eq. simpl. lia.
  - apply sample_now_exact.
  - vm_compute. reflexivity.
  - reflexivity.
  - lia.
  - lia.
  - unfold u32. lia.
  - reflexivity.
  - rewrite MAX_FRAME_SIZE_eq. simpl. lia.
  - apply sample_now_exact.
  - vm_compute. reflexivity.
  - exists s1, s2. split; [exact Hw1|]. split; [exact Hw2|]. split; [exact Hinfo|].
    apply Htail. simpl. lia.
Defined.


Lemma payload_bytes_written s m mc header jpeg :
  length header = 24%nat → Z.of_nat (length jpeg) <= MAX_FRAME_SIZE →
  m_path mc = m_path m → m_size mc = TOTAL_SIZE →
  payload_bytes (env (written s m header jpeg)) mc (Z.of_nat (length jpeg)) = jpeg.
Proof.
  intros Hh Hlen Hp Hsz. unfold payload_bytes, written. cbn [env].
  rewrite <- Hp, view_store, Hsz.
  apply payload_of_region; [done|sizes].
Qed.

(** X4. The file is the channel. After a producer's successful
    [write_frame] (at a clock reading from 8192 s on) on a data file that
    holds the bytes the mappings cover,
    any other object whose open frame mapping covers the same path (a
    consumer constructed with [create=False], say) gets the
    producer's header from [read_frame_info], and from [read_frame] the
    JPEG bytes reshaped as [(height, width, channels)], or no frame when
    their count is not [height * width * channels]. *)
Theorem consumer_sees_producer_frame
  (imencode : ndarray → Z → outcome (bool * bytes))
  s m consumer mc now frame quality height width channels jpeg :
  mmap_file (self s) = Some m → m_closed m = false →
  m_access m ≠ ACCESS_READ → m_size m = TOTAL_SIZE →
  backed (env s) m →
  shape frame = [height; width; channels] →
  0 < height < 2 ^ 32 → 0 < width < 2 ^ 32 → u32 channels →
  imencode frame quality = Ok (true, jpeg) →
  0 < Z.of_nat (length jpeg) <= MAX_FRAME_SIZE →
  exact_clock now → clock_sec now < 2 ^ 32 →
  mmap_file consumer = Some mc → m_closed mc = false →
  m_path mc = m_path m → m_size mc = TOTAL_SIZE →
  ∃ s1,
    write_frame imencode now frame quality s = (Ok true, s1)
    ∧ fst (read_frame_info (State (env s1) consumer)) =
        Ok (Some (FrameInfo width height channels
                    (timestamp_of (clock_sec now) (clock_usec now))
                    (Z.of_nat (length jpeg))))
    ∧ fst (read_frame (State (env s1) consumer)) =
        match frombuffer_reshape jpeg height width channels with
        | Ok array => Ok (Some array,
                          Some (timestamp_of (clock_sec now) (clock_usec now)))
        | Raise _ => Ok (None, None)
        end
    ∧ backed (env s1) mc.
Proof.
  intros Hm Hc Hacc Hsz Hback Hsh Hh Hw Hch Henc Hlen Hnow%exact_clock_nonneg Hsec
         Hmc Hcc Hp Hszc.
  unfold backed in Hback.
  destruct (write_frame_header imencode now frame quality s m height width
              channels jpeg) as (header & Hpack & Hwrite);
    try done; try (unfold u32; lia).
  pose proof (length_pack_6I _ _ _ _ _ _ _ Hpack) as Hhl.
  exists (written s m header jpeg). split; [done|].
  assert (unpack_6I (header_bytes (env (written s m header jpeg)) mc)
          = Ok (width, height, channels, clock_sec now, clock_usec now,
                Z.of_nat (length jpeg))) as Hhdr.
  { rewrite header_bytes_written by done. by apply unpack_pack_6I. }
  split; [|split].
  - rewrite (read_frame_info_open _ mc) by (try done; cbn; sizes).
    cbn [env]. rewrite Hhdr.
    by rewrite (proj2 (Z.eqb_neq width 0)), (proj2 (Z.eqb_neq height 0)) by lia.
  - rewrite (read_frame_open _ mc) by (try done; cbn; sizes).
    cbn [env]. rewrite Hhdr.
    rewrite (proj2 (Z.eqb_neq width 0)), (proj2 (Z.eqb_neq height 0)),
      (proj2 (Z.eqb_neq (Z.of_nat (length jpeg)) 0)) by lia.
    cbn [orb]. rewrite payload_bytes_written by (try done; lia). done.
  - unfold backed, written. cbn [env]. rewrite Hp, contents_store, Hszc, <- Hsz.
    rewrite length_written; [done|done|sizes].
Qed.

Lemma consumer_sees_producer_frame_witness :
  ∃ s1,
    write_frame sample_imencode sample_now black_pixel 70
      (created sample_path empty_world) = (Ok true, s1)
    ∧ fst (read_frame_info (State (env s1) (opened_object sample_path))) =
        Ok (Some (FrameInfo 1 1 3
                    (timestamp_of (clock_sec sample_now) (clock_usec sample_now)) 4))
    ∧ fst (read_frame (State (env s1) (opened_object sample_path))) =
        Ok (None, None)
    ∧ backed (env s1) (Mmap sample_path TOTAL_SIZE ACCESS_READ 0 false).
Proof.
  apply (consumer_sees_producer_frame sample_imencode
           (created sample_path empty_world)
           (Mmap sample_path TOTAL_SIZE ACCESS_WRITE 24 false)
           (opened_object sample_path)
           (Mmap sample_path TOTAL_SIZE ACCESS_READ 0 false)
           sample_now black_pixel 70 1 1 3 tiny_jpeg).
  - reflexivity.
  - reflexivity.
  - discriminate.
  - reflexivity.
  - apply sample_created_backed.
  - reflexivity.
  - lia.
  - lia.
  - unfold u32. lia.
  - reflexivity.
  - rewrite MAX_FRAME_SIZE_eq. simpl. lia.
  - apply sample_now_exact.
  - vm_compute. reflexivity.
  - reflexivity.
  - reflexivity.
  - reflexivity.
  - reflexivity.
Defined.

(** X5. The preview flag is read afresh on every call. Whatever another
    process stores in the flag file (four bytes or more), an object with an
    open four-byte flag mapping answers by the first four bytes as a
    little-endian number: true exactly when it is 1. With the file holding
    [struct.pack('I', v)] the answer is [v == 1]. *)
Theorem is_preview_enabled_follows_flag_file s f :
  flag_mmap (self s) = Some f → m_closed f = false → m_size f = 4 →
  (∀ data, (4 <= length data)%nat →
     is_preview_enabled (State (store (m_path f) data (env s)) (self s))
     = (Ok (le_combine (take 4 data) =? 1),
        State (store (m_path f) data (env s)) (self s)))
  ∧ (∀ v data, pack_I v = Ok data →
     is_preview_enabled (State (store (m_path f) data (env s)) (self s))
     = (Ok (v =? 1), State (store (m_path f) data (env s)) (self s))).
Proof.
  intros Hf Hc Hsz.
  assert (∀ data value, unpack_I (take 4 data) = Ok value →
     is_preview_enabled (State (store (m_path f) data (env s)) (self s))
     = (Ok (value =? 1), State (store (m_path f) data (env s)) (self s))) as Hgen.
  { intros data value Hun.
    rewrite (is_preview_enabled_open _ f) by (try done; cbn; lia).
    cbn [env]. rewrite view_store, Hsz.
    change (Z.to_nat 4) with 4%nat. rewrite take_take, Nat.min_id.
    by rewrite Hun. }
  split.
  - intros data Hlen. apply Hgen. unfold unpack_I.
    rewrite length_take, Nat.min_l by done. done.
  - intros v data Hpack. apply Hgen.
    pose proof (unpack_pack_I _ _ Hpack) as Hun.
    assert (length data = 4%nat) as Hl.
    { unfold pack_I in Hpack. repeat case_match; simplify_eq.
      by rewrite length_le_split. }
    by rewrite take_ge by lia.
Qed.

Lemma is_preview_enabled_follows_flag_file_witness :
  is_preview_enabled
    (State (store (flag_path_of sample_path)
              [Byte.x00; Byte.x00; Byte.x00; Byte.x00; Byte.x07]
              (env (created sample_path empty_world)))
           (self (created sample_path empty_world)))
  = (Ok false,
     State (store (flag_path_of sample_path)
              [Byte.x00; Byte.x00; Byte.x00; Byte.x00; Byte.x07]
              (env (created sample_path empty_world)))
           (self (created sample_path empty_world))).
Proof.
  apply (proj1 (is_preview_enabled_follows_flag_file
                  (created sample_path empty_world)
                  (Mmap (flag_path_of sample_path) 4 ACCESS_DEFAULT 0 false)
                  eq_refl eq_refl eq_refl)
           [Byte.x00; Byte.x00; Byte.x00; Byte.x00; Byte.x07]).
  simpl. lia.
Defined.


(** ** Closing and cleaning up *)

Section Closing.
Variable imencode : ndarray → Z → outcome (bool * bytes).

Lemma write_frame_closed now frame quality s m :
  mmap_file (self s) = Some m → m_closed m = true →
  write_frame imencode now frame quality s = (Ok false, s).
Proof.
  destruct s as [w [fp mf fh flp flm flh]], m as [p sz acc pos cl].
  cbn. intros -> ->. unfold write_frame. cbn.
  unfold_m. destruct (unpack_shape frame) as [[[height width] channels]|]; [|done].
  destruct (imencode frame quality) as [[[] jpeg]|]; [|done..]. cbn.
  destruct (MAX_FRAME_SIZE <? _); [done|].
  unfold_prims. by cbn.
Qed.

End Closing.

Lemma close_usable s m f :
  mmap_file (self s) = Some m → m_closed m = false → m_size m ≠ 0 →
  flag_mmap (self s) = Some f → m_closed f = false → m_size f ≠ 0 →
  close s =
    (Ok tt,
     State (env s)
       (Object (file_path (self s)) (Some (set_closed m))
          (close_handle (file_handle (self s)))
          (flag_path (self s)) (Some (set_closed f))
          (close_handle (flag_handle (self s))))).
Proof.
  destruct s as [w [fp mf fh flp flm flh]], m as [p sz acc pos cl],
    f as [p' sz' acc' pos' cl'].
  cbn. intros -> -> Hsz -> -> Hsz'. unfold close. by run.
Qed.

Lemma close_returns s :
  ∃ s', close s = (Ok tt, s') ∧ env s' = env s
        ∧ file_path (self s') = file_path (self s)
        ∧ flag_path (self s') = flag_path (self s).
Proof.
  destruct s as [w [fp mf fh flp flm flh]].
  destruct mf as [[p sz acc pos [|]]|], flm as [[p' sz' acc' pos' [|]]|];
    try destruct (Z.eqb_spec sz 0); try destruct (Z.eqb_spec sz' 0);
    eexists; unfold close; run; done.
Qed.

(** X6. [close] never raises and leaves every file as it is, and a second
    [close] changes nothing more. (The second call finds the frame mapping
    closed, [if self.mmap_file:] raises on it, and the handler swallows
    that before anything else is touched.) *)
Theorem close_is_idempotent s :
  ∃ s', close s = (Ok tt, s') ∧ env s' = env s
        ∧ file_path (self s') = file_path (self s)
        ∧ flag_path (self s') = flag_path (self s)
        ∧ close s' = (Ok tt, s').
Proof.
  destruct s as [w [fp mf fh flp flm flh]].
  destruct mf as [[p sz acc pos [|]]|], flm as [[p' sz' acc' pos' [|]]|];
    try destruct (Z.eqb_spec sz 0); try destruct (Z.eqb_spec sz' 0);
    eexists; unfold close; run;
    repeat (split; [reflexivity|]); try reflexivity;
    run; try reflexivity; by destruct fh, flh.
Qed.

(** X7. After [close] on a mailbox whose two mappings are open, both
    mappings and both file handles are closed, the files are as they were,
    and the object refuses everything from then on: [write_frame] returns
    [False], [read_frame] [(None, None)], [read_frame_info] [None] and
    [is_preview_enabled] [False], none of them changing anything. *)
Theorem closed_mailbox_refuses_everything
  (imencode : ndarray → Z → outcome (bool * bytes)) s m f :
  mmap_file (self s) = Some m → m_closed m = false → m_size m ≠ 0 →
  flag_mmap (self s) = Some f → m_closed f = false → m_size f ≠ 0 →
  ∃ s', close s = (Ok tt, s')
    ∧ env s' = env s
    ∧ mmap_file (self s') = Some (set_closed m)
    ∧ flag_mmap (self s') = Some (set_closed f)
    ∧ file_handle (self s') = close_handle (file_handle (self s))
    ∧ flag_handle (self s') = close_handle (flag_handle (self s))
    ∧ (∀ now frame quality,
         write_frame imencode now frame quality s' = (Ok false, s'))
    ∧ read_frame s' = (Ok (None, None), s')
    ∧ read_frame_info s' = (Ok None, s')
    ∧ is_preview_enabled s' = (Ok false, s').
Proof.
  intros Hm Hc Hsz Hf Hcf Hszf.
  eexists. split; [by apply (close_usable s m f)|].
  cbn [env self mmap_file flag_mmap file_handle flag_handle].
  repeat (split; [reflexivity|]).
  split; [|split; [|split]].
  - intros now frame quality. by apply (write_frame_closed _ _ _ _ _ (set_closed m)).
  - by apply (read_frame_closed _ (set_closed m)).
  - by apply (read_frame_info_closed _ (set_closed m)).
  - by apply (is_preview_enabled_closed _ (set_closed f)).
Qed.

Lemma closed_mailbox_refuses_everything_witness :
  ∃ s', close (created sample_path empty_world) = (Ok tt, s')
    ∧ env s' = env (created sample_path empty_world)
    ∧ mmap_file (self s')
      = Some (set_closed (Mmap sample_path TOTAL_SIZE ACCESS_WRITE 24 false))
    ∧ flag_mmap (self s')
      = Some (set_closed (Mmap (flag_path_of sample_path) 4 ACCESS_DEFAULT 0 false))
    ∧ file_handle (self s')
      = close_handle (file_handle (self (created sample_path empty_world)))
    ∧ flag_handle (self s')
      = close_handle (flag_handle (self (created sample_path empty_world)))
    ∧ (∀ now frame quality,
         write_frame sample_imencode now frame quality s' = (Ok false, s'))
    ∧ read_frame s' = (Ok (None, None), s')
    ∧ read_frame_info s' = (Ok None, s')
    ∧ is_preview_enabled s' = (Ok false, s').
Proof.
  apply (closed_mailbox_refuses_everything sample_imencode
           (created sample_path empty_world)
           (Mmap sample_path TOTAL_SIZE ACCESS_WRITE 24 false)
           (Mmap (flag_path_of sample_path) 4 ACCESS_DEFAULT 0 false)).
  - reflexivity.
  - reflexivity.
  - rewrite TOTAL_SIZE_eq. simpl. lia.
  - reflexivity.
  - reflexivity.
  - simpl. lia.
Defined.

Lemma cleanup_cases unlink s :
  ∃ s', cleanup unlink s = (Ok tt, s')
    ∧ self s' = self (snd (close s))
    ∧ denied (env s') = denied (env s)
    ∧ ((is_Some (files (env s) !! file_path (self s))
        ∧ (∃ e, unlink (file_path (self s)) = Raise e)
        ∧ files (env s') = files (env s))
       ∨ ((files (env s) !! file_path (self s) = None
           ∨ unlink (file_path (self s)) = Ok tt)
          ∧ (delete (file_path (self s)) (files (env s)) !! flag_path (self s) = None
             ∨ unlink (flag_path (self s)) = Ok tt)
          ∧ files (env s')
            = delete (flag_path (self s))
                (delete (file_path (self s)) (files (env s))))
       ∨ ((files (env s) !! file_path (self s) = None
           ∨ unlink (file_path (self s)) = Ok tt)
          ∧ is_Some (delete (file_path (self s)) (files (env s)) !! flag_path (self s))
          ∧ (∃ e, unlink (flag_path (self s)) = Raise e)
          ∧ files (env s') = delete (file_path (self s)) (files (env s)))).
Proof.
  destruct (close_returns s) as (s1 & Hclose & Henv & Hfp & Hflp).
  unfold cleanup. unfold_m. rewrite Hclose. cbn [snd].
  unfold path_exists, os_remove. rewrite <- Henv, <- Hfp, <- Hflp.
  destruct s1 as [[fs dn] o]. cbn [env self files denied].
  destruct (fs !! file_path o) eqn:Hd; cbn; rewrite ?Hd; cbn.
  - destruct (unlink (file_path o)) as [[]|e] eqn:Hu; cbn.
    + destruct (delete (file_path o) fs !! flag_path o) eqn:Hfl;
        cbn; rewrite ?Hfl; cbn.
      * destruct (unlink (flag_path o)) as [[]|e'] eqn:Hu'; cbn.
        -- eexists. repeat (split; [reflexivity|]). right. left. auto.
        -- eexists. repeat (split; [reflexivity|]). right. right. eauto 6.
      * eexists. repeat (split; [reflexivity|]). right. left.
        split; [auto|]. split; [auto|]. cbn.
        by rewrite (delete_id (delete (file_path o) fs)).
    + eexists. repeat (split; [reflexivity|]). left. eauto.
  - rewrite (delete_id fs (file_path o)) by done.
    destruct (fs !! flag_path o) eqn:Hfl; cbn; rewrite ?Hfl; cbn.
    + destruct (unlink (flag_path o)) as [[]|e'] eqn:Hu'; cbn.
      * eexists. repeat (split; [reflexivity|]). right. left. auto.
      * eexists. repeat (split; [reflexivity|]). right. right. eauto 6.
    + eexists. repeat (split; [reflexivity|]). right. left.
      split; [auto|]. split; [auto|]. cbn. by rewrite (delete_id fs).
Qed.


(** ** Construction: when it succeeds, and what a failure leaves behind *)

Lemma upto_last_sep_bare p : upto_last_sep p = EmptyString ↔ bare_name p.
Proof.
  unfold bare_name. induction p as [|ch rest IH]; cbn [upto_last_sep].
  - split; [|done]. intros _ [|c a] b; discriminate.
  - destruct (upto_last_sep rest) as [|c h] eqn:Hrest.
    + destruct (Ascii.eqb_spec ch sep) as [->|Hch].
      * split; [done|]. intros Hbare. by destruct (Hbare EmptyString rest).
      * split; [|done]. intros _ [|c a] b Heq.
        -- change (String ch rest = String sep b) in Heq. congruence.
        -- change (String ch rest = String c (a +:+ "/" +:+ b)%string) in Heq.
           injection Heq as _ Heq. by apply (proj1 IH eq_refl a b).
    + split; [done|]. intros Hbare. exfalso.
      assert (String c h = EmptyString) as Hno; [|discriminate].
      apply IH. intros a b Heq. apply (Hbare (String ch a) b).
      change (String ch rest = String ch (a +:+ "/" +:+ b)%string). by rewrite Heq.
Qed.

Lemma dirname_bare p : dirname p = EmptyString ↔ bare_name p.
Proof.
  rewrite <- upto_last_sep_bare. unfold dirname.
  destruct (rstrip_sep (upto_last_sep p)) eqn:Hstrip; [done|].
  split; [done|]. intros Hup. by rewrite Hup in Hstrip.
Qed.

Lemma init_create_bare path w :
  dirname path = EmptyString →
  __init__ path true w = (Raise FileNotFoundError, State w (blank_object path)).
Proof. intros Hd. unfold __init__, _create_buffer, blank_object. by run. Qed.

Lemma init_create_flag_denied path w :
  dirname path ≠ EmptyString → dirname path ∉ denied w →
  path ∉ denied w → flag_path_of path ∈ denied w →
  ∃ s, __init__ path true w = (Raise OSError, s)
       ∧ env s = store path (zeros TOTAL_SIZE) w.
Proof.
  intros Hd Hdd Hp Hf. eexists.
  unfold __init__, _create_buffer, _create_flag_file. run.
  split; [reflexivity|]. cbn.
  change (Z.to_nat 0) with 0%nat. cbn [take app]. change (0 + 24) with 24.
  by rewrite zeros_over_zeros by sizes.
Qed.

Lemma init_open_cases path w :
  (∃ e s, __init__ path false w = (Raise e, s) ∧ env s = w
        ∧ flag_mmap (self s) = None
        ∧ ((path ∈ denied w)
           ∨ match files w !! path with
             | None => True
             | Some data => Z.of_nat (length data) < TOTAL_SIZE
             end))
  ∨ (∃ e s data, __init__ path false w = (Raise e, s) ∧ env s = w
        ∧ (path ∉ denied w) ∧ files w !! path = Some data
        ∧ TOTAL_SIZE <= Z.of_nat (length data)
        ∧ (flag_path_of path ∈ denied w))
  ∨ (∃ s data, __init__ path false w = (Ok tt, s)
        ∧ (path ∉ denied w) ∧ files w !! path = Some data
        ∧ TOTAL_SIZE <= Z.of_nat (length data)
        ∧ (flag_path_of path ∉ denied w)
        ∧ files (env s) !! path = Some data).
Proof.
  destruct (decide (path ∈ denied w)) as [Hp|Hp].
  { left. exists OSError. eexists.
    unfold __init__, _open_buffer. run. repeat (split; [reflexivity|]). by left. }
  destruct (files w !! path) as [data|] eqn:Hdata.
  2: { left. exists FileNotFoundError. eexists.
       unfold __init__, _open_buffer. run. repeat (split; [reflexivity|]). by right. }
  destruct (Z.ltb_spec (Z.of_nat (length data)) TOTAL_SIZE) as [Hlen|Hlen].
  { left. exists ValueError. eexists.
    unfold __init__, _open_buffer. run. repeat (split; [reflexivity|]). by right. }
  right.
  destruct (decide (flag_path_of path ∈ denied w)) as [Hf|Hf].
  { left. exists OSError. eexists. exists data.
    split; [unfold __init__, _open_buffer, _open_flag_file, _create_flag_file;
            by run|done]. }
  right.
  assert (flag_unusable w (flag_path_of path) → flag_path_of path ≠ path) as Hne.
  { unfold flag_unusable. intros Hu Heq. rewrite Heq, Hdata in Hu. sizes. }
  destruct (files w !! flag_path_of path) as [flag_data|] eqn:Hflag.
  - destruct (Z.ltb_spec (Z.of_nat (length flag_data)) 4) as [Hfl|Hfl].
    + eexists _, data. split.
      { apply (init_open_fallback path w data); try done.
        unfold flag_unusable. by rewrite Hflag. }
      repeat (split; [done|]). cbn [env]. rewrite files_store_ne; [done|].
      apply Hne. unfold flag_unusable. by rewrite Hflag.
    + eexists _, data. split.
      { by apply (init_open_existing path w data flag_data). }
      done.
  - eexists _, data. split.
    { apply (init_open_fallback path w data); try done.
      unfold flag_unusable. by rewrite Hflag. }
    repeat (split; [done|]). cbn [env]. rewrite files_store_ne; [done|].
    apply Hne. unfold flag_unusable. by rewrite Hflag.
Qed.


(** X8. [SharedFrameBuffer(path, create=True)] returns an object exactly
    when the path has a directory part and the directory, the data path
    and the flag path can be written. A path without ['/'] always fails:
    [os.makedirs('')] raises [FileNotFoundError] before any file is
    touched. When only the flag path cannot be written the constructor
    raises after the data file has been created: the zero-filled file
    stays behind. *)
Theorem create_succeeds_iff path w :
  ((∃ s, __init__ path true w = (Ok tt, s))
   ↔ (¬ bare_name path) ∧ (dirname path ∉ denied w)
     ∧ (path ∉ denied w) ∧ (flag_path_of path ∉ denied w))
  ∧ (bare_name path →
     __init__ path true w = (Raise FileNotFoundError, State w (blank_object path)))
  ∧ ((¬ bare_name path) → (dirname path ∉ denied w) → (path ∉ denied w) →
     (flag_path_of path ∈ denied w) →
     ∃ e s, __init__ path true w = (Raise e, s)
            ∧ env s = store path (zeros TOTAL_SIZE) w).
Proof.
  split; [|split].
  - split.
    + intros [s Hs].
      destruct (decide (dirname path = EmptyString)) as [Hd|Hd].
      { rewrite init_create_bare in Hs by done. discriminate. }
      destruct (decide (dirname path ∈ denied w)) as [Hdd|Hdd].
      { revert Hs. unfold __init__, _create_buffer. by run. }
      destruct (init_create_inv path w tt s Hs) as (_ & Hp & Hf).
      split; [|done]. intros Hbare. by apply Hd, dirname_bare.
    + intros (Hbare & Hdd & Hp & Hf). exists (created path w).
      apply init_create_ok; try done. intros Hd. by apply Hbare, dirname_bare.
  - intros Hbare. by apply init_create_bare, dirname_bare.
  - intros Hbare Hdd Hp Hf. exists OSError.
    apply init_create_flag_denied; try done.
    intros Hd. by apply Hbare, dirname_bare.
Qed.

(** X9. [SharedFrameBuffer(path, create=False)] returns an object exactly
    when the data file can be opened and holds at least [TOTAL_SIZE] bytes
    and the flag path can be written. When it raises, no file has been
    created or changed; when it returns, the data file is as it was. *)
Theorem open_succeeds_iff path w :
  ((∃ s, __init__ path false w = (Ok tt, s))
   ↔ (path ∉ denied w)
     ∧ (∃ data, files w !! path = Some data
                ∧ TOTAL_SIZE <= Z.of_nat (length data))
     ∧ (flag_path_of path ∉ denied w))
  ∧ (∀ e s, __init__ path false w = (Raise e, s) → env s = w)
  ∧ (∀ s, __init__ path false w = (Ok tt, s) →
          files (env s) !! path = files w !! path).
Proof.
  destruct (init_open_cases path w)
    as [(e & s & Hi & He & _ & Hwhy)
       |[(e & s & data & Hi & He & Hp & Hd & Hl & Hf)
        |(s & data & Hi & Hp & Hd & Hl & Hf & Hkeep)]].
  - split; [|split].
    + split.
      * intros [s' Hs']. rewrite Hi in Hs'. discriminate.
      * intros (Hp & (data & Hd & Hl) & _). exfalso.
        destruct Hwhy as [Hden|Hshort]; [done|]. rewrite Hd in Hshort. lia.
    + intros e' s' Hs'. rewrite Hi in Hs'. by simplify_eq.
    + intros s' Hs'. rewrite Hi in Hs'. discriminate.
  - split; [|split].
    + split.
      * intros [s' Hs']. rewrite Hi in Hs'. discriminate.
      * by intros (_ & _ & Hnf).
    + intros e' s' Hs'. rewrite Hi in Hs'. by simplify_eq.
    + intros s' Hs'. rewrite Hi in Hs'. discriminate.
  - split; [|split].
    + split; [|by exists s]. intros _. split; [done|]. split; [by exists data|done].
    + intros e' s' Hs'. rewrite Hi in Hs'. discriminate.
    + intros s' Hs'. rewrite Hi in Hs'. simplify_eq. by rewrite Hkeep.
Qed.

(** X10. [cleanup] never raises, creates no file and touches no file but
    its own two; the object is what [close] leaves. When the system lets
    both files go, neither exists afterwards, and constructing a consumer
    on the data path raises without creating anything. One [try] covers
    both removals: when removing the data file raises, the flag file is
    not tried and every file stays; when removing the flag file raises,
    the data file is gone and the flag file stays. *)
Theorem cleanup_removes_both_files unlink s :
  ∃ s', cleanup unlink s = (Ok tt, s')
    ∧ self s' = self (snd (close s))
    ∧ denied (env s') = denied (env s)
    ∧ (∀ p, p ≠ file_path (self s) → p ≠ flag_path (self s) →
            files (env s') !! p = files (env s) !! p)
    ∧ (∀ p, path_exists p (env s') = true → path_exists p (env s) = true)
    ∧ (unlink (file_path (self s)) = Ok tt →
       unlink (flag_path (self s)) = Ok tt →
       path_exists (file_path (self s)) (env s') = false
       ∧ path_exists (flag_path (self s)) (env s') = false
       ∧ ∃ e s'', __init__ (file_path (self s)) false (env s') = (Raise e, s'')
                  ∧ env s'' = env s')
    ∧ (∀ e, path_exists (file_path (self s)) (env s) = true →
            unlink (file_path (self s)) = Raise e →
            env s' = env s)
    ∧ (∀ e, unlink (file_path (self s)) = Ok tt →
            flag_path (self s) ≠ file_path (self s) →
            path_exists (flag_path (self s)) (env s) = true →
            unlink (flag_path (self s)) = Raise e →
            path_exists (file_path (self s)) (env s') = false
            ∧ files (env s') !! flag_path (self s)
              = files (env s) !! flag_path (self s)).
Proof.
  destruct (cleanup_cases unlink s) as (s' & Hc & Hself & Hden & Hcases).
  set (fp := file_path (self s)) in *. set (gp := flag_path (self s)) in *.
  exists s'. split; [done|]. split; [done|]. split; [done|].
  assert (∀ p, files (env s') !! p = files (env s) !! p
               ∨ files (env s') !! p = None) as Hsub.
  { intros p. destruct Hcases as [(_ & _ & ->)|[(_ & _ & ->)|(_ & _ & _ & ->)]].
    - by left.
    - destruct (decide (p = gp)) as [->|Hg]; [right; by rewrite lookup_delete_eq|].
      destruct (decide (p = fp)) as [->|Hf].
      + right. by rewrite lookup_delete_ne, lookup_delete_eq.
      + left. by rewrite !lookup_delete_ne.
    - destruct (decide (p = fp)) as [->|Hf]; [right; by rewrite lookup_delete_eq|].
      left. by rewrite lookup_delete_ne. }
  split; [|split; [|split; [|split]]].
  - intros p Hp Hq.
    destruct Hcases as [(_ & _ & ->)|[(_ & _ & ->)|(_ & _ & _ & ->)]].
    + done.
    + by rewrite !lookup_delete_ne.
    + by rewrite lookup_delete_ne.
  - intros p. unfold path_exists. by destruct (Hsub p) as [-> | ->].
  - intros Hu Hu'.
    assert (files (env s') = delete gp (delete fp (files (env s)))) as Hfiles.
    { destruct Hcases as [(_ & [e He] & _)|[(_ & _ & ->)|(_ & _ & [e He] & _)]];
        [congruence|done|congruence]. }
    assert (files (env s') !! fp = None) as Hgone.
    { rewrite Hfiles. destruct (decide (gp = fp)) as [->|Hne].
      - by rewrite lookup_delete_eq.
      - by rewrite lookup_delete_ne, lookup_delete_eq. }
    split; [unfold path_exists; by rewrite Hgone|].
    split; [unfold path_exists; by rewrite Hfiles, lookup_delete_eq|].
    destruct (init_open_cases fp (env s'))
      as [(e & s'' & Hi & He & _)
         |[(e & s'' & data & Hi & He & _)
          |(s'' & data & _ & _ & Hd & _)]].
    + by exists e, s''.
    + by exists e, s''.
    + rewrite Hgone in Hd. discriminate.
  - intros e Hex Hu. unfold path_exists in Hex.
    destruct Hcases as [(_ & _ & Hfiles)|[([Hn|Hok] & _)|([Hn|Hok] & _)]].
    + destruct s as [[fs dn] o], s' as [[fs' dn'] o']. cbn in *. congruence.
    + by rewrite Hn in Hex.
    + congruence.
    + by rewrite Hn in Hex.
    + congruence.
  - intros e Hu Hne Hex Hu'. unfold path_exists in Hex.
    destruct Hcases as [(_ & [e0 He0] & _)|[(_ & [Hn|Hok] & _)|(_ & _ & _ & Hfiles)]].
    + congruence.
    + rewrite lookup_delete_ne in Hn by done. by rewrite Hn in Hex.
    + congruence.
    + unfold path_exists. rewrite Hfiles.
      rewrite lookup_delete_eq. split; [done|]. by rewrite lookup_delete_ne.
Qed.

Lemma cleanup_removes_both_files_witness :
  ∃ s', cleanup (λ p, if String.eqb p sample_path then Raise OSError else Ok tt)
          (created sample_path empty_world) = (Ok tt, s')
        ∧ env s' = env (created sample_path empty_world).
Proof.
  destruct (cleanup_removes_both_files
              (λ p, if String.eqb p sample_path then Raise OSError else Ok tt)
              (created sample_path empty_world))
    as (s' & Hc & _ & _ & _ & _ & _ & Hkept & _).
  exists s'. split; [exact Hc|].
  apply (Hkept OSError); [|reflexivity].
  unfold path_exists, created. cbn [self file_path env].
  rewrite files_store_ne by apply sample_flag_differs.
  by rewrite files_store, lookup_insert_eq.
Defined.


Lemma create_succeeds_iff_witness :
  __init__ "frame.mmap" true empty_world
  = (Raise FileNotFoundError, State empty_world (blank_object "frame.mmap")).
Proof.
  apply (proj1 (proj2 (create_succeeds_iff "frame.mmap" empty_world))).
  apply dirname_bare. reflexivity.
Defined.

Lemma open_succeeds_iff_witness :
  env (snd (__init__ sample_path false empty_world)) = empty_world.
Proof.
  apply (proj1 (proj2 (open_succeeds_iff sample_path empty_world))
           FileNotFoundError).
  reflexivity.
Defined.

(** ** Leaving the [with] block *)

(** X11. [__exit__] closes the object and removes nothing, so the last
    frame outlives the producer: after a successful [write_frame] and the
    end of the producer's [with] block, [SharedFrameBuffer(path,
    create=False)] still returns an object, and its [read_frame_info]
    reports the header of that frame. *)
Theorem exit_keeps_the_last_frame
  (imencode : ndarray → Z → outcome (bool * bytes))
  s m now frame quality height width channels jpeg :
  mmap_file (self s) = Some m → m_closed m = false →
  m_access m ≠ ACCESS_READ → m_size m = TOTAL_SIZE →
  TOTAL_SIZE <= Z.of_nat (length (contents (env s) (m_path m))) →
  (m_path m ∉ denied (env s)) → (flag_path_of (m_path m) ∉ denied (env s)) →
  shape frame = [height; width; channels] →
  0 < height < 2 ^ 32 → 0 < width < 2 ^ 32 → u32 channels →
  imencode frame quality = Ok (true, jpeg) →
  Z.of_nat (length jpeg) <= MAX_FRAME_SIZE →
  (0 <= now)%Q → clock_sec now < 2 ^ 32 →
  ∃ s1 s2 s3,
    write_frame imencode now frame quality s = (Ok true, s1)
    ∧ __exit__ s1 = (Ok tt, s2)
    ∧ __init__ (m_path m) false (env s2) = (Ok tt, s3)
    ∧ fst (read_frame_info s3) =
        Ok (Some (FrameInfo width height channels
                    (timestamp_of (clock_sec now) (clock_usec now))
                    (Z.of_nat (length jpeg)))).
Proof.
  intros Hm Hc Hacc Hsz Hfile Hden Hfden Hsh Hh Hw Hch Henc Hlen Hnow Hsec.
  destruct (write_frame_header imencode now frame quality s m height width
              channels jpeg) as (header & Hpack & Hwrite);
    try done; try (unfold u32; lia).
  pose proof (length_pack_6I _ _ _ _ _ _ _ Hpack) as Hhl.
  destruct (close_returns (written s m header jpeg))
    as (s2 & Hclose & Henv & _ & _).
  set (mc := Mmap (m_path m) TOTAL_SIZE ACCESS_READ 0 false).
  assert (unpack_6I (header_bytes (env s2) mc)
          = Ok (width, height, channels, clock_sec now, clock_usec now,
                Z.of_nat (length jpeg))) as Hhdr.
  { rewrite Henv, (header_bytes_written s m mc) by done.
    by apply unpack_pack_6I. }
  assert (∃ data, files (env s2) !! m_path m = Some data
                  ∧ TOTAL_SIZE <= Z.of_nat (length data)) as (data & Hdata & Hdl).
  { eexists. rewrite Henv. unfold written. cbn [env].
    rewrite files_store, lookup_insert_eq. split; [reflexivity|].
    rewrite length_written; [done|done|sizes]. }
  assert (denied (env s2) = denied (env s)) as Hdn.
  { rewrite Henv. unfold written. cbn [env]. by rewrite denied_store. }
  destruct (init_open_cases (m_path m) (env s2))
    as [(e & s3 & _ & _ & _ & Hwhy)
       |[(e & s3 & data' & _ & _ & _ & _ & _ & Hf)
        |(s3 & data' & Hi & _ & Hd' & _ & _ & Hkeep)]].
  - exfalso. destruct Hwhy as [Hin|Hshort].
    + by rewrite Hdn in Hin.
    + rewrite Hdata in Hshort. lia.
  - exfalso. by rewrite Hdn in Hf.
  - exists (written s m header jpeg), s2, s3.
    split; [done|]. split; [done|]. split; [done|].
    destruct (init_open_inv _ _ _ _ Hi) as [Hself _].
    assert (mmap_file (self s3) = Some mc) as Hmc by by rewrite Hself.
    rewrite (read_frame_info_open s3 mc) by (try done; cbn; sizes).
    assert (header_bytes (env s3) mc = header_bytes (env s2) mc) as ->.
    { unfold header_bytes, view, contents. cbn [mc m_path].
      by rewrite Hkeep, Hd'. }
    rewrite Hhdr.
    by rewrite (proj2 (Z.eqb_neq width 0)), (proj2 (Z.eqb_neq height 0)) by lia.
Qed.

Lemma exit_keeps_the_last_frame_witness :
  ∃ s1 s2 s3,
    write_frame sample_imencode sample_now black_pixel 70
      (created sample_path empty_world) = (Ok true, s1)
    ∧ __exit__ s1 = (Ok tt, s2)
    ∧ __init__ sample_path false (env s2) = (Ok tt, s3)
    ∧ fst (read_frame_info s3) =
        Ok (Some (FrameInfo 1 1 3
                    (timestamp_of (clock_sec sample_now) (clock_usec sample_now)) 4)).
Proof.
  apply (exit_keeps_the_last_frame sample_imencode
           (created sample_path empty_world)
           (Mmap sample_path TOTAL_SIZE ACCESS_WRITE 24 false)
           sample_now black_pixel 70 1 1 3 tiny_jpeg).
  - reflexivity.
  - reflexivity.
  - discriminate.
  - reflexivity.
  - change (TOTAL_SIZE <= Z.of_nat (length
              (contents (env (created sample_path empty_world)) sample_path))).
    rewrite sample_created_length. lia.
  - apply not_elem_of_empty.
  - apply not_elem_of_empty.
  - reflexivity.
  - lia.
  - lia.
  - unfold u32. lia.
  - reflexivity.
  - rewrite MAX_FRAME_SIZE_eq. simpl. lia.
  - unfold Qle. simpl. lia.
  - vm_compute. reflexivity.
Defined.


(** ** The camera: starting, stopping, restarting *)

Section CameraThreads.
Import CameraCapture.

Lemma start_true s r :
  fst (start r s) = true →
  ∃ data, r = FirstRead (Some data) true
    ∧ snd (start r s)
      = System (Object (camera_id (self s)) (Some true) true true
                       (Some (fresh (dom (arrays s)))) true false)
               (<[fresh (dom (arrays s)) := data]> (arrays s))
               (workers s ++ [AtLoopHead]).
Proof.
  destruct r as [| | | |[data|] [|]]; cbn; try discriminate.
  intros _. by exists data.
Qed.

Lemma start_false s r :
  fst (start r s) = false → workers (snd (start r s)) = workers s.
Proof. by destruct r as [| | | |[data|] [|]]. Qed.

Lemma finished_step e s i :
  workers s !! i = Some Finished → workers (step e s) !! i = Some Finished.
Proof.
  intros Hi. destruct e as [r| | |j|j r|j]; cbn.
  - destruct r as [| | | |[data|] [|]]; cbn; try done.
    by apply lookup_app_l_Some.
  - unfold read_frame. by repeat case_match.
  - done.
  - destruct (decide (j = i)) as [->|Hne].
    + by rewrite list_lookup_alter_eq, Hi.
    + by rewrite list_lookup_alter_ne.
  - unfold _update_read.
    destruct (workers s !! j) as [[]|] eqn:Hj; try done.
    assert (j ≠ i) as Hne by (intros ->; congruence).
    destruct r as [data|]; cbn; by rewrite list_lookup_insert_ne.
  - unfold _update_assign.
    destruct (workers s !! j) as [[]|] eqn:Hj; try done;
      (assert (j ≠ i) as Hne by (intros ->; congruence));
      cbn; by rewrite list_lookup_insert_ne.
Qed.

Lemma finished_run trace s i :
  workers s !! i = Some Finished → workers (run trace s) !! i = Some Finished.
Proof.
  induction trace as [|e trace IH] using rev_ind; [done|].
  rewrite cam_run_snoc. intros Hi. by apply finished_step, IH.
Qed.

Lemma check_closed o w :
  is_opened o = false → w = AtLoopHead → check o w = Finished.
Proof. intros Ho ->. cbn. rewrite Ho. by rewrite andb_false_r. Qed.

End CameraThreads.

(** X12. [start] returns [True] exactly when it has started a thread. In
    that case the device delivered a first frame, the camera is marked
    open, the stop flag is reset, one more thread stands at the head of
    [_update]'s loop (the threads that existed are still there), and
    [read_frame] called right away returns [True] with a copy of the first
    frame. When [start] returns [False] no thread has been added. *)
Theorem start_true_means_a_frame_and_a_thread :
  (∀ s r, fst (CameraCapture.start r s) = true →
     ∃ data l l',
       r = CameraCapture.FirstRead (Some data) true
       ∧ CameraCapture.is_opened (CameraCapture.self (snd (CameraCapture.start r s))) = true
       ∧ CameraCapture.stop_thread (CameraCapture.self (snd (CameraCapture.start r s))) = false
       ∧ CameraCapture.workers (snd (CameraCapture.start r s))
         = CameraCapture.workers s ++ [CameraCapture.AtLoopHead]
       ∧ CameraCapture.frame (CameraCapture.self (snd (CameraCapture.start r s))) = Some l
       ∧ CameraCapture.arrays (snd (CameraCapture.start r s)) !! l = Some data
       ∧ fst (CameraCapture.read_frame (snd (CameraCapture.start r s))) = (true, Some l')
       ∧ l' ≠ l
       ∧ CameraCapture.arrays
           (snd (CameraCapture.read_frame (snd (CameraCapture.start r s)))) !! l'
         = Some data)
  ∧ (∀ s r, fst (CameraCapture.start r s) = false →
       CameraCapture.workers (snd (CameraCapture.start r s)) = CameraCapture.workers s).
Proof.
  split; [|apply start_false].
  intros s r Hr. destruct (start_true s r Hr) as (data & -> & Hs).
  rewrite Hs. cbn [CameraCapture.self CameraCapture.workers CameraCapture.arrays
                   CameraCapture.is_opened CameraCapture.stop_thread
                   CameraCapture.frame].
  destruct (read_frame_copy
              (CameraCapture.System
                 (CameraCapture.Object (CameraCapture.camera_id (CameraCapture.self s))
                    (Some true) true true
                    (Some (fresh (dom (CameraCapture.arrays s)))) true false)
                 (<[fresh (dom (CameraCapture.arrays s)) := data]> (CameraCapture.arrays s))
                 (CameraCapture.workers s ++ [CameraCapture.AtLoopHead]))
              (fresh (dom (CameraCapture.arrays s))) data)
    as (l' & Hread & Hnew); try done.
  { cbn. by rewrite lookup_insert_eq. }
  exists data, (fresh (dom (CameraCapture.arrays s))), l'.
  repeat (split; [done|]). split; [by rewrite lookup_insert_eq|].
  rewrite Hread. split; [done|]. split.
  - intros ->. cbn in Hnew. by rewrite lookup_insert_eq in Hnew.
  - cbn. by rewrite lookup_insert_eq.
Qed.

Lemma start_true_means_a_frame_and_a_thread_witness :
  ∃ data l l',
    CameraCapture.FirstRead (Some [Byte.x01; Byte.x02; Byte.x03]) true
    = CameraCapture.FirstRead (Some data) true
    ∧ fst (CameraCapture.read_frame
             (snd (CameraCapture.start
                     (CameraCapture.FirstRead (Some [Byte.x01; Byte.x02; Byte.x03]) true)
                     (CameraCapture.__init__ 0))))
      = (true, Some l')
    ∧ l' ≠ l.
Proof.
  destruct (proj1 start_true_means_a_frame_and_a_thread
              (CameraCapture.__init__ 0)
              (CameraCapture.FirstRead (Some [Byte.x01; Byte.x02; Byte.x03]) true)
              eq_refl)
    as (data & l & l' & Hr & _ & _ & _ & _ & _ & Hread & Hne & _).
  exists data, l, l'. split; [exact Hr|]. split; [exact Hread|exact Hne].
Defined.


(** X13. A thread leaves [_update] at the head of its loop, and [stop]
    makes the loop test fail. A thread that has left the loop never runs
    again, whatever is called afterwards. After [stop], as long as [start]
    is not called again, a thread that reaches the loop test leaves the
    loop. *)
Theorem stop_ends_the_workers :
  (∀ s trace i,
     CameraCapture.workers s !! i = Some CameraCapture.Finished →
     CameraCapture.workers (CameraCapture.run trace s) !! i
     = Some CameraCapture.Finished)
  ∧ (∀ s trace i,
     forallb (λ e, negb (CameraCapture.is_start e)) trace = true →
     CameraCapture.workers (CameraCapture.run trace (CameraCapture.stop s)) !! i
     = Some CameraCapture.AtLoopHead →
     CameraCapture.workers
       (CameraCapture.step (CameraCapture.UpdateCheck i)
          (CameraCapture.run trace (CameraCapture.stop s))) !! i
     = Some CameraCapture.Finished).
Proof.
  split.
  - intros s trace i. apply finished_run.
  - intros s trace i Htrace Hi. cbn.
    rewrite list_lookup_alter_eq, Hi. cbn [fmap option_fmap option_map].
    f_equal. apply check_closed; [|done].
    by apply closed_run.
Qed.

Lemma stop_ends_the_workers_witness :
  CameraCapture.workers
    (CameraCapture.step (CameraCapture.UpdateCheck 0)
       (CameraCapture.run [CameraCapture.ReadFrame]
          (CameraCapture.stop
             (CameraCapture.run [CameraCapture.sample_start]
                (CameraCapture.__init__ 0))))) !! 0%nat
  = Some CameraCapture.Finished.
Proof.
  apply (proj2 stop_ends_the_workers
           (CameraCapture.run [CameraCapture.sample_start] (CameraCapture.__init__ 0))
           [CameraCapture.ReadFrame] 0%nat).
  - reflexivity.
  - reflexivity.
Defined.

(** X14. [stop] waits for the thread for a second at most, and [start]
    resets the stop flag. So when a thread is still inside
    [capture.read()] as [stop] returns and [start] is called again and
    succeeds, that thread goes on: its read returns, it passes the loop
    test and reads again, next to the thread that the second [start] has
    added. Without the second [start] the same two steps take it out of
    the loop. *)
Theorem restart_keeps_the_blocked_thread s i data :
  CameraCapture.workers s !! i = Some CameraCapture.InRead →
  let again :=
    CameraCapture.run [CameraCapture.UpdateRead i None; CameraCapture.UpdateCheck i]
      (CameraCapture.restart data s) in
  let stopped :=
    CameraCapture.run [CameraCapture.UpdateRead i None; CameraCapture.UpdateCheck i]
      (CameraCapture.stop s) in
  CameraCapture.workers again !! i = Some CameraCapture.InRead
  ∧ CameraCapture.workers again !! length (CameraCapture.workers s)
    = Some CameraCapture.AtLoopHead
  ∧ length (CameraCapture.workers again) = S (length (CameraCapture.workers s))
  ∧ CameraCapture.workers stopped !! i = Some CameraCapture.Finished.
Proof.
  intros Hi again stopped.
  pose proof (lookup_lt_Some _ _ _ Hi) as Hlt.
  assert (CameraCapture.workers (CameraCapture.restart data s) !! i
          = Some CameraCapture.InRead) as Hi'.
  { cbn. by apply lookup_app_l_Some. }
  subst again stopped. unfold CameraCapture.run. cbn [foldl CameraCapture.step].
  unfold CameraCapture._update_read. rewrite Hi'.
  cbn [CameraCapture.stop CameraCapture.workers]. rewrite Hi.
  unfold CameraCapture._update_check.
  cbn [CameraCapture.workers CameraCapture.self CameraCapture.restart
       CameraCapture.start CameraCapture.stop CameraCapture.alloc snd
       CameraCapture.arrays].
  rewrite !list_lookup_alter_eq.
  rewrite !list_lookup_insert_eq by (rewrite ?length_app; cbn; lia).
  rewrite list_lookup_alter_ne by lia.
  rewrite list_lookup_insert_ne by lia.
  rewrite lookup_app_r by lia. rewrite Nat.sub_diag.
  rewrite length_alter, !length_insert, length_app. cbn.
  repeat split; try done. lia.
Qed.

Lemma restart_keeps_the_blocked_thread_witness :
  CameraCapture.workers
    (CameraCapture.run [CameraCapture.UpdateRead 0 None; CameraCapture.UpdateCheck 0]
       (CameraCapture.restart [Byte.x04; Byte.x05; Byte.x06]
          (CameraCapture.run [CameraCapture.sample_start; CameraCapture.UpdateCheck 0]
             (CameraCapture.__init__ 0)))) !! 0%nat
  = Some CameraCapture.InRead.
Proof.
  apply (restart_keeps_the_blocked_thread
           (CameraCapture.run [CameraCapture.sample_start; CameraCapture.UpdateCheck 0]
              (CameraCapture.__init__ 0))
           0%nat [Byte.x04; Byte.x05; Byte.x06]).
  reflexivity.
Defined.


(** ** The camera: where the frames come from *)

Section CameraFrames.
Import CameraCapture.

Variable P : bytes → Prop.

Lemma alloc_sourced (data : bytes) (h : heap) l :
  (∃ d, h !! l = Some d ∧ P d) →
  ∃ d, <[fresh (dom h) := data]> h !! l = Some d ∧ P d.
Proof. intros (d & Hd & HP). exists d. split; [by apply (alloc_keeps data h)|done]. Qed.

Lemma workers_insert_sourced (h : heap) (ws : list worker) i w' j w l :
  (∀ j w l, ws !! j = Some w → holds w l → ∃ d, h !! l = Some d ∧ P d) →
  (∀ l, holds w' l → ∃ d, h !! l = Some d ∧ P d) →
  <[i := w']> ws !! j = Some w → holds w l → ∃ d, h !! l = Some d ∧ P d.
Proof.
  intros Hws Hw' Hj Hh.
  destruct (decide (i = j)) as [->|Hne].
  - destruct (decide (j < length ws)%nat) as [Hlt|Hge].
    + rewrite list_lookup_insert_eq in Hj by done. simplify_eq. auto.
    + rewrite list_insert_ge in Hj by lia. eauto.
  - rewrite list_lookup_insert_ne in Hj by done. eauto.
Qed.

Lemma sourced_step e s :
  (∀ d, delivered e = Some d → P d) → sourced P s → sourced P (step e s).
Proof.
  intros He Hs. pose proof Hs as [Hf Hw]. destruct e as [r| | |i|i r|i]; cbn.
  - destruct r as [| | | |[data|] logged]; cbn; try done.
    assert (P data) as Hdata by by apply He.
    destruct logged; cbn;
      (split; cbn; [intros l [= <-]; rewrite alloc_lookup; eauto|]).
    + intros j w l [Hj|[_ [_ <-]%list_lookup_singleton_Some]]%lookup_app_Some Hh.
      * apply alloc_sourced. eauto.
      * by destruct Hh.
    + intros j w l Hj Hh. apply alloc_sourced. eauto.
  - unfold read_frame. destruct (negb _); [done|].
    destruct (grabbed (self s)); [|done].
    destruct (frame (self s)) as [l0|] eqn:Hl0; [|done]. cbn.
    split; cbn.
    + intros l Hl. apply alloc_sourced. apply Hf. congruence.
    + intros j w l Hj Hh. apply alloc_sourced. eauto.
  - done.
  - split; cbn; [done|]. intros j w l Hj Hh.
    destruct (decide (i = j)) as [->|Hne].
    + rewrite list_lookup_alter_eq in Hj.
      destruct (workers s !! j) as [w0|] eqn:Hw0; [|done].
      cbn in Hj. simplify_eq.
      assert (check (self s) w0 = w0 ∨ ∀ l, ¬ holds (check (self s) w0) l) as [Heq|Hn].
      { destruct w0; cbn; auto. right. intros l' Hh'.
        repeat case_match; destruct Hh'; done. }
      * rewrite Heq in Hh. eauto.
      * by destruct (Hn l).
    + rewrite list_lookup_alter_ne in Hj by done. eauto.
  - unfold _update_read. destruct (workers s !! i) as [[]|] eqn:Hi; try done.
    destruct r as [data|]; cbn.
    + assert (P data) as Hdata by by apply He.
      split; cbn.
      * intros l Hl. apply alloc_sourced. auto.
      * intros j w l. apply workers_insert_sourced.
        -- intros j' w' l' Hj' Hh'. apply alloc_sourced. eauto.
        -- intros l' [[= <-]|[=]]. rewrite alloc_lookup. eauto.
    + split; cbn; [done|]. intros j w l. apply workers_insert_sourced; [eauto|].
      by intros l' [|].
  - unfold _update_assign. destruct (workers s !! i) as [[]|] eqn:Hi; try done.
    + split; cbn; [done|]. intros j w l'. apply workers_insert_sourced; [eauto|].
      intros l'' [[=]|[= <-]]. eapply Hw; [done|]. by left.
    + split; cbn.
      * intros l' [= <-]. eapply Hw; [done|]. by right.
      * intros j w l'. apply workers_insert_sourced; [eauto|]. by intros l'' [|].
Qed.

Lemma sourced_run trace s :
  (∀ e d, e ∈ trace → delivered e = Some d → P d) →
  sourced P s → sourced P (run trace s).
Proof.
  induction trace as [|e trace IH] using rev_ind; [done|].
  rewrite cam_run_snoc. intros Ht Hs. apply sourced_step.
  - intros d. apply Ht. set_solver.
  - apply IH; [|done]. intros e' d He'. apply Ht. set_solver.
Qed.

Lemma sourced_init id : sourced P (__init__ id).
Proof. split; cbn; [done|]. by intros i w l. Qed.

End CameraFrames.

(** X15. [read_frame] hands out only what the device delivered: when it
    returns [True], the bytes of the returned array are those of a frame
    that some [capture.read()] returned with success, in [start] or in a
    thread, earlier in the history of the object. *)
Theorem read_frame_returns_a_delivered_frame id trace l' :
  fst (CameraCapture.read_frame
         (CameraCapture.run trace (CameraCapture.__init__ id)))
  = (true, Some l') →
  ∃ data e,
    CameraCapture.arrays
      (snd (CameraCapture.read_frame
              (CameraCapture.run trace (CameraCapture.__init__ id)))) !! l'
    = Some data
    ∧ e ∈ trace
    ∧ CameraCapture.delivered e = Some data.
Proof.
  set (s := CameraCapture.run trace (CameraCapture.__init__ id)).
  assert (CameraCapture.sourced
            (λ d, ∃ e, e ∈ trace ∧ CameraCapture.delivered e = Some d) s) as [Hf _].
  { apply sourced_run; [|apply sourced_init]. intros e d He Hd. by exists e. }
  unfold CameraCapture.read_frame.
  destruct (negb _); [done|].
  destruct (CameraCapture.grabbed (CameraCapture.self s)); [|done].
  destruct (CameraCapture.frame (CameraCapture.self s)) as [l|] eqn:Hl; [|done].
  destruct (Hf l eq_refl) as (data & Hdata & e & He & Hd).
  unfold CameraCapture.copy, CameraCapture.alloc. rewrite Hdata. cbn.
  intros [= <-]. exists data, e. by rewrite lookup_insert_eq.
Qed.

Lemma read_frame_returns_a_delivered_frame_witness :
  ∃ data e,
    CameraCapture.arrays
      (snd (CameraCapture.read_frame
              (CameraCapture.run [CameraCapture.sample_start]
                 (CameraCapture.__init__ 0)))) !! (fresh ({[1%positive]} : gset positive))
    = Some data
    ∧ e ∈ [CameraCapture.sample_start]
    ∧ CameraCapture.delivered e = Some data.
Proof.
  apply (read_frame_returns_a_delivered_frame 0 [CameraCapture.sample_start]
           (fresh ({[1%positive]} : gset positive))).
  reflexivity.
Defined.


(** ** The camera: its properties, and the [with] block *)

Section CameraProperties.
Import CameraCapture.

Lemma has_capture_step e s :
  (is_opened (self s) = true → capture (self s) ≠ None) →
  is_opened (self (step e s)) = true → capture (self (step e s)) ≠ None.
Proof.
  intros Hs. destruct e as [r| | |i|i r|i]; cbn; try done.
  - destruct r as [| | | |[data|] [|]]; cbn; done.
  - unfold read_frame. by repeat case_match.
  - unfold _update_read. by repeat case_match.
  - unfold _update_assign. by repeat case_match.
Qed.

Lemma has_capture_run trace id :
  is_opened (self (run trace (__init__ id))) = true →
  capture (self (run trace (__init__ id))) ≠ None.
Proof.
  induction trace as [|e trace IH] using rev_ind; [done|].
  rewrite cam_run_snoc. by apply has_capture_step.
Qed.

End CameraProperties.

(** X16. In every state that the methods and the threads can reach from
    the constructor, [get_properties] returns [None] exactly when the
    camera is not marked open (an open camera always has a capture
    object, so the second test never decides); otherwise it returns the
    device's answers, the first three truncated to integers, or raises
    what the device raises. After [__exit__], until [start] is called
    again, it returns [None]. *)
Theorem get_properties_none_iff_not_opened :
  (∀ id trace answers,
     CameraCapture.get_properties answers
       (CameraCapture.run trace (CameraCapture.__init__ id)) = Ok None
     ↔ CameraCapture.is_opened
         (CameraCapture.self (CameraCapture.run trace (CameraCapture.__init__ id)))
       = false)
  ∧ (∀ id trace d,
     CameraCapture.is_opened
       (CameraCapture.self (CameraCapture.run trace (CameraCapture.__init__ id)))
     = true →
     CameraCapture.get_properties (Ok d)
       (CameraCapture.run trace (CameraCapture.__init__ id))
     = Ok (Some (CameraCapture.Properties
                   (py_int (CameraCapture.frame_width d))
                   (py_int (CameraCapture.frame_height d))
                   (py_int (CameraCapture.frame_fps d))
                   (CameraCapture.device_brightness d)
                   (CameraCapture.device_contrast d))))
  ∧ (∀ s trace answers,
     forallb (λ e, negb (CameraCapture.is_start e)) trace = true →
     CameraCapture.get_properties answers
       (CameraCapture.run trace (CameraCapture.__exit__ s)) = Ok None).
Proof.
  split; [|split].
  - intros id trace answers.
    pose proof (has_capture_run trace id) as Hcap.
    unfold CameraCapture.get_properties.
    destruct (CameraCapture.is_opened _) eqn:Ho; cbn.
    + destruct (CameraCapture.capture _); [|by destruct Hcap].
      split; [|done]. by destruct answers.
    + done.
  - intros id trace d Ho.
    pose proof (has_capture_run trace id Ho) as Hcap.
    unfold CameraCapture.get_properties. rewrite Ho. cbn.
    by destruct (CameraCapture.capture _).
  - intros s trace answers Htrace.
    unfold CameraCapture.get_properties, CameraCapture.__exit__.
    by rewrite closed_run.
Qed.

Lemma get_properties_none_iff_not_opened_witness :
  CameraCapture.get_properties
    (Ok (CameraCapture.Device (1281 # 2) 480 30 (1 # 2) (1 # 3)))
    (CameraCapture.run [CameraCapture.sample_start] (CameraCapture.__init__ 0))
  = Ok (Some (CameraCapture.Properties 640 480 30 (1 # 2) (1 # 3))).
Proof.
  apply (proj1 (proj2 get_properties_none_iff_not_opened) 0
           [CameraCapture.sample_start]
           (CameraCapture.Device (1281 # 2) 480 30 (1 # 2) (1 # 3))).
  reflexivity.
Defined.


Section CameraContext.
Import CameraCapture.

Lemma no_thread_step e s :
  is_start e = false → workers s = [] →
  workers (step e s) = []
  ∧ frame (self (step e s)) = frame (self s)
  ∧ grabbed (self (step e s)) = grabbed (self s).
Proof.
  intros He Hw. destruct e as [r| | |i|i r|i]; cbn; try done.
  - unfold read_frame. by repeat case_match.
  - by rewrite Hw.
  - unfold _update_read. by rewrite Hw.
  - unfold _update_assign. by rewrite Hw.
Qed.

Lemma no_thread_run trace s :
  forallb (λ e, negb (is_start e)) trace = true → workers s = [] →
  workers (run trace s) = []
  ∧ frame (self (run trace s)) = frame (self s)
  ∧ grabbed (self (run trace s)) = grabbed (self s).
Proof.
  induction trace as [|e trace IH] using rev_ind; [done|].
  rewrite forallb_app. cbn. rewrite cam_run_snoc.
  intros [Ht He]%andb_prop Hs.
  destruct (IH Ht Hs) as (Hw & Hf & Hg).
  destruct (no_thread_step e (run trace s)) as (Hw' & Hf' & Hg'); [|done|].
  { by destruct (is_start e). }
  by rewrite Hw', Hf', Hg', Hf, Hg.
Qed.

End CameraContext.

(** X17. [__enter__] drops what [start] returns, so the [with] block runs
    whether or not the camera started. On a new object, [read_frame] in
    the block returns [True] exactly when the first [capture.read()]
    delivered a frame, also when [start] returned [False] because reading
    back the properties raised. And whenever [start] returned [False]
    there is no thread: until [start] is called again the slot keeps what
    it holds, so [read_frame] never gets a newer frame. *)
Theorem enter_ignores_the_result_of_start id r :
  (fst (fst (CameraCapture.read_frame
               (CameraCapture.__enter__ r (CameraCapture.__init__ id)))) = true
   ↔ is_Some (CameraCapture.delivered (CameraCapture.Start r)))
  ∧ (fst (CameraCapture.start r (CameraCapture.__init__ id)) = false →
     ∀ trace,
       forallb (λ e, negb (CameraCapture.is_start e)) trace = true →
       CameraCapture.workers
         (CameraCapture.run trace
            (CameraCapture.__enter__ r (CameraCapture.__init__ id))) = []
       ∧ CameraCapture.frame
           (CameraCapture.self
              (CameraCapture.run trace
                 (CameraCapture.__enter__ r (CameraCapture.__init__ id))))
         = CameraCapture.frame
             (CameraCapture.self
                (CameraCapture.__enter__ r (CameraCapture.__init__ id)))).
Proof.
  split.
  - destruct r as [| | | |[data|] [|]]; cbn; split;
      try done; try (by intros [? [=]]); by eexists.
  - intros Hfalse trace Htrace.
    destruct (no_thread_run trace
                (CameraCapture.__enter__ r (CameraCapture.__init__ id)))
      as (Hw & Hf & _); [done| |done].
    unfold CameraCapture.__enter__. by rewrite start_false.
Qed.

Lemma enter_ignores_the_result_of_start_witness :
  fst (CameraCapture.start
         (CameraCapture.FirstRead (Some [Byte.x01; Byte.x02; Byte.x03]) false)
         (CameraCapture.__init__ 0)) = false
  ∧ fst (fst (CameraCapture.read_frame
                (CameraCapture.__enter__
                   (CameraCapture.FirstRead (Some [Byte.x01; Byte.x02; Byte.x03]) false)
                   (CameraCapture.__init__ 0)))) = true
  ∧ CameraCapture.workers
      (CameraCapture.run [CameraCapture.UpdateCheck 0; CameraCapture.ReadFrame]
         (CameraCapture.__enter__
            (CameraCapture.FirstRead (Some [Byte.x01; Byte.x02; Byte.x03]) false)
            (CameraCapture.__init__ 0))) = [].
Proof.
  split; [reflexivity|]. split.
  - apply (proj1 (enter_ignores_the_result_of_start 0
                    (CameraCapture.FirstRead (Some [Byte.x01; Byte.x02; Byte.x03]) false))).
    eexists. reflexivity.
  - apply (proj2 (enter_ignores_the_result_of_start 0
                    (CameraCapture.FirstRead (Some [Byte.x01; Byte.x02; Byte.x03]) false))
             eq_refl
             [CameraCapture.UpdateCheck 0; CameraCapture.ReadFrame] eq_refl).
Defined.


(** ** A consumer on what the producer created *)

Lemma init_open_short path w data :
  path ∉ denied w → files w !! path = Some data →
  Z.of_nat (length data) < TOTAL_SIZE →
  ∃ s, __init__ path false w = (Raise ValueError, s) ∧ env s = w.
Proof.
  intros Hp Hd Hl. eexists. unfold __init__, _open_buffer. by run.
Qed.

(** X18. What the producer's constructor leaves can be opened by a
    consumer exactly when the flag file is a file of its own. With a flag
    path different from the data path, [SharedFrameBuffer(path,
    create=False)] returns an object and changes nothing. With a data path
    that is its own flag path (no ".mmap" in it), the four flag bytes have
    replaced the data file, and the consumer's constructor raises
    [ValueError]: the file is shorter than the mapping it asks for. *)
Theorem consumer_opens_what_producer_created path w s :
  __init__ path true w = (Ok tt, s) →
  (flag_path_of path ≠ path →
     __init__ path false (env s) = (Ok tt, State (env s) (opened_object path)))
  ∧ (flag_path_of path = path →
     contents (env s) path = flag_one
     ∧ ∃ s', __init__ path false (env s) = (Raise ValueError, s') ∧ env s' = env s).
Proof.
  intros Hi. destruct (init_create_inv path w tt s Hi) as (-> & Hp & Hf).
  unfold created. cbn [env]. split.
  - intros Hne.
    apply (init_open_existing path _ (zeros TOTAL_SIZE) flag_one).
    + by rewrite !denied_store.
    + rewrite files_store_ne by done. by rewrite files_store, lookup_insert_eq.
    + rewrite length_zeros by sizes. lia.
    + by rewrite !denied_store.
    + by rewrite files_store, lookup_insert_eq.
    + cbn. lia.
  - intros Heq. rewrite Heq. split; [by rewrite contents_store|].
    apply (init_open_short path _ flag_one).
    + by rewrite !denied_store.
    + by rewrite files_store, lookup_insert_eq.
    + cbn. sizes.
Qed.

Lemma consumer_opens_what_producer_created_witness :
  __init__ sample_path false (env (created sample_path empty_world))
  = (Ok tt, State (env (created sample_path empty_world)) (opened_object sample_path))
  ∧ ∃ s', __init__ "/tmp/frames.dat" false
            (env (created "/tmp/frames.dat" empty_world)) = (Raise ValueError, s')
          ∧ env s' = env (created "/tmp/frames.dat" empty_world).
Proof.
  split.
  - apply (proj1 (consumer_opens_what_producer_created sample_path empty_world
                    (created sample_path empty_world) sample_created)).
    apply sample_flag_differs.
  - apply (proj2 (consumer_opens_what_producer_created "/tmp/frames.dat" empty_world
                    (created "/tmp/frames.dat" empty_world)
                    (init_create_ok "/tmp/frames.dat" empty_world
                       ltac:(discriminate) ltac:(apply not_elem_of_empty)
                       ltac:(apply not_elem_of_empty) ltac:(apply not_elem_of_empty)))).
    reflexivity.
Defined.


(** ** Raw frames *)

(** X19. [read_frame] decodes a raw frame. When the data file holds a
    header whose payload size is [height * width * channels], followed by
    that many bytes, [read_frame] returns them as an array of shape
    [(height, width, channels)] with the timestamp [sec + usec / 1000000],
    and [read_frame_info] returns the header fields. *)
Theorem read_frame_decodes_a_raw_frame
  s m (header raw rest : bytes) width height channels sec usec :
  mmap_file (self s) = Some m → m_closed m = false → m_size m = TOTAL_SIZE →
  contents (env s) (m_path m) = header ++ raw ++ rest →
  pack_6I width height channels sec usec (Z.of_nat (length raw)) = Ok header →
  0 < width → 0 < height →
  0 < Z.of_nat (length raw) <= MAX_FRAME_SIZE →
  Z.of_nat (length raw) = height * width * channels →
  fst (read_frame s)
  = Ok (Some (Ndarray [height; width; channels] raw),
        Some (timestamp_of sec usec))
  ∧ fst (read_frame_info s)
    = Ok (Some (FrameInfo width height channels (timestamp_of sec usec)
                  (Z.of_nat (length raw)))).
Proof.
  intros Hm Hc Hsz Hfile Hpack Hw Hh Hlen Hshape.
  pose proof (length_pack_6I _ _ _ _ _ _ _ Hpack) as Hhl.
  assert (unpack_6I (header_bytes (env s) m)
          = Ok (width, height, channels, sec, usec, Z.of_nat (length raw))) as Hhdr.
  { unfold header_bytes, view. rewrite Hfile, Hsz.
    rewrite header_of_region by (try done; sizes). by apply unpack_pack_6I. }
  assert (payload_bytes (env s) m (Z.of_nat (length raw)) = raw) as Hpay.
  { unfold payload_bytes, view. rewrite Hfile, Hsz.
    apply payload_of_region; [done|sizes]. }
  split.
  - rewrite (read_frame_open s m) by (try done; sizes). rewrite Hhdr.
    rewrite (proj2 (Z.eqb_neq width 0)), (proj2 (Z.eqb_neq height 0)),
      (proj2 (Z.eqb_neq (Z.of_nat (length raw)) 0)) by lia.
    cbn [orb]. rewrite Hpay. unfold frombuffer_reshape.
    by rewrite (proj2 (Z.eqb_eq _ _) Hshape).
  - rewrite (read_frame_info_open s m) by (try done; sizes). rewrite Hhdr.
    by rewrite (proj2 (Z.eqb_neq width 0)), (proj2 (Z.eqb_neq height 0)) by lia.
Qed.

Lemma read_frame_decodes_a_raw_frame_witness :
  fst (read_frame (State raw_world (opened_object sample_path)))
  = Ok (Some (Ndarray [1; 1; 3] raw_pixel), Some (timestamp_of 42 500000))
  ∧ fst (read_frame_info (State raw_world (opened_object sample_path)))
    = Ok (Some (FrameInfo 1 1 3 (timestamp_of 42 500000) 3)).
Proof.
  apply (read_frame_decodes_a_raw_frame
           (State raw_world (opened_object sample_path))
           (Mmap sample_path TOTAL_SIZE ACCESS_READ 0 false)
           raw_header raw_pixel (zeros (MAX_FRAME_SIZE - 3)) 1 1 3 42 500000).
  - reflexivity.
  - reflexivity.
  - reflexivity.
  - apply contents_store.
  - reflexivity.
  - lia.
  - lia.
  - rewrite MAX_FRAME_SIZE_eq. simpl. lia.
  - reflexivity.
Defined.
